(** * stackstate-backup-cli: the Elasticsearch restore workflow

    A shallow embedding of [cmd/elasticsearch/restore-snapshot.go],
    of the deployment scaling of [internal/k8s/client.go] and of the index
    operations of [internal/elasticsearch/client.go], with the properties
    the design document states about them.

    Go strings are byte sequences: they are [string] here.  An [error] is
    represented by the text its [Error()] method returns, a nil error by
    [None].  Everything the program does to the outside (Kubernetes API
    calls, Elasticsearch requests, sleeping, reading stdin, writing to
    stdout and stderr) is an [Event]; a computation reads the history of
    events so far and returns its result with the events it has emitted. *)

From Stdlib Require Import String Ascii List ZArith Bool Arith Lia DecimalString.
Import ListNotations.
Local Open Scope list_scope.
Local Open Scope string_scope.

(* ================================================================= *)
(** ** Strings *)

Module Strings.

(** Go: [strings.HasPrefix(s, prefix)] is
    [len(s) >= len(prefix) && s[:len(prefix)] == prefix]. *)
Definition HasPrefix (s prefix : string) : bool :=
  (String.length prefix <=? String.length s)%nat
  && String.eqb (substring 0 (String.length prefix) s) prefix.

(** [s] starts with [p], said without computing. *)
Definition StartsWith (s p : string) : Prop := exists rest, s = p ++ rest.

End Strings.


(* ================================================================= *)
(** ** Index classification ([restore-snapshot.go]) *)

Module IndexSet.
Import Strings.

(** The test of the loop body of [filterSTSIndices]. *)
Definition isSTS (indexPrefix datastreamPrefix index : string) : bool :=
  HasPrefix index indexPrefix || HasPrefix index datastreamPrefix.

(** The [for _, index := range allIndices] loop; [stsIndices] is the slice
    built so far, [append] adds at its end. *)
Fixpoint filterSTSIndices_loop (indexPrefix datastreamPrefix : string)
    (allIndices stsIndices : list string) : list string :=
  match allIndices with
  | [] => stsIndices
  | index :: rest =>
      if isSTS indexPrefix datastreamPrefix index
      then filterSTSIndices_loop indexPrefix datastreamPrefix rest (stsIndices ++ [index])
      else filterSTSIndices_loop indexPrefix datastreamPrefix rest stsIndices
  end.

Definition filterSTSIndices (allIndices : list string)
    (indexPrefix datastreamPrefix : string) : list string :=
  filterSTSIndices_loop indexPrefix datastreamPrefix allIndices [].

(** [hasDatastreamIndices]: the loop returns at the first match. *)
Fixpoint hasDatastreamIndices (indices : list string) (datastreamPrefix : string) : bool :=
  match indices with
  | [] => false
  | index :: rest =>
      if HasPrefix index (datastreamPrefix ++ "-") then true
      else hasDatastreamIndices rest datastreamPrefix
  end.

(** What the design document asks of [selectManaged], as a relation between
    input and output: every name with one of the two prefixes is kept, every
    other name is dropped, and the names kept stay in their order. *)
Inductive Selected (managedPrefix dataStreamPrefix : string)
  : list string -> list string -> Prop :=
| Selected_nil : Selected managedPrefix dataStreamPrefix [] []
| Selected_keep index all out :
    StartsWith index managedPrefix \/ StartsWith index dataStreamPrefix ->
    Selected managedPrefix dataStreamPrefix all out ->
    Selected managedPrefix dataStreamPrefix (index :: all) (index :: out)
| Selected_drop index all out :
    ~ (StartsWith index managedPrefix \/ StartsWith index dataStreamPrefix) ->
    Selected managedPrefix dataStreamPrefix all out ->
    Selected managedPrefix dataStreamPrefix (index :: all) out.

End IndexSet.

(* ================================================================= *)
(** ** The outside world *)

Module World.

(** The text of a Go [error]; [None] is [nil]. *)
Definition error := string.

(** A Go pair [(value, err)] whose value is meaningless when [err] is not nil. *)
Inductive result (A : Type) : Type :=
| Ok (a : A)
| Err (e : error).
Arguments Ok {A} a.
Arguments Err {A} e.

Definition nl : string := String (ascii_of_nat 10) EmptyString.

(** [%d] of [fmt]. *)
Definition itoa (z : Z) : string := NilZero.string_of_int (Z.to_int z).

(** [esapi.Response], as far as the client looks at it: the status code, the
    body, and the text [res.String()] gives. *)
Record Response := {
  StatusCode : Z;
  Body : string;
  Text : string
}.

(** [esapi]: [func (r *Response) IsError() bool { return r.StatusCode > 299 }]. *)
Definition IsError (res : Response) : bool := (StatusCode res >? 299)%Z.

Definition StatusNotFound : Z := 404.

(** [elasticsearch.Snapshot]; the restore command reads [Indices] only. *)
Record Snapshot := {
  SnapshotName : string;
  Indices : list string
}.

(** [appsv1.Deployment]: its name and [Spec.Replicas], an [*int32]. *)
Record Deployment := {
  depName : string;
  depSpecReplicas : option Z
}.

(** [k8s.DeploymentScale]. *)
Record DeploymentScale := {
  Name : string;
  Replicas : Z
}.

(** [config.RestoreConfig], [config.ServiceConfig], [config.Config]. *)
Record RestoreConfig := {
  ScaleDownLabelSelector : string;
  IndexPrefix : string;
  DatastreamIndexPrefix : string;
  DatastreamName : string;
  IndicesPattern : string;
  Repository : string
}.

Record ServiceConfig := {
  ServiceName : string;
  Port : Z;
  LocalPortForwardPort : Z
}.

Record Config := {
  Service : ServiceConfig;
  Restore : RestoreConfig
}.

(** [config.CLIConfig]: the global flags. *)
Record CLIConfig := {
  Namespace : string;
  Kubeconfig : string;
  Debug : bool;
  Quiet : bool;
  ConfigMapName : string;
  SecretName : string
}.

(** The package-level flag variables of the restore command. *)
Record Flags := {
  snapshotName : string;
  dropAllIndices : bool;
  skipConfirmation : bool
}.

(** What the program does to the outside.  The two scaling methods of
    [k8s.Interface] also leave a mark: [EvScaleDownReturn] when
    [ScaleDownDeployments] returns, with what it returns, [EvScaleUpCall]
    when [ScaleUpDeployments] is entered, with its argument, and
    [EvScaleUpReturn] when it returns, as a recording double of the
    interface would see them.  [EvRecvReady] is the receive on the ready
    channel of the port-forward, which is taken to return. *)
Inductive Event : Type :=
| EvK8sNewClient (kubeconfig : string) (debug : bool)
| EvLoadConfig (namespace configMapName secretName : string)
| EvDeploymentsList (namespace labelSelector : string)
| EvDeploymentsGet (namespace name : string)
| EvDeploymentsUpdate (namespace : string) (deployment : Deployment)
| EvScaleDownReturn (namespace labelSelector : string)
    (scaled : list DeploymentScale) (err : option error)
| EvScaleUpCall (namespace : string) (scales : list DeploymentScale)
| EvScaleUpReturn (namespace : string) (err : option error)
| EvPortForwardService (namespace serviceName : string) (localPort remotePort : Z)
| EvRecvReady
| EvCloseStopChan
| EvEsNewClient (url : string)
| EvEsCatIndices (pattern : string)
| EvEsIndicesDelete (index : string)
| EvEsIndicesExists (index : string)
| EvEsIndicesRollover (name : string)
| EvEsSnapshotGet (repository snapshot : string)
| EvEsSnapshotRestore (repository snapshot indicesPattern : string)
    (waitForCompletion : bool)
| EvSleep (nanoseconds : Z)
| EvStdinReadString
| EvStdout (s : string)
| EvStderr (s : string)
| EvExit (code : Z).

Definition History := list Event.

(** How the outside answers.  Every answer may depend on all that happened
    before.  A trace records the calls and what the code of the command
    itself prints; what [config.LoadConfig] and the port forwarder print on
    their own (a notice on the standard output when the Secret is missing,
    the output of the forwarder with [--debug]) is not part of it.
    [stringsToLower] and [stringsTrimSpace] are Go's [strings.ToLower] and
    [strings.TrimSpace], [decodeIndices] and [decodeSnapshots] the JSON
    decoding of the two response bodies. *)
Record Env := {
  k8sNewClient : History -> string -> bool -> option error;
  loadConfig : History -> string -> string -> string -> result Config;
  deploymentsList : History -> string -> string -> result (list Deployment);
  deploymentsGet : History -> string -> string -> result Deployment;
  deploymentsUpdate : History -> string -> Deployment -> option error;
  portForwardService : History -> string -> string -> Z -> Z -> option error;
  esNewClient : History -> string -> option error;
  esCatIndices : History -> string -> result Response;
  esIndicesDelete : History -> string -> result Response;
  esIndicesExists : History -> string -> result Response;
  esIndicesRollover : History -> string -> result Response;
  esSnapshotGet : History -> string -> string -> result Response;
  esSnapshotRestore : History -> string -> string -> string -> bool -> result Response;
  stdinReadString : History -> string * option error;
  decodeIndices : string -> result (list string);
  decodeSnapshots : string -> result (list Snapshot);
  stringsToLower : string -> string;
  stringsTrimSpace : string -> string
}.

(** A computation: from the history so far to a result and the events emitted. *)
Definition M (A : Type) : Type := History -> A * list Event.

Definition ret {A} (a : A) : M A := fun _ => (a, []).

Definition bind {A B} (m : M A) (f : A -> M B) : M B :=
  fun h =>
    let r := m h in
    let r' := f (fst r) (h ++ snd r)%list in
    (fst r', (snd r ++ snd r')%list).

(** An effect with no answer. *)
Definition emit (e : Event) : M unit := fun _ => (tt, [e]).

(** An effect whose answer the outside chooses. *)
Definition call {A} (answer : History -> A) (e : Event) : M A :=
  fun h => (answer h, [e]).

(** [defer d] at the head of [body]: [d] runs when [body] has returned, and
    cannot change the unnamed result. *)
Definition withDefer {A} (d : M unit) (body : M A) : M A :=
  bind body (fun r => bind d (fun _ => ret r)).

(** [for _, x := range l { f x }] with no early exit. *)
Fixpoint forEach {A} (l : list A) (f : A -> M unit) : M unit :=
  match l with
  | [] => ret tt
  | x :: rest => bind (f x) (fun _ => forEach rest f)
  end.

Definition events {A} (m : M A) (h : History) : list Event := snd (m h).
Definition value {A} (m : M A) (h : History) : A := fst (m h).

End World.

Declare Scope go_scope.
Delimit Scope go_scope with go.
Notation "x <- m ;; k" := (World.bind m (fun x => k))
  (at level 61, m at next level, right associativity) : go_scope.
Notation "m ;; k" := (World.bind m (fun _ => k))
  (at level 61, right associativity) : go_scope.
Local Open Scope go_scope.

(* ================================================================= *)
(** ** Reading traces *)

Module Trace.
Import World.

(** How many of the events satisfy [p]. *)
Definition count (p : Event -> bool) (l : list Event) : nat :=
  List.length (filter p l).

(** [m] never emits an event satisfying [p]. *)
Definition Silent {A} (p : Event -> bool) (m : M A) : Prop :=
  forall h, count p (events m h) = 0%nat.

(** [m] emits only events satisfying [q]. *)
Definition Emits {A} (q : Event -> bool) (m : M A) : Prop :=
  forall h, forallb q (events m h) = true.

(** What the scale down may emit. *)
Definition pauseEvent (e : Event) : bool :=
  match e with
  | EvStderr _ | EvDeploymentsList _ _ | EvDeploymentsUpdate _ _
  | EvScaleDownReturn _ _ _ _ => true
  | _ => false
  end.

(** What the scale up may emit. *)
Definition resumeEvent (e : Event) : bool :=
  match e with
  | EvStderr _ | EvDeploymentsGet _ _ | EvDeploymentsUpdate _ _
  | EvScaleUpCall _ _ | EvScaleUpReturn _ _ => true
  | _ => false
  end.

(** What the work on Elasticsearch may emit. *)
Definition esEvent (e : Event) : bool :=
  match e with
  | EvStderr _ | EvEsCatIndices _ | EvEsIndicesDelete _ | EvEsIndicesExists _
  | EvEsIndicesRollover _ | EvEsSnapshotGet _ _ | EvEsSnapshotRestore _ _ _ _
  | EvSleep _ => true
  | _ => false
  end.

(** What [runRestore] may emit between the scale down and the scale up. *)
Definition restoreEvent (e : Event) : bool :=
  match e with
  | EvPortForwardService _ _ _ _ | EvRecvReady | EvCloseStopChan
  | EvEsNewClient _ | EvStdinReadString | EvStdout _ => true
  | _ => esEvent e
  end.

(** The calls to the Kubernetes API for deployments. *)
Definition deploymentsCall (e : Event) : bool :=
  match e with
  | EvDeploymentsList _ _ | EvDeploymentsGet _ _ | EvDeploymentsUpdate _ _ => true
  | _ => false
  end.

(** The calls [ScaleUpDeployments] makes for one entry. *)
Definition fetchOrUpdate (e : Event) : bool :=
  match e with
  | EvDeploymentsGet _ _ | EvDeploymentsUpdate _ _ => true
  | _ => false
  end.

(** What [runRestore] may emit before the scale down. *)
Definition setupEvent (e : Event) : bool :=
  match e with
  | EvK8sNewClient _ _ | EvLoadConfig _ _ _ => true
  | _ => false
  end.

Definition isScaleUpCall (e : Event) : bool :=
  match e with EvScaleUpCall _ _ => true | _ => false end.

Definition isDeploymentsGet (e : Event) : bool :=
  match e with EvDeploymentsGet _ _ => true | _ => false end.

Definition isEsDelete (e : Event) : bool :=
  match e with EvEsIndicesDelete _ => true | _ => false end.

Definition isEsExists (e : Event) : bool :=
  match e with EvEsIndicesExists _ => true | _ => false end.

Definition isSleep (e : Event) : bool :=
  match e with EvSleep _ => true | _ => false end.

Definition isStdinRead (e : Event) : bool :=
  match e with EvStdinReadString => true | _ => false end.

Definition isStderr (e : Event) : bool :=
  match e with EvStderr _ => true | _ => false end.

Definition isExit (e : Event) : bool :=
  match e with EvExit _ => true | _ => false end.

End Trace.

(* ================================================================= *)
(** ** [internal/logger] *)

Module Logger.
Import World.

Record Logger := {
  quiet : bool;
  debug : bool
}.

(** [New]: the writer is [os.Stderr]. *)
Definition New (quiet debug : bool) : Logger :=
  {| quiet := quiet; debug := debug |}.

(** Each method takes the message already formatted. *)
Definition Infof (l : Logger) (msg : string) : M unit :=
  if negb (quiet l) then emit (EvStderr (msg ++ nl)) else ret tt.

Definition Successf (l : Logger) (msg : string) : M unit :=
  if negb (quiet l) then emit (EvStderr ("✓ " ++ msg ++ nl)) else ret tt.

Definition Warningf (l : Logger) (msg : string) : M unit :=
  if negb (quiet l) then emit (EvStderr ("Warning: " ++ msg ++ nl)) else ret tt.

Definition Errorf (l : Logger) (msg : string) : M unit :=
  emit (EvStderr ("Error: " ++ msg ++ nl)).

Definition Debugf (l : Logger) (msg : string) : M unit :=
  if debug l then emit (EvStderr ("DEBUG: " ++ msg ++ nl)) else ret tt.

Definition Println (l : Logger) : M unit :=
  if negb (quiet l) then emit (EvStderr nl) else ret tt.

End Logger.

(* ================================================================= *)
(** ** [internal/elasticsearch/client.go] *)

Module ES.
Import World.

(** [ListIndices]. *)
Definition ListIndices (env : Env) (pattern : string) : M (result (list string)) :=
  r <- call (fun h => esCatIndices env h pattern) (EvEsCatIndices pattern) ;;
  match r with
  | Err e => ret (Err ("failed to list indices: " ++ e))
  | Ok res =>
      if IsError res then ret (Err ("elasticsearch returned error: " ++ Text res))
      else match decodeIndices env (Body res) with
           | Err e => ret (Err ("failed to decode response: " ++ e))
           | Ok indices => ret (Ok indices)
           end
  end.

(** [GetSnapshot]. *)
Definition GetSnapshot (env : Env) (repository snapshotName : string)
  : M (result Snapshot) :=
  r <- call (fun h => esSnapshotGet env h repository snapshotName)
            (EvEsSnapshotGet repository snapshotName) ;;
  match r with
  | Err e => ret (Err ("failed to get snapshot: " ++ e))
  | Ok res =>
      if IsError res then ret (Err ("elasticsearch returned error: " ++ Text res))
      else match decodeSnapshots env (Body res) with
           | Err e => ret (Err ("failed to decode response: " ++ e))
           | Ok [] => ret (Err ("snapshot " ++ snapshotName ++ " not found"))
           | Ok (s :: _) => ret (Ok s)
           end
  end.

(** [DeleteIndex]. *)
Definition DeleteIndex (env : Env) (index : string) : M (option error) :=
  r <- call (fun h => esIndicesDelete env h index) (EvEsIndicesDelete index) ;;
  match r with
  | Err e => ret (Some ("failed to delete index: " ++ e))
  | Ok res =>
      if IsError res then ret (Some ("elasticsearch returned error: " ++ Text res))
      else ret None
  end.

(** What [IndexExists] makes of the answer to its probe. *)
Definition IndexExists_verdict (probe : result Response) : bool * option error :=
  match probe with
  | Err e => (false, Some ("failed to check index existence: " ++ e))
  | Ok res =>
      if (StatusCode res =? StatusNotFound)%Z then (false, None)
      else if IsError res then (false, Some ("elasticsearch returned error: " ++ Text res))
      else (true, None)
  end.

(** [IndexExists]. *)
Definition IndexExists (env : Env) (index : string) : M (bool * option error) :=
  r <- call (fun h => esIndicesExists env h index) (EvEsIndicesExists index) ;;
  ret (IndexExists_verdict r).

(** [RolloverDatastream]. *)
Definition RolloverDatastream (env : Env) (datastreamName : string) : M (option error) :=
  r <- call (fun h => esIndicesRollover env h datastreamName)
            (EvEsIndicesRollover datastreamName) ;;
  match r with
  | Err e => ret (Some ("failed to rollover datastream: " ++ e))
  | Ok res =>
      if IsError res then ret (Some ("elasticsearch returned error: " ++ Text res))
      else ret None
  end.

(** [RestoreSnapshot].  The request body is the map [{"indices": pattern}];
    marshalling it cannot fail. *)
Definition RestoreSnapshot (env : Env) (repository snapshotName indicesPattern : string)
    (waitForCompletion : bool) : M (option error) :=
  r <- call (fun h => esSnapshotRestore env h repository snapshotName
                        indicesPattern waitForCompletion)
            (EvEsSnapshotRestore repository snapshotName indicesPattern
                        waitForCompletion) ;;
  match r with
  | Err e => ret (Some ("failed to restore snapshot: " ++ e))
  | Ok res =>
      if IsError res then ret (Some ("elasticsearch returned error: " ++ Text res))
      else ret None
  end.

End ES.

(* ================================================================= *)
(** ** [internal/k8s/client.go] *)

Module K8s.
Import World.

Definition withReplicas (d : Deployment) (replicas : Z) : Deployment :=
  {| depName := depName d; depSpecReplicas := Some replicas |}.

(** The loop of [ScaleDownDeployments] over [deployments.Items];
    [scaledDeployments] is the slice built so far. *)
Fixpoint ScaleDownDeployments_loop (env : Env) (namespace : string)
    (items : list Deployment) (scaledDeployments : list DeploymentScale)
  : M (list DeploymentScale * option error) :=
  match items with
  | [] => ret (scaledDeployments, None)
  | deployment :: rest =>
      let originalReplicas :=
        match depSpecReplicas deployment with
        | Some r => r
        | None => 0%Z
        end in
      let scaledDeployments :=
        (scaledDeployments
           ++ [{| Name := depName deployment; Replicas := originalReplicas |}])%list in
      if (originalReplicas >? 0)%Z then
        let deployment := withReplicas deployment 0 in
        err <- call (fun h => deploymentsUpdate env h namespace deployment)
                    (EvDeploymentsUpdate namespace deployment) ;;
        match err with
        | Some e =>
            ret (scaledDeployments,
                 Some ("failed to scale down deployment " ++ depName deployment
                       ++ ": " ++ e))
        | None => ScaleDownDeployments_loop env namespace rest scaledDeployments
        end
      else ScaleDownDeployments_loop env namespace rest scaledDeployments
  end.

Definition ScaleDownDeployments_body (env : Env) (namespace labelSelector : string)
  : M (list DeploymentScale * option error) :=
  deployments <- call (fun h => deploymentsList env h namespace labelSelector)
                      (EvDeploymentsList namespace labelSelector) ;;
  match deployments with
  | Err e => ret ([], Some ("failed to list deployments: " ++ e))
  | Ok items =>
      if (List.length items =? 0)%nat then ret ([], None)
      else ScaleDownDeployments_loop env namespace items []
  end.

(** [ScaleDownDeployments]. *)
Definition ScaleDownDeployments (env : Env) (namespace labelSelector : string)
  : M (list DeploymentScale * option error) :=
  r <- ScaleDownDeployments_body env namespace labelSelector ;;
  emit (EvScaleDownReturn namespace labelSelector (fst r) (snd r)) ;;
  ret r.

(** The loop of [ScaleUpDeployments]: it returns at the first failure. *)
Fixpoint ScaleUpDeployments_loop (env : Env) (namespace : string)
    (deploymentScales : list DeploymentScale) : M (option error) :=
  match deploymentScales with
  | [] => ret None
  | scale :: rest =>
      r <- call (fun h => deploymentsGet env h namespace (Name scale))
                (EvDeploymentsGet namespace (Name scale)) ;;
      match r with
      | Err e => ret (Some ("failed to get deployment " ++ Name scale ++ ": " ++ e))
      | Ok deployment =>
          let deployment := withReplicas deployment (Replicas scale) in
          err <- call (fun h => deploymentsUpdate env h namespace deployment)
                      (EvDeploymentsUpdate namespace deployment) ;;
          match err with
          | Some e =>
              ret (Some ("failed to scale up deployment " ++ Name scale ++ ": " ++ e))
          | None => ScaleUpDeployments_loop env namespace rest
          end
      end
  end.

(** [ScaleUpDeployments]. *)
Definition ScaleUpDeployments (env : Env) (namespace : string)
    (deploymentScales : list DeploymentScale) : M (option error) :=
  emit (EvScaleUpCall namespace deploymentScales) ;;
  err <- ScaleUpDeployments_loop env namespace deploymentScales ;;
  emit (EvScaleUpReturn namespace err) ;;
  ret err.

End K8s.

(* ================================================================= *)
(** ** [cmd/elasticsearch/restore-snapshot.go] *)

Module Restore.
Import World Logger IndexSet.

Definition defaultMaxIndexDeleteAttempts : Z := 30.

(** [time.Second], in nanoseconds. *)
Definition Second : Z := 1000000000.
Definition defaultIndexDeleteRetryInterval : Z := 1 * Second.

Definition len {A} (l : list A) : Z := Z.of_nat (List.length l).

(** [confirmDeletion]. *)
Definition confirmDeletion (env : Env) : M (option error) :=
  emit (EvStdout (nl ++ "Are you sure you want to delete these indices? (yes/no): ")) ;;
  r <- call (stdinReadString env) EvStdinReadString ;;
  match snd r with
  | Some e => ret (Some ("failed to read confirmation: " ++ e))
  | None =>
      let response := stringsTrimSpace env (stringsToLower env (fst r)) in
      if negb (response =? "yes") && negb (response =? "y")
      then ret (Some "restore cancelled by user")
      else ret None
  end.

(** The verification loop of [deleteIndexWithVerification]:
    [for attempt := 0; attempt < defaultMaxIndexDeleteAttempts; attempt++].
    [fuel] bounds the iterations left and is never what stops the loop when
    it starts at [defaultMaxIndexDeleteAttempts - attempt]. *)
Fixpoint verifyDeletion (env : Env) (log : Logger) (index : string)
    (fuel : nat) (attempt : Z) : M (option error) :=
  match fuel with
  | O => ret None
  | S fuel =>
      if (attempt <? defaultMaxIndexDeleteAttempts)%Z then
        r <- ES.IndexExists env index ;;
        match snd r with
        | Some e => ret (Some ("failed to check index existence: " ++ e))
        | None =>
            if negb (fst r) then
              Debugf log ("Index successfully deleted: " ++ index) ;;
              ret None
            else if (attempt >=? defaultMaxIndexDeleteAttempts - 1)%Z then
              ret (Some ("timeout waiting for index " ++ index ++ " to be deleted"))
            else
              emit (EvSleep defaultIndexDeleteRetryInterval) ;;
              verifyDeletion env log index fuel (attempt + 1)
        end
      else ret None
  end.

(** [deleteIndexWithVerification]. *)
Definition deleteIndexWithVerification (env : Env) (index : string) (log : Logger)
  : M (option error) :=
  Infof log ("  Deleting index: " ++ index) ;;
  err <- ES.DeleteIndex env index ;;
  match err with
  | Some e => ret (Some ("failed to delete index " ++ index ++ ": " ++ e))
  | None =>
      verifyDeletion env log index (Z.to_nat defaultMaxIndexDeleteAttempts) 0
  end.

(** [scaleDownDeployments]: on an error it returns [nil] for the slice. *)
Definition scaleDownDeployments (env : Env) (namespace labelSelector : string)
    (log : Logger) : M (list DeploymentScale * option error) :=
  Infof log ("Scaling down deployments (selector: " ++ labelSelector ++ ")...") ;;
  r <- K8s.ScaleDownDeployments env namespace labelSelector ;;
  let scaledDeployments := fst r in
  match snd r with
  | Some e => ret ([], Some ("failed to scale down deployments: " ++ e))
  | None =>
      (if (len scaledDeployments =? 0)%Z then
         Infof log "No deployments found to scale down"
       else
         Successf log ("Scaled down " ++ itoa (len scaledDeployments)
                       ++ " deployment(s):") ;;
         forEach scaledDeployments (fun dep =>
           Infof log ("  - " ++ Name dep ++ " (replicas: "
                      ++ itoa (Replicas dep) ++ " -> 0)"))) ;;
      ret (scaledDeployments, None)
  end.

(** The loop of [deleteIndices] over the indices: the first failure ends it. *)
Fixpoint deleteIndices_loop (env : Env) (log : Logger) (stsIndices : list string)
  : M (option error) :=
  match stsIndices with
  | [] => ret None
  | index :: rest =>
      err <- deleteIndexWithVerification env index log ;;
      match err with
      | Some e => ret (Some e)
      | None => deleteIndices_loop env log rest
      end
  end.

(** [deleteIndices], from the rollover on. *)
Definition deleteIndices_rollover (env : Env) (stsIndices : list string)
    (cfg : Config) (log : Logger) : M (option error) :=
  err <- (if hasDatastreamIndices stsIndices (DatastreamIndexPrefix (Restore cfg)) then
            Infof log ("Rolling over datastream '"
                       ++ DatastreamName (Restore cfg) ++ "'...") ;;
            err <- ES.RolloverDatastream env (DatastreamName (Restore cfg)) ;;
            match err with
            | Some e => ret (Some ("failed to rollover datastream: " ++ e))
            | None => Successf log "Datastream rolled over successfully" ;; ret None
            end
          else ret None) ;;
  match err with
  | Some e => ret (Some e)
  | None =>
      Infof log ("Deleting " ++ itoa (len stsIndices) ++ " index(es)...") ;;
      err <- deleteIndices_loop env log stsIndices ;;
      match err with
      | Some e => ret (Some e)
      | None => Successf log "All indices deleted successfully" ;; ret None
      end
  end.

(** [deleteIndices]. *)
Definition deleteIndices (env : Env) (stsIndices : list string) (cfg : Config)
    (log : Logger) (skipConfirm : bool) : M (option error) :=
  if (len stsIndices =? 0)%Z then
    Infof log "No STS indices found to delete" ;; ret None
  else
    Infof log ("Found " ++ itoa (len stsIndices) ++ " STS index(es) to delete") ;;
    forEach stsIndices (fun index => Debugf log ("  - " ++ index)) ;;
    err <- (if negb skipConfirm then confirmDeletion env else ret None) ;;
    match err with
    | Some e => ret (Some e)
    | None => deleteIndices_rollover env stsIndices cfg log
    end.

(** The function deferred by [runRestore] right after the scale down. *)
Definition deferredScaleUp (env : Env) (cliCtx : CLIConfig) (log : Logger)
    (scaledDeployments : list DeploymentScale) : M unit :=
  if (len scaledDeployments >? 0)%Z then
    Println log ;;
    Infof log "Scaling up deployments back to original replica counts..." ;;
    err <- K8s.ScaleUpDeployments env (Namespace cliCtx) scaledDeployments ;;
    match err with
    | Some e => Warningf log ("Failed to scale up deployments: " ++ e)
    | None =>
        Successf log ("Scaled up " ++ itoa (len scaledDeployments)
                      ++ " deployment(s) successfully:") ;;
        forEach scaledDeployments (fun dep =>
          Infof log ("  - " ++ Name dep ++ " (replicas: 0 -> "
                     ++ itoa (Replicas dep) ++ ")"))
    end
  else ret tt.

(** [runRestore], once the port-forward is ready. *)
Definition runRestore_forwarded (env : Env) (cliCtx : CLIConfig) (flags : Flags)
    (cfg : Config) (log : Logger) : M (option error) :=
  let localPort := LocalPortForwardPort (Service cfg) in
  Successf log "Port-forward established successfully" ;;
  err <- call (fun h => esNewClient env h ("http://localhost:" ++ itoa localPort))
              (EvEsNewClient ("http://localhost:" ++ itoa localPort)) ;;
  match err with
  | Some e => ret (Some ("failed to create Elasticsearch client: " ++ e))
  | None =>
  let repository := Repository (Restore cfg) in
  Infof log "Fetching current Elasticsearch indices..." ;;
  allIndices <- ES.ListIndices env "*" ;;
  match allIndices with
  | Err e => ret (Some ("failed to list indices: " ++ e))
  | Ok allIndices =>
  let stsIndices :=
    filterSTSIndices allIndices (IndexPrefix (Restore cfg))
      (DatastreamIndexPrefix (Restore cfg)) in
  err <- (if dropAllIndices flags then
            Println log ;;
            deleteIndices env stsIndices cfg log (skipConfirmation flags)
          else ret None) ;;
  match err with
  | Some e => ret (Some e)
  | None =>
  Println log ;;
  Infof log ("Restoring snapshot '" ++ snapshotName flags ++ "' from repository '"
             ++ repository ++ "'") ;;
  snapshot <- ES.GetSnapshot env repository (snapshotName flags) ;;
  match snapshot with
  | Err e => ret (Some ("failed to get snapshot details: " ++ e))
  | Ok snapshot =>
  Debugf log ("Indices pattern: " ++ IndicesPattern (Restore cfg)) ;;
  (if (len (Indices snapshot) =? 0)%Z then
     Warningf log "Snapshot contains no indices"
   else
     Infof log ("Snapshot contains " ++ itoa (len (Indices snapshot)) ++ " index(es)") ;;
     forEach (Indices snapshot) (fun index => Debugf log ("  - " ++ index))) ;;
  Infof log "Starting restore - this may take several minutes..." ;;
  err <- ES.RestoreSnapshot env repository (snapshotName flags)
           (IndicesPattern (Restore cfg)) true ;;
  match err with
  | Some e => ret (Some ("failed to restore snapshot: " ++ e))
  | None =>
  Println log ;;
  Successf log "Restore completed successfully" ;;
  ret None
  end end end end end.

(** [runRestore], after the scale-up has been deferred. *)
Definition runRestore_scaled (env : Env) (cliCtx : CLIConfig) (flags : Flags)
    (cfg : Config) (log : Logger) : M (option error) :=
  let serviceName := ServiceName (Service cfg) in
  let localPort := LocalPortForwardPort (Service cfg) in
  let remotePort := Port (Service cfg) in
  Infof log ("Setting up port-forward to " ++ serviceName ++ ":" ++ itoa remotePort
             ++ " in namespace " ++ Namespace cliCtx ++ "...") ;;
  err <- call (fun h => portForwardService env h (Namespace cliCtx) serviceName
                          localPort remotePort)
              (EvPortForwardService (Namespace cliCtx) serviceName
                          localPort remotePort) ;;
  match err with
  | Some e => ret (Some ("failed to setup port-forward: " ++ e))
  | None =>
      withDefer (emit EvCloseStopChan)
        (emit EvRecvReady ;;
         runRestore_forwarded env cliCtx flags cfg log)
  end.

(** [runRestore]. *)
Definition runRestore (env : Env) (cliCtx : CLIConfig) (flags : Flags)
  : M (option error) :=
  let log := Logger.New (Quiet cliCtx) (Debug cliCtx) in
  err <- call (fun h => k8sNewClient env h (Kubeconfig cliCtx) (Debug cliCtx))
              (EvK8sNewClient (Kubeconfig cliCtx) (Debug cliCtx)) ;;
  match err with
  | Some e => ret (Some ("failed to create Kubernetes client: " ++ e))
  | None =>
  cfg <- call (fun h => loadConfig env h (Namespace cliCtx) (ConfigMapName cliCtx)
                          (SecretName cliCtx))
              (EvLoadConfig (Namespace cliCtx) (ConfigMapName cliCtx)
                          (SecretName cliCtx)) ;;
  match cfg with
  | Err e => ret (Some ("failed to load configuration: " ++ e))
  | Ok cfg =>
  r <- scaleDownDeployments env (Namespace cliCtx)
         (ScaleDownLabelSelector (Restore cfg)) log ;;
  let scaledDeployments := fst r in
  match snd r with
  | Some e => ret (Some e)
  | None =>
      withDefer (deferredScaleUp env cliCtx log scaledDeployments)
        (runRestore_scaled env cliCtx flags cfg log)
  end end end.

(** The [Run] function of [restoreCmd]; its result is the exit code of the
    process. *)
Definition restoreCmd_Run (env : Env) (cliCtx : CLIConfig) (flags : Flags) : M Z :=
  err <- runRestore env cliCtx flags ;;
  match err with
  | Some e =>
      emit (EvStderr ("error: " ++ e ++ nl)) ;;
      emit (EvExit 1) ;;
      ret 1%Z
  | None => ret 0%Z
  end.

End Restore.

(* ================================================================= *)
(** ** Vocabulary of the statements *)

Module Expect.
Import World.

(** The replica count [ScaleDownDeployments] records: 0 for a nil pointer. *)
Definition replicasOf (d : Deployment) : Z :=
  match depSpecReplicas d with
  | Some r => r
  | None => 0%Z
  end.

Definition snapshotOf (d : Deployment) : DeploymentScale :=
  {| Name := depName d; Replicas := replicasOf d |}.

Definition running (d : Deployment) : bool := (replicasOf d >? 0)%Z.

(** The updates that scale the running deployments of [l] to zero. *)
Definition pauseUpdates (namespace : string) (l : list Deployment) : list Event :=
  map (fun d => EvDeploymentsUpdate namespace (K8s.withReplicas d 0))
      (filter running l).

(** The names fetched, in the order of the trace. *)
Definition getNames (l : list Event) : list string :=
  flat_map (fun e => match e with EvDeploymentsGet _ n => [n] | _ => [] end) l.

(** The replica counts written, in the order of the trace. *)
Definition updateReplicas (l : list Event) : list (option Z) :=
  flat_map (fun e => match e with
                     | EvDeploymentsUpdate _ d => [depSpecReplicas d]
                     | _ => []
                     end) l.

(** The two calls that restore one entry: the fetch of the deployment named
    in it, and the update of the deployment fetched, [d], with the replica
    count of the entry. *)
Definition resumeCall (namespace : string) (p : DeploymentScale * Deployment)
  : list Event :=
  [EvDeploymentsGet namespace (Name (fst p));
   EvDeploymentsUpdate namespace (K8s.withReplicas (snd p) (Replicas (fst p)))].

(** The calls that restore the entries of [l], one after the other. *)
Definition resumeCalls (namespace : string) (l : list (DeploymentScale * Deployment))
  : list Event :=
  flat_map (resumeCall namespace) l.

(** From the history [h] on, the Kubernetes API answers the fetch of every
    entry of [l] with the deployment paired with it, and accepts its update:
    each answer is taken at the history that the calls before it leave. *)
Fixpoint Restores (env : Env) (namespace : string) (h : History)
    (l : list (DeploymentScale * Deployment)) : Prop :=
  match l with
  | [] => True
  | p :: rest =>
      deploymentsGet env h namespace (Name (fst p)) = Ok (snd p)
      /\ deploymentsUpdate env (h ++ [EvDeploymentsGet namespace (Name (fst p))])%list
           namespace (K8s.withReplicas (snd p) (Replicas (fst p))) = None
      /\ Restores env namespace (h ++ resumeCall namespace p)%list rest
  end.

(** [k] rounds of an existence check that is followed by a sleep. *)
Fixpoint polling (index : string) (k : nat) : list Event :=
  match k with
  | O => []
  | S k => EvEsIndicesExists index
           :: EvSleep Restore.defaultIndexDeleteRetryInterval
           :: polling index k
  end.

(** The line read is an affirmative answer. *)
Definition affirmative (env : Env) (line : string) : Prop :=
  let response := stringsTrimSpace env (stringsToLower env line) in
  response = "yes" \/ response = "y".

(** The text of the error for a declined confirmation. *)
Definition cancelled : error := "restore cancelled by user".

(** [m] asks for no confirmation, or fails with the error [failure] and
    without a delete call. *)
Definition Refused (failure : error) (m : M (option error)) : Prop :=
  forall h,
    Trace.count Trace.isStdinRead (events m h) <> 0%nat ->
    value m h = Some failure
    /\ Trace.count Trace.isEsDelete (events m h) = 0%nat.

End Expect.

(* ================================================================= *)
(** ** Scripted worlds, for running the model *)

Module Fake.
Import World.

(** [strings.ToLower] and [strings.TrimSpace] on ASCII text: on bytes below
    128 they are what Go computes. *)
Definition isUpper (c : ascii) : bool :=
  (65 <=? nat_of_ascii c)%nat && (nat_of_ascii c <=? 90)%nat.

Definition toLower (c : ascii) : ascii :=
  if isUpper c then ascii_of_nat (nat_of_ascii c + 32) else c.

Fixpoint ToLower (s : string) : string :=
  match s with
  | EmptyString => EmptyString
  | String c rest => String (toLower c) (ToLower rest)
  end.

(** Tab, line feed, vertical tab, form feed, carriage return, space. *)
Definition isSpace (c : ascii) : bool :=
  let n := nat_of_ascii c in
  ((9 <=? n)%nat && (n <=? 13)%nat) || (n =? 32)%nat.

Fixpoint trimLeft (s : string) : string :=
  match s with
  | EmptyString => EmptyString
  | String c rest => if isSpace c then trimLeft rest else s
  end.

Fixpoint trimRight (s : string) : string :=
  match s with
  | EmptyString => EmptyString
  | String c rest =>
      match trimRight rest with
      | EmptyString => if isSpace c then EmptyString else String c EmptyString
      | rest' => String c rest'
      end
  end.

Definition TrimSpace (s : string) : string := trimRight (trimLeft s).

(** What a scripted world answers. *)
Record Script := {
  items : list Deployment;
  updateFails : Deployment -> bool;
  getFails : string -> bool;
  indices : list string;
  existsStatus : nat -> Z;
  restoreStatus : Z;
  stdinLine : string * option error
}.

Definition ok200 : Response := {| StatusCode := 200; Body := ""; Text := "[200 OK]" |}.

Definition status (code : Z) : Response :=
  {| StatusCode := code; Body := ""; Text := "[" ++ itoa code ++ "]" |}.

Definition config : Config :=
  {| Service := {| ServiceName := "es-master"; Port := 9200; LocalPortForwardPort := 9200 |};
     Restore := {| ScaleDownLabelSelector := "scalable=true";
                   IndexPrefix := "sts_";
                   DatastreamIndexPrefix := "sts_k8s_logs";
                   DatastreamName := "sts_k8s_logs";
                   IndicesPattern := "sts*";
                   Repository := "sts-backup" |} |}.

Fixpoint lookup (name : string) (l : list Deployment) : option Deployment :=
  match l with
  | [] => None
  | d :: rest => if depName d =? name then Some d else lookup name rest
  end.

(** The world of a script: the [n]-th existence probe is answered with
    status [existsStatus n]; everything not scripted succeeds. *)
Definition world (s : Script) : Env :=
  {| k8sNewClient := fun _ _ _ => None;
     loadConfig := fun _ _ _ _ => Ok config;
     deploymentsList := fun _ _ _ => Ok (items s);
     deploymentsGet := fun _ _ name =>
       if getFails s name then Err "not found"
       else match lookup name (items s) with
            | Some d => Ok d
            | None => Err "not found"
            end;
     deploymentsUpdate := fun _ _ d =>
       if updateFails s d then Some "conflict" else None;
     portForwardService := fun _ _ _ _ _ => None;
     esNewClient := fun _ _ => None;
     esCatIndices := fun _ _ => Ok ok200;
     esIndicesDelete := fun _ _ => Ok ok200;
     esIndicesExists := fun h _ =>
       Ok (status (existsStatus s (Trace.count Trace.isEsExists h)));
     esIndicesRollover := fun _ _ => Ok ok200;
     esSnapshotGet := fun _ _ _ => Ok ok200;
     esSnapshotRestore := fun _ _ _ _ _ => Ok (status (restoreStatus s));
     stdinReadString := fun _ => stdinLine s;
     decodeIndices := fun _ => Ok (indices s);
     decodeSnapshots := fun _ =>
       Ok [{| SnapshotName := "backup-1"; Indices := ["sts_topology"] |}];
     stringsToLower := ToLower;
     stringsTrimSpace := TrimSpace |}.

Definition A3 : Deployment := {| depName := "A"; depSpecReplicas := Some 3%Z |}.
Definition B5 : Deployment := {| depName := "B"; depSpecReplicas := Some 5%Z |}.
Definition C2 : Deployment := {| depName := "C"; depSpecReplicas := Some 2%Z |}.

(** Three deployments; every update of ["B"] is refused. *)
Definition updateOfBFails : Script :=
  {| items := [A3; B5; C2];
     updateFails := fun d => depName d =? "B";
     getFails := fun _ => false;
     indices := [];
     existsStatus := fun _ => 404%Z;
     restoreStatus := 200%Z;
     stdinLine := ("yes" ++ nl, None) |}.

(** Two deployments were paused; afterwards no deployment can be fetched. *)
Definition getsFail (restoreStatus : Z) : Script :=
  {| items := [A3; B5];
     updateFails := fun _ => false;
     getFails := fun _ => true;
     indices := [];
     existsStatus := fun _ => 404%Z;
     restoreStatus := restoreStatus;
     stdinLine := ("yes" ++ nl, None) |}.

(** Two deployments; the restore call is answered with status 500. *)
Definition restoreFails : Script :=
  {| items := [A3; B5];
     updateFails := fun _ => false;
     getFails := fun _ => false;
     indices := [];
     existsStatus := fun _ => 404%Z;
     restoreStatus := 500%Z;
     stdinLine := ("yes" ++ nl, None) |}.

(** One managed index is there; every existence probe finds it. *)
Definition stuck : Script :=
  {| items := [A3; B5];
     updateFails := fun _ => false;
     getFails := fun _ => false;
     indices := ["sts_topology"; "other_index"];
     existsStatus := fun _ => 200%Z;
     restoreStatus := 200%Z;
     stdinLine := ("yes" ++ nl, None) |}.

(** The first four probes find the index, the fifth does not. *)
Definition goneAtFifth : Script :=
  {| items := [A3; B5];
     updateFails := fun _ => false;
     getFails := fun _ => false;
     indices := ["sts_topology"; "other_index"];
     existsStatus := fun n => if (n <? 4)%nat then 200%Z else 404%Z;
     restoreStatus := 200%Z;
     stdinLine := ("yes" ++ nl, None) |}.

(** One managed index is there; the user answers the given line. *)
Definition answers (line : string) : Script :=
  {| items := [A3; B5];
     updateFails := fun _ => false;
     getFails := fun _ => false;
     indices := ["sts_topology"; "other_index"];
     existsStatus := fun _ => 404%Z;
     restoreStatus := 200%Z;
     stdinLine := (line ++ nl, None) |}.

Definition cli (quiet : bool) : CLIConfig :=
  {| Namespace := "ns"; Kubeconfig := ""; Debug := false; Quiet := quiet;
     ConfigMapName := "cm"; SecretName := "secret" |}.

Definition flags (drop yes : bool) : Flags :=
  {| snapshotName := "backup-1"; dropAllIndices := drop; skipConfirmation := yes |}.

End Fake.

(* ================================================================= *)
(** ** More ways to read a trace *)

Module Watch.
Import World.

Definition isEsRollover (e : Event) : bool :=
  match e with EvEsIndicesRollover _ => true | _ => false end.

Definition isEsRestore (e : Event) : bool :=
  match e with EvEsSnapshotRestore _ _ _ _ => true | _ => false end.

Definition isCloseStop (e : Event) : bool :=
  match e with EvCloseStopChan => true | _ => false end.

Definition isStdout (e : Event) : bool :=
  match e with EvStdout _ => true | _ => false end.

(** What only [deleteIndices] emits: the prompt and its answer, the
    rollover, the delete calls, and the checks and sleeps that follow them. *)
Definition deletePhaseEvent (e : Event) : bool :=
  match e with
  | EvStdinReadString | EvStdout _ | EvEsIndicesRollover _
  | EvEsIndicesDelete _ | EvEsIndicesExists _ | EvSleep _ => true
  | _ => false
  end.

(** The calls that change what Elasticsearch holds. *)
Definition esMutation (e : Event) : bool :=
  match e with
  | EvEsIndicesRollover _ | EvEsIndicesDelete _ | EvEsSnapshotRestore _ _ _ _ => true
  | _ => false
  end.

(** What [runRestore] may emit while the tunnel is open. *)
Definition tunnelledEvent (e : Event) : bool :=
  match e with
  | EvEsNewClient _ | EvStdinReadString | EvStdout _ => true
  | _ => Trace.esEvent e
  end.

(** The index names of the delete calls, in the order of the trace. *)
Definition deleted (l : list Event) : list string :=
  flat_map (fun e => match e with EvEsIndicesDelete i => [i] | _ => [] end) l.

(** The time slept, in nanoseconds. *)
Definition slept (l : list Event) : Z :=
  fold_right (fun e acc => match e with EvSleep d => (d + acc)%Z | _ => acc end) 0%Z l.

(** Everything but what only [deleteIndices] emits. *)
Definition calm (e : Event) : bool := negb (deletePhaseEvent e).

(** The trace without the lines of the logger. *)
Definition calls (l : list Event) : list Event :=
  filter (fun e => negb (Trace.isStderr e)) l.

(** What the confirmation emits. *)
Definition promptEvent (e : Event) : bool :=
  match e with
  | EvStderr _ | EvStdout _ | EvStdinReadString => true
  | _ => false
  end.

(** What the rollover emits. *)
Definition rolloverEvent (e : Event) : bool :=
  match e with
  | EvStderr _ | EvEsIndicesRollover _ => true
  | _ => false
  end.

(** What deleting and verifying emits. *)
Definition verifyEvent (e : Event) : bool :=
  match e with
  | EvStderr _ | EvEsIndicesDelete _ | EvEsIndicesExists _ | EvSleep _ => true
  | _ => false
  end.

Definition prompt : Event :=
  EvStdout (nl ++ "Are you sure you want to delete these indices? (yes/no): ").

Definition isEsSnapshotGet (e : Event) : bool :=
  match e with EvEsSnapshotGet _ _ => true | _ => false end.

Definition isRecvReady (e : Event) : bool :=
  match e with EvRecvReady => true | _ => false end.

(** What precedes the delete phase: nothing of that phase, and no call
    for the snapshot. *)
Definition early (e : Event) : bool :=
  calm e && negb (isEsRestore e) && negb (isEsSnapshotGet e).

(** Everything but the restore call. *)
Definition notRestore (e : Event) : bool := negb (isEsRestore e).

(** What [runRestore] may emit before the tunnel is ready. *)
Definition beforeTunnel (e : Event) : bool :=
  match e with
  | EvK8sNewClient _ _ | EvLoadConfig _ _ _ | EvStderr _
  | EvDeploymentsList _ _ | EvDeploymentsUpdate _ _ | EvScaleDownReturn _ _ _ _
  | EvPortForwardService _ _ _ _ => true
  | _ => false
  end.

(** The calls to Elasticsearch and the reading of the answer of the user. *)
Definition needsTunnel (e : Event) : bool :=
  match e with
  | EvEsNewClient _ | EvEsCatIndices _ | EvEsIndicesDelete _ | EvEsIndicesExists _
  | EvEsIndicesRollover _ | EvEsSnapshotGet _ _ | EvEsSnapshotRestore _ _ _ _ => true
  | _ => false
  end.

(** The prompt and the reading of its answer. *)
Definition asking (e : Event) : bool := isStdout e || Trace.isStdinRead e.

(** What [deleteIndices] may emit. *)
Definition deleteEvent (e : Event) : bool :=
  promptEvent e || rolloverEvent e || verifyEvent e.

Definition isEsCatIndices (e : Event) : bool :=
  match e with EvEsCatIndices _ => true | _ => false end.

(** The prompt of [confirmDeletion]. *)
Definition isPrompt (e : Event) : bool :=
  match e with
  | EvStdout s =>
      (s =? nl ++ "Are you sure you want to delete these indices? (yes/no): ")%string
  | _ => false
  end.

(** The two steps of [confirmDeletion]: its prompt and its read. *)
Definition confirming (e : Event) : bool := isPrompt e || Trace.isStdinRead e.

(** What precedes the listing of the indices. *)
Definition preListing (e : Event) : bool := early e && negb (isEsCatIndices e).

(** What follows the delete phase. *)
Definition postListing (e : Event) : bool := calm e && negb (isEsCatIndices e).

(** What follows the restore call: the tunnel is closed and the scale up
    runs. *)
Definition aftermath (e : Event) : bool :=
  match e with
  | EvCloseStopChan => true
  | _ => Trace.resumeEvent e
  end.

End Watch.

(* ================================================================= *)
(** ** Worlds that differ from a given one in a few answers *)

Module Scripts.
Import World.

Definition withDeployments (env : Env)
    (list : History -> string -> string -> result (list Deployment))
    (get : History -> string -> string -> result Deployment)
    (update : History -> string -> Deployment -> option error) : Env :=
  {| k8sNewClient := k8sNewClient env;
     loadConfig := loadConfig env;
     deploymentsList := list;
     deploymentsGet := get;
     deploymentsUpdate := update;
     portForwardService := portForwardService env;
     esNewClient := esNewClient env;
     esCatIndices := esCatIndices env;
     esIndicesDelete := esIndicesDelete env;
     esIndicesExists := esIndicesExists env;
     esIndicesRollover := esIndicesRollover env;
     esSnapshotGet := esSnapshotGet env;
     esSnapshotRestore := esSnapshotRestore env;
     stdinReadString := stdinReadString env;
     decodeIndices := decodeIndices env;
     decodeSnapshots := decodeSnapshots env;
     stringsToLower := stringsToLower env;
     stringsTrimSpace := stringsTrimSpace env |}.

Definition withIndexCalls (env : Env)
    (delete probe rollover : History -> string -> result Response) : Env :=
  {| k8sNewClient := k8sNewClient env;
     loadConfig := loadConfig env;
     deploymentsList := deploymentsList env;
     deploymentsGet := deploymentsGet env;
     deploymentsUpdate := deploymentsUpdate env;
     portForwardService := portForwardService env;
     esNewClient := esNewClient env;
     esCatIndices := esCatIndices env;
     esIndicesDelete := delete;
     esIndicesExists := probe;
     esIndicesRollover := rollover;
     esSnapshotGet := esSnapshotGet env;
     esSnapshotRestore := esSnapshotRestore env;
     stdinReadString := stdinReadString env;
     decodeIndices := decodeIndices env;
     decodeSnapshots := decodeSnapshots env;
     stringsToLower := stringsToLower env;
     stringsTrimSpace := stringsTrimSpace env |}.

Definition withSnapshots (env : Env)
    (get : History -> string -> string -> result Response)
    (decode : string -> result (list Snapshot)) : Env :=
  {| k8sNewClient := k8sNewClient env;
     loadConfig := loadConfig env;
     deploymentsList := deploymentsList env;
     deploymentsGet := deploymentsGet env;
     deploymentsUpdate := deploymentsUpdate env;
     portForwardService := portForwardService env;
     esNewClient := esNewClient env;
     esCatIndices := esCatIndices env;
     esIndicesDelete := esIndicesDelete env;
     esIndicesExists := esIndicesExists env;
     esIndicesRollover := esIndicesRollover env;
     esSnapshotGet := get;
     esSnapshotRestore := esSnapshotRestore env;
     stdinReadString := stdinReadString env;
     decodeIndices := decodeIndices env;
     decodeSnapshots := decode;
     stringsToLower := stringsToLower env;
     stringsTrimSpace := stringsTrimSpace env |}.

Definition withPortForward (env : Env)
    (forward : History -> string -> string -> Z -> Z -> option error) : Env :=
  {| k8sNewClient := k8sNewClient env;
     loadConfig := loadConfig env;
     deploymentsList := deploymentsList env;
     deploymentsGet := deploymentsGet env;
     deploymentsUpdate := deploymentsUpdate env;
     portForwardService := forward;
     esNewClient := esNewClient env;
     esCatIndices := esCatIndices env;
     esIndicesDelete := esIndicesDelete env;
     esIndicesExists := esIndicesExists env;
     esIndicesRollover := esIndicesRollover env;
     esSnapshotGet := esSnapshotGet env;
     esSnapshotRestore := esSnapshotRestore env;
     stdinReadString := stdinReadString env;
     decodeIndices := decodeIndices env;
     decodeSnapshots := decodeSnapshots env;
     stringsToLower := stringsToLower env;
     stringsTrimSpace := stringsTrimSpace env |}.

(** A deployment at zero, and one whose replica count is not set. *)
Definition Z0 : Deployment := {| depName := "Z"; depSpecReplicas := Some 0%Z |}.
Definition N : Deployment := {| depName := "N"; depSpecReplicas := None |}.

(** Four deployments, two of them running; nothing fails. *)
Definition mixed : Env :=
  withDeployments (Fake.world (Fake.answers "yes"))
    (fun _ _ _ => Ok [Fake.A3; Z0; N; Fake.B5])
    (fun _ _ name => Ok {| depName := name; depSpecReplicas := Some 0%Z |})
    (fun _ _ _ => None).

(** The deployments cannot be listed. *)
Definition unlistable : Env :=
  withDeployments (Fake.world (Fake.answers "yes"))
    (fun _ _ _ => Err "forbidden")
    (fun _ _ _ => Err "forbidden")
    (fun _ _ _ => Some "forbidden").

(** The index is already gone when the delete call arrives. *)
Definition alreadyGone : Env :=
  withIndexCalls (Fake.world (Fake.answers "yes"))
    (fun _ _ => Ok (Fake.status 404))
    (fun _ _ => Ok (Fake.status 404))
    (fun _ _ => Ok Fake.ok200).

(** The second existence check cannot be made. *)
Definition probeBreaks : Env :=
  withIndexCalls (Fake.world (Fake.answers "yes"))
    (fun _ _ => Ok Fake.ok200)
    (fun h _ => if (Trace.count Trace.isEsExists h =? 0)%nat
                then Ok Fake.ok200 else Err "connection reset")
    (fun _ _ => Ok Fake.ok200).

(** The rollover is refused. *)
Definition rolloverRefused : Env :=
  withIndexCalls
    (Fake.world {| Fake.items := [Fake.A3];
                   Fake.updateFails := fun _ => false;
                   Fake.getFails := fun _ => false;
                   Fake.indices := ["sts_topology"; "sts_k8s_logs-000001"; "other_index"];
                   Fake.existsStatus := fun _ => 404%Z;
                   Fake.restoreStatus := 200%Z;
                   Fake.stdinLine := ("y" ++ nl, None) |})
    (fun _ _ => Ok Fake.ok200)
    (fun _ _ => Ok (Fake.status 404))
    (fun _ _ => Ok (Fake.status 400)).

(** The port-forward cannot be set up. *)
Definition noTunnel : Env :=
  withPortForward (Fake.world (Fake.answers "yes"))
    (fun _ _ _ _ _ => Some "no running pods found for service es-master").

End Scripts.

(* ================================================================= *)
(** ** The phases of a run *)

Module Phases.
Import World.

(** The events of [m] are three parts in a row: events of [q1], a part
    that [P] describes, events of [q2]. *)
Definition Split {A} (q1 : Event -> bool) (P : list Event -> Prop)
    (q2 : Event -> bool) (m : M A) : Prop :=
  forall h,
    exists before D after,
      events m h = (before ++ D ++ after)%list
      /\ forallb q1 before = true
      /\ P D
      /\ forallb q2 after = true.

(** [D] is what one call of [deleteIndices] emits, on the managed indices
    of a list that [ListIndices] has returned and with the flags of the
    run, or nothing at all. *)
Definition DeletePhase (env : Env) (flags : Flags) (log : Logger.Logger)
    (cfg : Config) (D : list Event) : Prop :=
  D = []
  \/ (dropAllIndices flags = true
      /\ exists allIndices h0 h,
           value (ES.ListIndices env "*") h0 = Ok allIndices
           /\ D = events
                 (Restore.deleteIndices env
                    (IndexSet.filterSTSIndices allIndices
                       (IndexPrefix (Restore cfg))
                       (DatastreamIndexPrefix (Restore cfg)))
                    cfg log (skipConfirmation flags)) h).

(** [D] is the one restore call of the run, or nothing at all. *)
Definition RestoreCall (flags : Flags) (cfg : Config) (D : list Event) : Prop :=
  D = []
  \/ D = [EvEsSnapshotRestore (Repository (Restore cfg)) (snapshotName flags)
            (IndicesPattern (Restore cfg)) true].

(** [D] is the life of the tunnel, from ready to closed, or nothing at all. *)
Definition Tunnel (D : list Event) : Prop :=
  D = []
  \/ exists inside,
       D = (EvRecvReady :: inside ++ [EvCloseStopChan])%list
       /\ forallb Watch.tunnelledEvent inside = true.

(** [Split], for the runs of [m] whose result satisfies [ok]; [P] also
    sees the history at which its part starts. *)
Definition SplitOk {A} (ok : A -> Prop) (q1 : Event -> bool)
    (P : History -> list Event -> Prop) (q2 : Event -> bool) (m : M A) : Prop :=
  forall h,
    ok (value m h) ->
    exists before D after,
      events m h = (before ++ D ++ after)%list
      /\ forallb q1 before = true
      /\ P (h ++ before)%list D
      /\ forallb q2 after = true.

(** The result is nil. *)
Definition isNil (r : option error) : Prop := r = None.

(** [D] is the restore call of the run, answered at [h] without an error. *)
Definition Restored (env : Env) (flags : Flags) (cfg : Config)
    (h : History) (D : list Event) : Prop :=
  exists res,
    D = [EvEsSnapshotRestore (Repository (Restore cfg)) (snapshotName flags)
           (IndicesPattern (Restore cfg)) true]
    /\ esSnapshotRestore env h (Repository (Restore cfg)) (snapshotName flags)
         (IndicesPattern (Restore cfg)) true = Ok res
    /\ IsError res = false.

(** What [runRestore] does with the list of all indices, between the
    listing and the lookup of the snapshot. *)
Definition deleting (env : Env) (flags : Flags) (cfg : Config)
    (log : Logger.Logger) (allIndices : list string) : M (option error) :=
  if dropAllIndices flags then
    Logger.Println log ;;
    Restore.deleteIndices env
      (IndexSet.filterSTSIndices allIndices (IndexPrefix (Restore cfg))
         (DatastreamIndexPrefix (Restore cfg)))
      cfg log (skipConfirmation flags)
  else ret None.

(** The listing call made at the history [h] is answered with the list
    [allIndices]: a response that is not an error, whose body decodes to
    that list. *)
Definition ListedAt (env : Env) (h : History) (allIndices : list string) : Prop :=
  exists res,
    esCatIndices env h "*" = Ok res
    /\ IsError res = false
    /\ decodeIndices env (Body res) = Ok allIndices.

(** [D] is empty, or it starts with the one listing call of the run, made
    at [h], and what follows in it deletes nothing, or deletes, with the flag
    [dropAllIndices], a prefix of the managed indices of the list that this
    call was answered with. *)
Definition DeletesListed (env : Env) (flags : Flags) (cfg : Config)
    (h : History) (D : list Event) : Prop :=
  D = []
  \/ exists inner,
       D = EvEsCatIndices "*" :: inner
       /\ Trace.count Watch.isEsCatIndices inner = 0%nat
       /\ (Watch.deleted inner = []
           \/ (dropAllIndices flags = true
               /\ exists allIndices k,
                    ListedAt env h allIndices
                    /\ Watch.deleted inner
                       = firstn k (IndexSet.filterSTSIndices allIndices
                                     (IndexPrefix (Restore cfg))
                                     (DatastreamIndexPrefix (Restore cfg))))).

(** [D] starts with the one listing call of the run, made at [h] and
    answered with a list; what follows in it deletes every managed index of
    that list, in its order, when the flag [dropAllIndices] is set, and
    nothing when it is not. *)
Definition Purged (env : Env) (flags : Flags) (cfg : Config)
    (h : History) (D : list Event) : Prop :=
  exists inner allIndices,
    D = EvEsCatIndices "*" :: inner
    /\ Trace.count Watch.isEsCatIndices inner = 0%nat
    /\ ListedAt env h allIndices
    /\ Watch.deleted inner
       = if dropAllIndices flags
         then IndexSet.filterSTSIndices allIndices (IndexPrefix (Restore cfg))
                (DatastreamIndexPrefix (Restore cfg))
         else [].

(** When the trace of [m] holds a restore call that Elasticsearch answered,
    at the history of that call, with a response that is not an error, [m]
    returns nil. *)
Definition NilWhenRestored (env : Env) (m : M (option error)) : Prop :=
  forall h pre post repository snapshot pattern wait res,
    events m h
    = (pre ++ EvEsSnapshotRestore repository snapshot pattern wait :: post)%list ->
    esSnapshotRestore env (h ++ pre)%list repository snapshot pattern wait = Ok res ->
    IsError res = false ->
    value m h = None.

End Phases.

(* ================================================================= *)
(** * Properties *)

(** ** Strings and index classification *)

Section StringFacts.
Import Strings.

Lemma length_append (a b : string) :
  String.length (a ++ b) = (String.length a + String.length b)%nat.
Proof. induction a as [|c a IH]; simpl; [reflexivity | now rewrite IH]. Qed.

Lemma substring_append_left (p rest : string) :
  substring 0 (String.length p) (p ++ rest) = p.
Proof.
  induction p as [|c p IH]; simpl.
  - now destruct rest.
  - now rewrite IH.
Qed.

Lemma substring_split (n : nat) (s : string) :
  (n <= String.length s)%nat ->
  exists rest, s = substring 0 n s ++ rest.
Proof.
  revert s; induction n as [|n IH]; intros s Hn.
  - exists s. now destruct s.
  - destruct s as [|c s]; simpl in Hn; [lia|].
    destruct (IH s) as [rest Hr]; [lia|].
    exists rest. simpl. now rewrite <- Hr.
Qed.

Lemma HasPrefix_spec (s p : string) :
  HasPrefix s p = true <-> StartsWith s p.
Proof.
  unfold HasPrefix, StartsWith. rewrite andb_true_iff, Nat.leb_le, String.eqb_eq.
  split.
  - intros [Hlen Hsub].
    destruct (substring_split (String.length p) s Hlen) as [rest Hr].
    exists rest. now rewrite Hsub in Hr.
  - intros [rest ->]. split.
    + rewrite length_append. lia.
    + apply substring_append_left.
Qed.

Lemma HasPrefix_longer (s p : string) :
  (String.length s < String.length p)%nat -> HasPrefix s p = false.
Proof.
  intros H. unfold HasPrefix.
  now replace (String.length p <=? String.length s)%nat with false
    by (symmetry; apply Nat.leb_gt; exact H).
Qed.

End StringFacts.

Section IndexSetFacts.
Import Strings IndexSet.

Lemma isSTS_spec ip dp index :
  isSTS ip dp index = true <-> StartsWith index ip \/ StartsWith index dp.
Proof. unfold isSTS. now rewrite orb_true_iff, !HasPrefix_spec. Qed.

Lemma filterSTSIndices_loop_acc ip dp all acc :
  filterSTSIndices_loop ip dp all acc = (acc ++ filter (isSTS ip dp) all)%list.
Proof.
  revert acc; induction all as [|index rest IH]; intros acc; simpl.
  - now rewrite app_nil_r.
  - destruct (isSTS ip dp index); rewrite IH; [|reflexivity].
    now rewrite <- app_assoc.
Qed.

Lemma filterSTSIndices_filter all ip dp :
  filterSTSIndices all ip dp = filter (isSTS ip dp) all.
Proof. unfold filterSTSIndices. now rewrite filterSTSIndices_loop_acc. Qed.

Lemma Selected_filter ip dp all :
  Selected ip dp all (filter (isSTS ip dp) all).
Proof.
  induction all as [|index rest IH]; simpl; [constructor|].
  destruct (isSTS ip dp index) eqn:E.
  - apply Selected_keep; [now apply isSTS_spec | exact IH].
  - apply Selected_drop; [|exact IH].
    rewrite <- isSTS_spec. congruence.
Qed.

Lemma Selected_functional ip dp all out1 out2 :
  Selected ip dp all out1 -> Selected ip dp all out2 -> out1 = out2.
Proof.
  intros H1; revert out2.
  induction H1 as [|index all out Hp _ IH|index all out Hn _ IH];
    intros out2 H2; inversion H2; subst; try reflexivity;
    solve [ f_equal; now apply IH | now apply IH | contradiction ].
Qed.

Lemma hasDatastreamIndices_existsb indices dp :
  hasDatastreamIndices indices dp
  = existsb (fun index => HasPrefix index (dp ++ "-")) indices.
Proof.
  induction indices as [|index rest IH]; simpl; [reflexivity|].
  now destruct (HasPrefix index (dp ++ "-")).
Qed.

Lemma hasDatastreamIndices_spec indices dp :
  hasDatastreamIndices indices dp = true
  <-> exists index, In index indices /\ StartsWith index (dp ++ "-").
Proof.
  rewrite hasDatastreamIndices_existsb, existsb_exists.
  split; intros [index [Hin Hp]]; exists index; split; auto;
    now apply HasPrefix_spec.
Qed.

End IndexSetFacts.

(** C7. For every list of index names and every pair of prefixes,
    [filterSTSIndices] returns exactly the names that start with the index
    prefix or with the datastream prefix, in the order of the input: its
    result is the one list the relation [Selected] allows, a name is in it
    exactly when it is in the input and has one of the prefixes, and the
    empty input gives the empty output.  The function is pure: the input
    list is a value and is not changed. *)
Theorem filterSTSIndices_selects_managed :
  forall (allIndices : list string) (indexPrefix datastreamPrefix : string),
    let out := IndexSet.filterSTSIndices allIndices indexPrefix datastreamPrefix in
    IndexSet.Selected indexPrefix datastreamPrefix allIndices out
    /\ (forall out', IndexSet.Selected indexPrefix datastreamPrefix allIndices out'
                     -> out' = out)
    /\ (forall index, In index out <->
           In index allIndices
           /\ (Strings.StartsWith index indexPrefix
               \/ Strings.StartsWith index datastreamPrefix))
    /\ IndexSet.filterSTSIndices [] indexPrefix datastreamPrefix = [].
Proof.
  intros all ip dp out. subst out.
  rewrite filterSTSIndices_filter.
  pose proof (Selected_filter ip dp all) as Hsel.
  split; [exact Hsel|]. split; [|split; [|reflexivity]].
  - intros out' H'. exact (Selected_functional _ _ _ _ _ H' Hsel).
  - intros index. rewrite filter_In, isSTS_spec. reflexivity.
Qed.

(** C8. For every list of index names and every datastream prefix,
    [hasDatastreamIndices] is true exactly when some element starts with the
    prefix followed by a dash; it is false for the list holding the bare
    prefix alone and true for the list holding the prefix followed by
    ["-000001"]. *)
Theorem hasDatastreamIndices_dash :
  forall (indices : list string) (datastreamPrefix : string),
    (IndexSet.hasDatastreamIndices indices datastreamPrefix = true
     <-> exists index, In index indices
                       /\ Strings.StartsWith index (datastreamPrefix ++ "-"))
    /\ IndexSet.hasDatastreamIndices [datastreamPrefix] datastreamPrefix = false
    /\ IndexSet.hasDatastreamIndices [datastreamPrefix ++ "-000001"] datastreamPrefix
       = true.
Proof.
  intros indices dp. split; [apply hasDatastreamIndices_spec|]. split.
  - simpl. rewrite HasPrefix_longer; [reflexivity|].
    rewrite length_append. simpl. lia.
  - simpl.
    replace (Strings.HasPrefix (dp ++ "-000001") (dp ++ "-")) with true; [reflexivity|].
    symmetry. apply HasPrefix_spec. exists "000001".
    induction dp as [|c dp IH]; simpl; [reflexivity | now rewrite IH].
Qed.

(* ================================================================= *)
(** ** Running computations *)

Section MonadFacts.
Import World Trace.

Lemma events_ret {A} (a : A) h : events (ret a) h = [].
Proof. reflexivity. Qed.

Lemma value_ret {A} (a : A) h : value (ret a) h = a.
Proof. reflexivity. Qed.

Lemma events_bind {A B} (m : M A) (f : A -> M B) h :
  events (bind m f) h
  = (events m h ++ events (f (value m h)) (h ++ events m h))%list.
Proof. reflexivity. Qed.

Lemma value_bind {A B} (m : M A) (f : A -> M B) h :
  value (bind m f) h = value (f (value m h)) (h ++ events m h)%list.
Proof. reflexivity. Qed.

Lemma events_emit e h : events (emit e) h = [e].
Proof. reflexivity. Qed.

Lemma events_call {A} (answer : History -> A) e h : events (call answer e) h = [e].
Proof. reflexivity. Qed.

Lemma value_call {A} (answer : History -> A) e h : value (call answer e) h = answer h.
Proof. reflexivity. Qed.

Lemma events_withDefer {A} (d : M unit) (body : M A) h :
  events (withDefer d body) h
  = (events body h ++ events d (h ++ events body h))%list.
Proof.
  unfold withDefer. rewrite !events_bind, events_ret. now rewrite app_nil_r.
Qed.

Lemma value_withDefer {A} (d : M unit) (body : M A) h :
  value (withDefer d body) h = value body h.
Proof. reflexivity. Qed.

Lemma count_app p l1 l2 : count p (l1 ++ l2) = (count p l1 + count p l2)%nat.
Proof. unfold count. now rewrite filter_app, length_app. Qed.

Lemma count_nil p : count p [] = 0%nat.
Proof. reflexivity. Qed.

Lemma count_cons p e l :
  count p (e :: l) = ((if p e then 1 else 0) + count p l)%nat.
Proof. unfold count. simpl. now destruct (p e). Qed.

Lemma Silent_ret {A} p (a : A) : Silent p (ret a).
Proof. intros h. reflexivity. Qed.

Lemma Silent_bind {A B} p (m : M A) (f : A -> M B) :
  Silent p m -> (forall a, Silent p (f a)) -> Silent p (bind m f).
Proof.
  intros Hm Hf h. rewrite events_bind, count_app, Hm, Hf. reflexivity.
Qed.

Lemma Silent_emit p e : p e = false -> Silent p (emit e).
Proof. intros H h. rewrite events_emit, count_cons, H. reflexivity. Qed.

Lemma Silent_call {A} p (answer : History -> A) e :
  p e = false -> Silent p (call answer e).
Proof. intros H h. rewrite events_call, count_cons, H. reflexivity. Qed.

Lemma Silent_withDefer {A} p (d : M unit) (body : M A) :
  Silent p body -> Silent p d -> Silent p (withDefer d body).
Proof.
  intros Hb Hd. unfold withDefer.
  apply Silent_bind; [exact Hb|]. intros r.
  apply Silent_bind; [exact Hd|]. intros _. apply Silent_ret.
Qed.

Lemma Silent_forEach {A} p (l : list A) (f : A -> M unit) :
  (forall x, Silent p (f x)) -> Silent p (forEach l f).
Proof.
  intros Hf. induction l as [|x rest IH]; simpl.
  - apply Silent_ret.
  - apply Silent_bind; [apply Hf | intros _; exact IH].
Qed.

Lemma Emits_ret {A} q (a : A) : Emits q (ret a).
Proof. intros h. reflexivity. Qed.

Lemma Emits_bind {A B} q (m : M A) (f : A -> M B) :
  Emits q m -> (forall a, Emits q (f a)) -> Emits q (bind m f).
Proof.
  intros Hm Hf h. rewrite events_bind, forallb_app, Hm, Hf. reflexivity.
Qed.

Lemma Emits_emit q e : q e = true -> Emits q (emit e).
Proof. intros H h. rewrite events_emit. simpl. now rewrite H. Qed.

Lemma Emits_call {A} q (answer : History -> A) e :
  q e = true -> Emits q (call answer e).
Proof. intros H h. rewrite events_call. simpl. now rewrite H. Qed.

Lemma Emits_withDefer {A} q (d : M unit) (body : M A) :
  Emits q body -> Emits q d -> Emits q (withDefer d body).
Proof.
  intros Hb Hd. unfold withDefer.
  apply Emits_bind; [exact Hb|]. intros r.
  apply Emits_bind; [exact Hd|]. intros _. apply Emits_ret.
Qed.

Lemma Emits_forEach {A} q (l : list A) (f : A -> M unit) :
  (forall x, Emits q (f x)) -> Emits q (forEach l f).
Proof.
  intros Hf. induction l as [|x rest IH]; simpl.
  - apply Emits_ret.
  - apply Emits_bind; [apply Hf | intros _; exact IH].
Qed.

Lemma Emits_weaken {A} q q' (m : M A) :
  Emits q m -> (forall e, q e = true -> q' e = true) -> Emits q' m.
Proof.
  intros Hm Hq h. specialize (Hm h).
  rewrite forallb_forall in *. auto.
Qed.

Lemma count_outside q p l :
  forallb q l = true -> (forall e, q e = true -> p e = false) -> count p l = 0%nat.
Proof.
  intros Hq Hp. induction l as [|e l IH]; [reflexivity|].
  simpl in Hq. apply andb_true_iff in Hq. destruct Hq as [He Hl].
  rewrite count_cons, (Hp e He), IH by exact Hl. reflexivity.
Qed.

Lemma forallb_weaken (q q' : Event -> bool) l :
  forallb q l = true -> (forall e, q e = true -> q' e = true) -> forallb q' l = true.
Proof. intros H Hq. rewrite forallb_forall in *. auto. Qed.

(** A computation is silent on what lies outside its events. *)
Lemma Silent_of_Emits {A} q p (m : M A) :
  Emits q m -> (forall e, q e = true -> p e = false) -> Silent p m.
Proof.
  intros Hm Hq h. specialize (Hm h). rewrite forallb_forall in Hm.
  unfold count. destruct (filter p (events m h)) as [|e rest] eqn:E; [reflexivity|].
  assert (Hin : In e (filter p (events m h))) by (rewrite E; now left).
  apply filter_In in Hin. destruct Hin as [Hin Hp].
  rewrite (Hq e (Hm e Hin)) in Hp. discriminate Hp.
Qed.

End MonadFacts.

Import World Trace Expect.

Create HintDb emits discriminated.

(** Closes [forall e, q e = true -> p e = ...] for classifiers by cases. *)
Ltac by_event := intros [] ; simpl; solve [reflexivity | discriminate | congruence].

(** Walks down a computation, closing every emission by evaluating the
    classifier on it. *)
Ltac emits_step :=
  first
    [ apply Emits_ret
    | apply Emits_emit; reflexivity
    | apply Emits_call; reflexivity
    | solve [auto with emits]
    | solve [eapply Emits_weaken; [solve [auto with emits] | by_event]]
    | apply Emits_forEach; intros ?
    | apply Emits_withDefer
    | apply Emits_bind; [|intros ?]
    | match goal with
      | |- Emits _ (match ?x with _ => _ end) => destruct x
      | |- Emits _ (let _ := _ in _) => cbv zeta
      end ].

Ltac emits := repeat emits_step.

Ltac silent_step :=
  first
    [ apply Silent_ret
    | apply Silent_emit; reflexivity
    | apply Silent_call; reflexivity
    | solve [eapply Silent_of_Emits; [solve [auto with emits] | by_event]]
    | apply Silent_forEach; intros ?
    | apply Silent_withDefer
    | apply Silent_bind; [|intros ?]
    | match goal with
      | |- Silent _ (match ?x with _ => _ end) => destruct x
      | |- Silent _ (let _ := _ in _) => cbv zeta
      end ].

(* ================================================================= *)
(** ** The Elasticsearch client *)

(** C10. [IndexExists] emits one probe, and reports the index absent with
    no error exactly when the probe is answered with status 404; a status
    up to 299 gives [(true, nil)], any other status above 299 gives an
    error, and so does a probe that could not be made. *)
Theorem IndexExists_absent_only_on_404 :
  forall (env : Env) (index : string) (h : History),
    let probe := esIndicesExists env h index in
    let r := value (ES.IndexExists env index) h in
    events (ES.IndexExists env index) h = [EvEsIndicesExists index]
    /\ (r = (false, None)
        <-> exists res, probe = Ok res /\ StatusCode res = 404%Z)
    /\ (forall res, probe = Ok res -> StatusCode res <> 404%Z ->
          (StatusCode res <= 299)%Z -> r = (true, None))
    /\ (forall res, probe = Ok res -> StatusCode res <> 404%Z ->
          (299 < StatusCode res)%Z ->
          r = (false, Some ("elasticsearch returned error: " ++ Text res)))
    /\ (forall e, probe = Err e ->
          r = (false, Some ("failed to check index existence: " ++ e))).
Proof.
  intros env index h probe r.
  assert (Hr : r = ES.IndexExists_verdict probe) by reflexivity.
  split; [reflexivity|]. rewrite Hr. clear Hr r.
  unfold ES.IndexExists_verdict, IsError, StatusNotFound.
  destruct probe as [res|e].
  - destruct (Z.eqb_spec (StatusCode res) 404) as [E|E].
    + split; [|split; [|split]].
      * split; [intros _; now exists res | reflexivity].
      * intros res' H; injection H as <-. contradiction.
      * intros res' H; injection H as <-. contradiction.
      * intros ? H; discriminate H.
    + destruct (Z.gtb_spec (StatusCode res) 299) as [G|G].
      * split; [|split; [|split]].
        -- split; [intros H; discriminate H|]. intros [res' [H1 H2]].
           injection H1 as <-. contradiction.
        -- intros res' H ? ?; injection H as <-. lia.
        -- intros res' H ? ?; now injection H as <-.
        -- intros ? H; discriminate H.
      * split; [|split; [|split]].
        -- split; [intros H; discriminate H|]. intros [res' [H1 H2]].
           injection H1 as <-. contradiction.
        -- reflexivity.
        -- intros res' H ? ?; injection H as <-. lia.
        -- intros ? H; discriminate H.
  - split; [|split; [|split]]; try (intros ? H; discriminate H).
    + split; [intros H; discriminate H|]. intros [res' [H1 _]]. discriminate H1.
    + intros e' H; now injection H as <-.
Qed.

(* ================================================================= *)
(** ** Scaling deployments down *)

Section ScaleDown.
Variable env : Env.
Variable namespace : string.

Lemma pauseUpdates_cons d l :
  pauseUpdates namespace (d :: l)
  = if running d
    then EvDeploymentsUpdate namespace (K8s.withReplicas d 0) :: pauseUpdates namespace l
    else pauseUpdates namespace l.
Proof. unfold pauseUpdates. simpl. now destruct (running d). Qed.

(** The loop, run up to the first update that fails. *)
Lemma ScaleDownDeployments_loop_fails pre d post e :
  forall acc h,
    (forall pre1 x pre2, pre = (pre1 ++ x :: pre2)%list -> running x = true ->
       deploymentsUpdate env (h ++ pauseUpdates namespace pre1)%list namespace
         (K8s.withReplicas x 0) = None) ->
    running d = true ->
    deploymentsUpdate env (h ++ pauseUpdates namespace pre)%list namespace
      (K8s.withReplicas d 0) = Some e ->
    K8s.ScaleDownDeployments_loop env namespace (pre ++ d :: post) acc h
    = (((acc ++ map snapshotOf (pre ++ [d]))%list,
        Some ("failed to scale down deployment " ++ depName d ++ ": " ++ e)),
       pauseUpdates namespace (pre ++ [d])).
Proof.
  induction pre as [|x pre IH]; intros acc h Hpre Hd He.
  - simpl in *. rewrite app_nil_r in He.
    unfold running, replicasOf in Hd.
    unfold bind, call, ret. simpl.
    rewrite pauseUpdates_cons. unfold running, replicasOf at 1.
    destruct (depSpecReplicas d) as [r|] eqn:Er; rewrite Hd; [|discriminate Hd].
    rewrite He. simpl. unfold snapshotOf, replicasOf. rewrite Er. reflexivity.
  - change ((x :: pre) ++ d :: post)%list with (x :: (pre ++ d :: post))%list.
    change ((x :: pre) ++ [d])%list with (x :: (pre ++ [d]))%list.
    cbn [K8s.ScaleDownDeployments_loop map].
    rewrite pauseUpdates_cons.
    assert (Hx : match depSpecReplicas x with Some r => r | None => 0%Z end
                 = replicasOf x) by reflexivity.
    rewrite Hx. fold (running x).
    destruct (running x) eqn:Rx.
    + pose proof (Hpre [] x pre eq_refl Rx) as Hux.
      simpl in Hux. rewrite app_nil_r in Hux.
      unfold bind, call. cbn [fst snd].
      rewrite Hux.
      rewrite (IH (acc ++ [{| Name := depName x; Replicas := replicasOf x |}])%list
                  (h ++ [EvDeploymentsUpdate namespace (K8s.withReplicas x 0)])%list).
      * cbn [fst snd]. rewrite <- app_assoc. reflexivity.
      * intros pre1 y pre2 E Ry.
        rewrite <- app_assoc. cbn [app].
        pose proof (Hpre (x :: pre1) y pre2) as H'.
        rewrite pauseUpdates_cons, Rx in H'. apply H'; [now rewrite E | exact Ry].
      * exact Hd.
      * rewrite <- app_assoc. cbn [app].
        rewrite pauseUpdates_cons, Rx in He. exact He.
    + rewrite (IH (acc ++ [{| Name := depName x; Replicas := replicasOf x |}])%list h).
      * rewrite <- app_assoc. reflexivity.
      * intros pre1 y pre2 E Ry.
        pose proof (Hpre (x :: pre1) y pre2) as H'.
        rewrite pauseUpdates_cons, Rx in H'. apply H'; [now rewrite E | exact Ry].
      * exact Hd.
      * rewrite pauseUpdates_cons, Rx in He. exact He.
Qed.

End ScaleDown.

(** C3. If, in [ScaleDownDeployments], the update that scales the
    deployment [d] to zero is the first one to fail ([pre] are the
    deployments enumerated before it, [post] the ones after it), the call
    returns the snapshots of [pre] and of [d], in the order of the
    enumeration, together with the error, which names [d]; no update is sent
    for a deployment of [post]. *)
Theorem ScaleDownDeployments_partial_on_failure :
  forall (env : Env) (namespace labelSelector : string) (h : History)
         (pre : list Deployment) (d : Deployment) (post : list Deployment)
         (e : error),
    deploymentsList env h namespace labelSelector = Ok (pre ++ d :: post)%list ->
    (forall pre1 x pre2, pre = (pre1 ++ x :: pre2)%list -> running x = true ->
       deploymentsUpdate env
         (h ++ EvDeploymentsList namespace labelSelector
            :: pauseUpdates namespace pre1)%list
         namespace (K8s.withReplicas x 0) = None) ->
    running d = true ->
    deploymentsUpdate env
      (h ++ EvDeploymentsList namespace labelSelector :: pauseUpdates namespace pre)%list
      namespace (K8s.withReplicas d 0) = Some e ->
    let err := "failed to scale down deployment " ++ depName d ++ ": " ++ e in
    let captured := map snapshotOf (pre ++ [d]) in
    value (K8s.ScaleDownDeployments env namespace labelSelector) h
    = (captured, Some err)
    /\ events (K8s.ScaleDownDeployments env namespace labelSelector) h
       = (EvDeploymentsList namespace labelSelector
            :: pauseUpdates namespace (pre ++ [d])
            ++ [EvScaleDownReturn namespace labelSelector captured (Some err)])%list.
Proof.
  intros env ns sel h pre d post e Hlist Hpre Hd He err captured.
  assert (Hloop :
    K8s.ScaleDownDeployments_body env ns sel h
    = ((captured, Some err),
       EvDeploymentsList ns sel :: pauseUpdates ns (pre ++ [d]))).
  { unfold K8s.ScaleDownDeployments_body, bind at 1, call. cbn [fst snd].
    rewrite Hlist.
    destruct (pre ++ d :: post)%list as [|y ys] eqn:E;
      [now destruct pre|]. rewrite <- E. cbn [List.length Nat.eqb].
    replace (List.length (pre ++ d :: post) =? 0)%nat with false
      by (rewrite E; reflexivity).
    rewrite (ScaleDownDeployments_loop_fails env ns pre d post e []
               (h ++ [EvDeploymentsList ns sel])%list).
    - reflexivity.
    - intros pre1 x pre2 E1 Rx. rewrite <- app_assoc. now apply Hpre with pre2.
    - exact Hd.
    - rewrite <- app_assoc. exact He. }
  unfold K8s.ScaleDownDeployments, value, events, bind, emit, ret.
  rewrite Hloop. cbn [fst snd]. split; reflexivity.
Qed.

Lemma ScaleDownDeployments_partial_on_failure_witness :
  let r := K8s.ScaleDownDeployments (Fake.world Fake.updateOfBFails) "ns" "scalable=true" in
  value r []
  = ([{| Name := "A"; Replicas := 3 |}; {| Name := "B"; Replicas := 5 |}],
     Some "failed to scale down deployment B: conflict")
  /\ events r []
     = [EvDeploymentsList "ns" "scalable=true";
        EvDeploymentsUpdate "ns" (K8s.withReplicas Fake.A3 0);
        EvDeploymentsUpdate "ns" (K8s.withReplicas Fake.B5 0);
        EvScaleDownReturn "ns" "scalable=true"
          [{| Name := "A"; Replicas := 3 |}; {| Name := "B"; Replicas := 5 |}]
          (Some "failed to scale down deployment B: conflict")].
Proof.
  apply (ScaleDownDeployments_partial_on_failure
           (Fake.world Fake.updateOfBFails) "ns" "scalable=true" []
           [Fake.A3] Fake.B5 [Fake.C2] "conflict").
  - reflexivity.
  - intros pre1 x pre2 E _.
    destruct pre1 as [|y pre1]; simpl in E.
    + injection E as <- _. reflexivity.
    + injection E as _ E. now destruct pre1.
  - reflexivity.
  - reflexivity.
Defined.

(* ================================================================= *)
(** ** Scaling deployments up *)

Section ScaleUp.
Variable env : Env.
Variable namespace : string.

Lemma resumeCalls_cons p l :
  resumeCalls namespace (p :: l)
  = (resumeCall namespace p ++ resumeCalls namespace l)%list.
Proof. reflexivity. Qed.

(** The loop, over the entries that are restored without a failure. *)
Lemma ScaleUpDeployments_loop_restores done rest :
  forall h,
    Restores env namespace h done ->
    let loop := K8s.ScaleUpDeployments_loop env namespace in
    value (loop (map fst done ++ rest)%list) h
    = value (loop rest) (h ++ resumeCalls namespace done)%list
    /\ events (loop (map fst done ++ rest)%list) h
       = (resumeCalls namespace done
            ++ events (loop rest) (h ++ resumeCalls namespace done))%list.
Proof.
  induction done as [|[s d] done IH]; intros h Hdone loop.
  - cbn [map app resumeCalls flat_map]. rewrite app_nil_r. split; reflexivity.
  - cbn [Restores fst snd] in Hdone. destruct Hdone as [Hget [Hupd Hrest]].
    destruct (IH (h ++ resumeCall namespace (s, d))%list Hrest) as [IHv IHe].
    cbv zeta in IHv, IHe.
    rewrite resumeCalls_cons, app_assoc.
    unfold loop. cbn [map app fst K8s.ScaleUpDeployments_loop].
    rewrite !value_bind, !events_bind, !value_call, !events_call, Hget.
    rewrite !value_bind, !events_bind, !value_call, !events_call, Hupd.
    unfold resumeCall in *. cbn [fst snd] in *.
    rewrite <- !app_assoc in *. cbn [app] in *.
    split; [exact IHv|]. rewrite IHe. reflexivity.
Qed.

(** The loop, at the entry whose fetch fails. *)
Lemma ScaleUpDeployments_loop_get_fails s rest h cause :
  deploymentsGet env h namespace (Name s) = Err cause ->
  K8s.ScaleUpDeployments_loop env namespace (s :: rest) h
  = (Some ("failed to get deployment " ++ Name s ++ ": " ++ cause),
     [EvDeploymentsGet namespace (Name s)]).
Proof.
  intros Hget. cbn [K8s.ScaleUpDeployments_loop].
  unfold bind, call, ret. cbn [fst snd]. rewrite Hget. reflexivity.
Qed.

(** The loop, at the entry whose update fails. *)
Lemma ScaleUpDeployments_loop_update_fails s rest h d cause :
  deploymentsGet env h namespace (Name s) = Ok d ->
  deploymentsUpdate env (h ++ [EvDeploymentsGet namespace (Name s)])%list namespace
    (K8s.withReplicas d (Replicas s)) = Some cause ->
  K8s.ScaleUpDeployments_loop env namespace (s :: rest) h
  = (Some ("failed to scale up deployment " ++ Name s ++ ": " ++ cause),
     [EvDeploymentsGet namespace (Name s);
      EvDeploymentsUpdate namespace (K8s.withReplicas d (Replicas s))]).
Proof.
  intros Hget Hupd. cbn [K8s.ScaleUpDeployments_loop].
  unfold bind, call, ret. cbn [fst snd]. rewrite Hget. cbn [fst snd].
  rewrite Hupd. reflexivity.
Qed.

(** [ScaleUpDeployments] is its loop between the marks of its call and of
    its return. *)
Lemma ScaleUpDeployments_unfold scales h :
  let loop := K8s.ScaleUpDeployments_loop env namespace scales in
  let h0 := (h ++ [EvScaleUpCall namespace scales])%list in
  value (K8s.ScaleUpDeployments env namespace scales) h = value loop h0
  /\ events (K8s.ScaleUpDeployments env namespace scales) h
     = (EvScaleUpCall namespace scales
          :: events loop h0 ++ [EvScaleUpReturn namespace (value loop h0)])%list.
Proof. split; reflexivity. Qed.

End ScaleUp.

(** C2, as the code has it. [ScaleUpDeployments] goes through the entries in
    order and stops at the first fetch or update that fails.  Let [done] be
    entries that the Kubernetes API lets restore, each paired with the
    deployment that its fetch is answered with, and [rest] the entries after
    them.  The calls for [done] are made first, in order: each entry is
    fetched by its name, and the deployment fetched is updated with the
    replica count of that entry.  When [rest] is empty, this is all that
    happens and the result is nil.  When the fetch of the first entry of
    [rest] fails, it is the last call, and the error returned is that one
    failure, with the name of the entry; when its fetch succeeds and its
    update fails, that update is the last call, and the error returned is
    that one failure, with the name of the entry.  No entry after it is
    attempted, and no failure is collected beside it. *)
Theorem ScaleUpDeployments_stops_at_first_failure :
  forall (env : Env) (namespace : string) (h : History)
         (done : list (DeploymentScale * Deployment)) (rest : list DeploymentScale),
    let scales := (map fst done ++ rest)%list in
    let r := K8s.ScaleUpDeployments env namespace scales in
    let h0 := (h ++ [EvScaleUpCall namespace scales])%list in
    let h1 := (h0 ++ resumeCalls namespace done)%list in
    Restores env namespace h0 done ->
    match rest with
    | [] =>
        value r h = None
        /\ events r h
           = (EvScaleUpCall namespace scales
                :: resumeCalls namespace done
                ++ [EvScaleUpReturn namespace None])%list
    | s :: _ =>
        (forall cause,
           deploymentsGet env h1 namespace (Name s) = Err cause ->
           let err := "failed to get deployment " ++ Name s ++ ": " ++ cause in
           value r h = Some err
           /\ events r h
              = (EvScaleUpCall namespace scales
                   :: resumeCalls namespace done
                   ++ [EvDeploymentsGet namespace (Name s);
                       EvScaleUpReturn namespace (Some err)])%list)
        /\ (forall d cause,
              deploymentsGet env h1 namespace (Name s) = Ok d ->
              deploymentsUpdate env (h1 ++ [EvDeploymentsGet namespace (Name s)])%list
                namespace (K8s.withReplicas d (Replicas s)) = Some cause ->
              let err := "failed to scale up deployment " ++ Name s ++ ": " ++ cause in
              value r h = Some err
              /\ events r h
                 = (EvScaleUpCall namespace scales
                      :: resumeCalls namespace done
                      ++ [EvDeploymentsGet namespace (Name s);
                          EvDeploymentsUpdate namespace
                            (K8s.withReplicas d (Replicas s));
                          EvScaleUpReturn namespace (Some err)])%list)
    end.
Proof.
  intros env ns h done rest scales r h0 h1 Hdone.
  destruct (ScaleUpDeployments_unfold env ns scales h) as [Hv He].
  destruct (ScaleUpDeployments_loop_restores env ns done rest h0 Hdone) as [Lv Le].
  cbv zeta in Hv, He, Lv, Le. fold scales h0 in Hv, He, Lv, Le. fold h1 in Lv, Le.
  fold r in Hv, He. rewrite Lv, Le in He. rewrite Lv in Hv. clear Lv Le.
  destruct rest as [|s rest].
  - rewrite Hv, He. cbn [K8s.ScaleUpDeployments_loop].
    rewrite value_ret, events_ret, app_nil_r. split; reflexivity.
  - split.
    + intros cause Hget err.
      pose proof (ScaleUpDeployments_loop_get_fails env ns s rest h1 cause Hget) as Hl.
      unfold value, events in Hv, He. rewrite Hl in Hv, He. cbn [fst snd] in Hv, He.
      unfold value, events. rewrite Hv, He, <- app_assoc. split; reflexivity.
    + intros d cause Hget Hupd err.
      pose proof (ScaleUpDeployments_loop_update_fails env ns s rest h1 d cause Hget Hupd)
        as Hl.
      unfold value, events in Hv, He. rewrite Hl in Hv, He. cbn [fst snd] in Hv, He.
      unfold value, events. rewrite Hv, He, <- app_assoc. split; reflexivity.
Qed.

Lemma ScaleUpDeployments_stops_at_first_failure_witness :
  let scales := [{| Name := "A"; Replicas := 3 |}; {| Name := "B"; Replicas := 5 |};
                 {| Name := "C"; Replicas := 2 |}] in
  let r := K8s.ScaleUpDeployments (Fake.world Fake.updateOfBFails) "ns" scales in
  value r [] = Some "failed to scale up deployment B: conflict"
  /\ events r []
     = [EvScaleUpCall "ns" scales;
        EvDeploymentsGet "ns" "A";
        EvDeploymentsUpdate "ns" (K8s.withReplicas Fake.A3 3);
        EvDeploymentsGet "ns" "B";
        EvDeploymentsUpdate "ns" (K8s.withReplicas Fake.B5 5);
        EvScaleUpReturn "ns" (Some "failed to scale up deployment B: conflict")].
Proof.
  refine (proj2 (ScaleUpDeployments_stops_at_first_failure
                   (Fake.world Fake.updateOfBFails) "ns" []
                   [({| Name := "A"; Replicas := 3 |}, Fake.A3)]
                   [{| Name := "B"; Replicas := 5 |}; {| Name := "C"; Replicas := 2 |}]
                   _) Fake.B5 "conflict" _ _).
  - cbn. repeat split.
  - reflexivity.
  - reflexivity.
Defined.

(** C2, as the design document has it, fails: when the fetch of ["A"] fails,
    ["B"] is not attempted, and the error speaks of ["A"] only. *)
Lemma ScaleUpDeployments_skips_after_failure :
  let scales := [{| Name := "A"; Replicas := 3 |}; {| Name := "B"; Replicas := 5 |}] in
  let r := K8s.ScaleUpDeployments (Fake.world (Fake.getsFail 200)) "ns" scales in
  value r [] = Some "failed to get deployment A: not found"
  /\ getNames (events r []) = ["A"]
  /\ getNames (events r []) <> map Name scales
  /\ updateReplicas (events r []) = [].
Proof.
  cbv zeta. repeat split. intros H. discriminate H.
Qed.

(* ================================================================= *)
(** ** The logger writes to stderr only *)

Section Silence.
Variable p : Event -> bool.
Hypothesis p_stderr : forall s, p (EvStderr s) = false.

Lemma Silent_Infof log msg : Silent p (Logger.Infof log msg).
Proof.
  unfold Logger.Infof. destruct (negb _); [apply Silent_emit, p_stderr | apply Silent_ret].
Qed.

Lemma Silent_Successf log msg : Silent p (Logger.Successf log msg).
Proof.
  unfold Logger.Successf. destruct (negb _); [apply Silent_emit, p_stderr | apply Silent_ret].
Qed.

Lemma Silent_Warningf log msg : Silent p (Logger.Warningf log msg).
Proof.
  unfold Logger.Warningf. destruct (negb _); [apply Silent_emit, p_stderr | apply Silent_ret].
Qed.

Lemma Silent_Debugf log msg : Silent p (Logger.Debugf log msg).
Proof.
  unfold Logger.Debugf. destruct (Logger.debug _); [apply Silent_emit, p_stderr | apply Silent_ret].
Qed.

Lemma Silent_Println log : Silent p (Logger.Println log).
Proof.
  unfold Logger.Println. destruct (negb _); [apply Silent_emit, p_stderr | apply Silent_ret].
Qed.

End Silence.

Ltac silent_log :=
  first [ apply Silent_Infof | apply Silent_Successf | apply Silent_Warningf
        | apply Silent_Debugf | apply Silent_Println ];
  intros ?; reflexivity.

Ltac silence := repeat first [ silent_log | silent_step ].

(* ================================================================= *)
(** ** Deleting an index and checking that it is gone *)

Section Verify.
Variable env : Env.
Variable log : Logger.Logger.
Variable index : string.

Lemma count_polling_exists k : count isEsExists (polling index k) = k.
Proof. induction k as [|k IH]; [reflexivity|]. simpl polling. rewrite !count_cons, IH. reflexivity. Qed.

Lemma count_polling_sleep k : count isSleep (polling index k) = k.
Proof. induction k as [|k IH]; [reflexivity|]. simpl polling. rewrite !count_cons, IH. reflexivity. Qed.

Lemma count_polling_delete k : count isEsDelete (polling index k) = 0%nat.
Proof. induction k as [|k IH]; [reflexivity|]. simpl polling. rewrite !count_cons, IH. reflexivity. Qed.

Lemma filter_polling_sleep k :
  filter isSleep (polling index k)
  = repeat (EvSleep Restore.defaultIndexDeleteRetryInterval) k.
Proof. induction k as [|k IH]; [reflexivity|]. simpl. now rewrite IH. Qed.

(** [k] rounds in which the index is still there, none of them the last
    attempt: the loop checks, sleeps, and goes on. *)
Lemma verifyDeletion_rounds k :
  forall fuel attempt h,
    (0 <= attempt)%Z ->
    (attempt + Z.of_nat k <= Restore.defaultMaxIndexDeleteAttempts - 1)%Z ->
    (forall j, (j < k)%nat ->
       value (ES.IndexExists env index) (h ++ polling index j)%list = (true, None)) ->
    Restore.verifyDeletion env log index (k + fuel) attempt h
    = (value (Restore.verifyDeletion env log index fuel (attempt + Z.of_nat k))
         (h ++ polling index k)%list,
       (polling index k
          ++ events (Restore.verifyDeletion env log index fuel (attempt + Z.of_nat k))
               (h ++ polling index k))%list).
Proof.
  unfold Restore.defaultMaxIndexDeleteAttempts.
  induction k as [|k IH]; intros fuel attempt h H0 Hk Hpresent.
  - cbn [polling Nat.add app Z.of_nat]. rewrite Z.add_0_r, app_nil_r.
    unfold value, events. now destruct (Restore.verifyDeletion _ _ _ _ _ _).
  - pose proof (Hpresent 0%nat ltac:(lia)) as H1.
    cbn [polling] in H1. rewrite app_nil_r in H1.
    cbn [Nat.add Restore.verifyDeletion].
    unfold Restore.defaultMaxIndexDeleteAttempts.
    replace (attempt <? 30)%Z with true by (symmetry; apply Z.ltb_lt; lia).
    unfold bind at 1. unfold value in H1. rewrite H1. cbn [fst snd negb].
    replace (attempt >=? 30 - 1)%Z with false
      by (symmetry; rewrite Z.geb_leb; apply Z.leb_gt; lia).
    assert (Hev : snd (ES.IndexExists env index h) = [EvEsIndicesExists index])
      by reflexivity.
    rewrite Hev. unfold bind, emit. cbn [fst snd].
    rewrite <- !app_assoc. cbn [app].
    rewrite (IH fuel (attempt + 1)%Z
               (h ++ [EvEsIndicesExists index;
                      EvSleep Restore.defaultIndexDeleteRetryInterval])%list).
    + rewrite <- !app_assoc. cbn [app polling fst snd].
      replace (attempt + 1 + Z.of_nat k)%Z with (attempt + Z.of_nat (S k))%Z by lia.
      reflexivity.
    + lia.
    + lia.
    + intros j Hj. rewrite <- app_assoc. cbn [app].
      apply (Hpresent (S j)). lia.
Qed.

(** The check that finds the index gone. *)
Lemma verifyDeletion_absent fuel attempt h :
  (attempt < Restore.defaultMaxIndexDeleteAttempts)%Z ->
  value (ES.IndexExists env index) h = (false, None) ->
  Restore.verifyDeletion env log index (S fuel) attempt h
  = (None,
     (EvEsIndicesExists index
        :: events (Logger.Debugf log ("Index successfully deleted: " ++ index))
             (h ++ [EvEsIndicesExists index]))%list).
Proof.
  intros Ha Habs. cbn [Restore.verifyDeletion].
  replace (attempt <? Restore.defaultMaxIndexDeleteAttempts)%Z with true
    by (symmetry; apply Z.ltb_lt; lia).
  unfold bind at 1. unfold value in Habs. rewrite Habs. cbn [fst snd negb].
  unfold bind, ret, events. cbn [fst snd]. now rewrite app_nil_r.
Qed.

(** The last check, which finds the index still there. *)
Lemma verifyDeletion_timeout fuel h :
  value (ES.IndexExists env index) h = (true, None) ->
  Restore.verifyDeletion env log index (S fuel)
    (Restore.defaultMaxIndexDeleteAttempts - 1) h
  = (Some ("timeout waiting for index " ++ index ++ " to be deleted"),
     [EvEsIndicesExists index]).
Proof.
  intros Hp. cbn [Restore.verifyDeletion].
  change (Restore.defaultMaxIndexDeleteAttempts - 1
          <? Restore.defaultMaxIndexDeleteAttempts)%Z with true.
  change (Restore.defaultMaxIndexDeleteAttempts - 1
          >=? Restore.defaultMaxIndexDeleteAttempts - 1)%Z with true.
  cbv iota. unfold bind at 1. unfold value in Hp. rewrite Hp. reflexivity.
Qed.

End Verify.

Section DeleteAndVerify.
Variable env : Env.
Variable log : Logger.Logger.
Variable index : string.

Let deleting : M unit := Logger.Infof log ("  Deleting index: " ++ index).

Lemma events_DeleteIndex h : events (ES.DeleteIndex env index) h = [EvEsIndicesDelete index].
Proof.
  unfold ES.DeleteIndex, events, bind, call. cbn [fst snd].
  destruct (esIndicesDelete env h index) as [res|e]; [destruct (IsError res)|]; reflexivity.
Qed.

(** Once the delete call has succeeded, the function is its loop. *)
Lemma deleteIndexWithVerification_deleted h :
  value (ES.DeleteIndex env index) (h ++ events deleting h)%list = None ->
  value (Restore.deleteIndexWithVerification env index log) h
  = value (Restore.verifyDeletion env log index 30 0)
      (h ++ events deleting h ++ [EvEsIndicesDelete index])%list
  /\ events (Restore.deleteIndexWithVerification env index log) h
     = (events deleting h ++ EvEsIndicesDelete index
          :: events (Restore.verifyDeletion env log index 30 0)
               (h ++ events deleting h ++ [EvEsIndicesDelete index]))%list.
Proof.
  intros Hdel. unfold Restore.deleteIndexWithVerification.
  fold deleting.
  change (Z.to_nat Restore.defaultMaxIndexDeleteAttempts) with 30%nat.
  rewrite !value_bind, !events_bind, Hdel, events_DeleteIndex.
  rewrite <- !app_assoc. split; reflexivity.
Qed.

End DeleteAndVerify.

(** C5. When the delete call for an index succeeds and every one of the
    thirty existence checks that follow reports the index present,
    [deleteIndexWithVerification] makes exactly
    [defaultMaxIndexDeleteAttempts] = 30 checks, sleeps between them (29
    times), and returns the timeout error for that index. *)
Theorem deleteIndexWithVerification_times_out :
  forall (env : Env) (log : Logger.Logger) (index : string) (h : History),
    let run := Restore.deleteIndexWithVerification env index log in
    let deleting := events (Logger.Infof log ("  Deleting index: " ++ index)) h in
    value (ES.DeleteIndex env index) (h ++ deleting)%list = None ->
    (forall j, (j < 30)%nat ->
       value (ES.IndexExists env index)
         (h ++ deleting ++ EvEsIndicesDelete index :: polling index j)%list
       = (true, None)) ->
    value run h = Some ("timeout waiting for index " ++ index ++ " to be deleted")
    /\ events run h
       = (deleting ++ EvEsIndicesDelete index
            :: polling index 29 ++ [EvEsIndicesExists index])%list
    /\ count isEsExists (events run h)
       = Z.to_nat Restore.defaultMaxIndexDeleteAttempts
    /\ count isEsExists (events run h) = 30%nat
    /\ count isSleep (events run h) = 29%nat
    /\ count isEsDelete (events run h) = 1%nat.
Proof.
  intros env log index h run deleting Hdel Hpresent.
  set (h2 := (h ++ deleting ++ [EvEsIndicesDelete index])%list).
  assert (Hh2 : forall j, (h ++ deleting ++ EvEsIndicesDelete index :: polling index j
                           = h2 ++ polling index j)%list).
  { intros j. unfold h2. now rewrite <- !app_assoc. }
  assert (Hloop : Restore.verifyDeletion env log index 30 0 h2
                  = (Some ("timeout waiting for index " ++ index ++ " to be deleted"),
                     (polling index 29 ++ [EvEsIndicesExists index])%list)).
  { change 30%nat with (29 + 1)%nat.
    rewrite (verifyDeletion_rounds env log index 29 1 0 h2).
    - unfold value, events. cbn [Z.of_nat Pos.of_succ_nat Pos.succ Z.add].
      change 29%Z with (Restore.defaultMaxIndexDeleteAttempts - 1)%Z.
      rewrite verifyDeletion_timeout; [reflexivity|].
      rewrite <- Hh2. apply Hpresent. lia.
    - lia.
    - unfold Restore.defaultMaxIndexDeleteAttempts. lia.
    - intros j Hj. rewrite <- Hh2. apply Hpresent. lia. }
  assert (Hrun : run h
                 = (Some ("timeout waiting for index " ++ index ++ " to be deleted"),
                    (deleting ++ EvEsIndicesDelete index
                       :: polling index 29 ++ [EvEsIndicesExists index])%list)).
  { destruct (deleteIndexWithVerification_deleted env log index h Hdel) as [Hv He].
    rewrite (surjective_pairing (run h)).
    fold (value run h). fold (events run h). unfold run. rewrite Hv, He.
    fold deleting. fold h2. unfold value, events. now rewrite Hloop. }
  assert (Hquiet : forall q, (forall s, q (EvStderr s) = false) -> count q deleting = 0%nat).
  { intros q Hq. unfold deleting. now apply Silent_Infof. }
  unfold value, events. rewrite Hrun. cbn [fst snd].
  split; [reflexivity|]. split; [reflexivity|].
  change (Z.to_nat Restore.defaultMaxIndexDeleteAttempts) with 30%nat.
  rewrite !count_app, !count_cons, !count_app, !count_cons, !count_nil.
  rewrite count_polling_exists, count_polling_sleep, count_polling_delete.
  rewrite !Hquiet by reflexivity. cbn. auto.
Qed.

(** C6. With the constants of the program (30 attempts, one second between
    them): when the delete call succeeds and the index is reported present
    by the first four existence checks and absent by the fifth,
    [deleteIndexWithVerification] returns nil after exactly five checks and
    four sleeps of one second each. *)
Theorem deleteIndexWithVerification_stops_when_absent :
  forall (env : Env) (log : Logger.Logger) (index : string) (h : History),
    let run := Restore.deleteIndexWithVerification env index log in
    let deleting := events (Logger.Infof log ("  Deleting index: " ++ index)) h in
    value (ES.DeleteIndex env index) (h ++ deleting)%list = None ->
    (forall j, (j < 4)%nat ->
       value (ES.IndexExists env index)
         (h ++ deleting ++ EvEsIndicesDelete index :: polling index j)%list
       = (true, None)) ->
    value (ES.IndexExists env index)
      (h ++ deleting ++ EvEsIndicesDelete index :: polling index 4)%list
    = (false, None) ->
    value run h = None
    /\ count isEsExists (events run h) = 5%nat
    /\ count isSleep (events run h) = 4%nat
    /\ filter isSleep (events run h) = repeat (EvSleep 1000000000) 4
    /\ Restore.defaultMaxIndexDeleteAttempts = 30%Z
    /\ Restore.defaultIndexDeleteRetryInterval = 1000000000%Z.
Proof.
  intros env log index h run deleting Hdel Hpresent Habsent.
  set (h2 := (h ++ deleting ++ [EvEsIndicesDelete index])%list).
  assert (Hh2 : forall j, (h ++ deleting ++ EvEsIndicesDelete index :: polling index j
                           = h2 ++ polling index j)%list).
  { intros j. unfold h2. now rewrite <- !app_assoc. }
  set (found := events (Logger.Debugf log ("Index successfully deleted: " ++ index))
                  ((h2 ++ polling index 4) ++ [EvEsIndicesExists index])%list).
  assert (Hloop : Restore.verifyDeletion env log index 30 0 h2
                  = (None, (polling index 4 ++ EvEsIndicesExists index :: found)%list)).
  { change 30%nat with (4 + 26)%nat.
    rewrite (verifyDeletion_rounds env log index 4 26 0 h2).
    - unfold value, events. change 26%nat with (S 25).
      rewrite verifyDeletion_absent; [reflexivity | reflexivity |].
      rewrite <- Hh2. exact Habsent.
    - lia.
    - unfold Restore.defaultMaxIndexDeleteAttempts. lia.
    - intros j Hj. rewrite <- Hh2. now apply Hpresent. }
  assert (Hrun : run h
                 = (None,
                    (deleting ++ EvEsIndicesDelete index
                       :: polling index 4 ++ EvEsIndicesExists index :: found)%list)).
  { destruct (deleteIndexWithVerification_deleted env log index h Hdel) as [Hv He].
    rewrite (surjective_pairing (run h)).
    fold (value run h). fold (events run h). unfold run. rewrite Hv, He.
    fold deleting. fold h2. unfold value, events. now rewrite Hloop. }
  assert (Hquiet : forall q, (forall s, q (EvStderr s) = false) ->
                             count q deleting = 0%nat /\ count q found = 0%nat).
  { intros q Hq. split; [now apply Silent_Infof | now apply Silent_Debugf]. }
  destruct (Hquiet isEsExists ltac:(reflexivity)) as [E1 E2].
  destruct (Hquiet isSleep ltac:(reflexivity)) as [S1 S2].
  unfold value, events. rewrite Hrun. cbn [fst snd].
  split; [reflexivity|].
  split; [|split; [|split; [|split; reflexivity]]].
  - rewrite !count_app, !count_cons, !count_app, !count_cons.
    rewrite count_polling_exists, E1, E2. reflexivity.
  - rewrite !count_app, !count_cons, !count_app, !count_cons.
    rewrite count_polling_sleep, S1, S2. reflexivity.
  - unfold count in S1, S2.
    apply length_zero_iff_nil in S1, S2.
    rewrite filter_app. cbn [filter isSleep]. rewrite filter_app.
    cbn [filter isSleep]. rewrite S1, S2, filter_polling_sleep.
    cbn [app]. now rewrite app_nil_r.
Qed.

(* ================================================================= *)
(** ** What each part of the run may emit *)

Section LoggerEmits.
Variable q : Event -> bool.
Hypothesis q_stderr : forall s, q (EvStderr s) = true.

Lemma Emits_Infof log msg : Emits q (Logger.Infof log msg).
Proof.
  unfold Logger.Infof. destruct (negb _); [apply Emits_emit, q_stderr | apply Emits_ret].
Qed.

Lemma Emits_Successf log msg : Emits q (Logger.Successf log msg).
Proof.
  unfold Logger.Successf. destruct (negb _); [apply Emits_emit, q_stderr | apply Emits_ret].
Qed.

Lemma Emits_Warningf log msg : Emits q (Logger.Warningf log msg).
Proof.
  unfold Logger.Warningf. destruct (negb _); [apply Emits_emit, q_stderr | apply Emits_ret].
Qed.

Lemma Emits_Debugf log msg : Emits q (Logger.Debugf log msg).
Proof.
  unfold Logger.Debugf. destruct (Logger.debug _); [apply Emits_emit, q_stderr | apply Emits_ret].
Qed.

Lemma Emits_Println log : Emits q (Logger.Println log).
Proof.
  unfold Logger.Println. destruct (negb _); [apply Emits_emit, q_stderr | apply Emits_ret].
Qed.

End LoggerEmits.

Ltac emits_log :=
  first [ apply Emits_Infof | apply Emits_Successf | apply Emits_Warningf
        | apply Emits_Debugf | apply Emits_Println ];
  intros ?; reflexivity.

Ltac footprint := repeat first [ emits_log | emits_step ].

Section Footprints.
Variable env : Env.

Lemma Emits_ListIndices pattern : Emits esEvent (ES.ListIndices env pattern).
Proof. unfold ES.ListIndices. footprint. Qed.

Lemma Emits_GetSnapshot repository name : Emits esEvent (ES.GetSnapshot env repository name).
Proof. unfold ES.GetSnapshot. footprint. Qed.

Lemma Emits_DeleteIndex index : Emits esEvent (ES.DeleteIndex env index).
Proof. unfold ES.DeleteIndex. footprint. Qed.

Lemma Emits_IndexExists index : Emits esEvent (ES.IndexExists env index).
Proof. unfold ES.IndexExists. footprint. Qed.

Lemma Emits_RolloverDatastream name : Emits esEvent (ES.RolloverDatastream env name).
Proof. unfold ES.RolloverDatastream. footprint. Qed.

Lemma Emits_RestoreSnapshot repository name pattern wait :
  Emits esEvent (ES.RestoreSnapshot env repository name pattern wait).
Proof. unfold ES.RestoreSnapshot. footprint. Qed.

#[local] Hint Resolve Emits_ListIndices Emits_GetSnapshot Emits_DeleteIndex Emits_IndexExists
  Emits_RolloverDatastream Emits_RestoreSnapshot : emits.

Lemma Emits_verifyDeletion log index fuel :
  forall attempt, Emits esEvent (Restore.verifyDeletion env log index fuel attempt).
Proof.
  induction fuel as [|fuel IH]; intros attempt; cbn [Restore.verifyDeletion].
  - apply Emits_ret.
  - footprint.
Qed.

#[local] Hint Resolve Emits_verifyDeletion : emits.

Lemma Emits_deleteIndexWithVerification index log :
  Emits esEvent (Restore.deleteIndexWithVerification env index log).
Proof. unfold Restore.deleteIndexWithVerification. footprint. Qed.

#[local] Hint Resolve Emits_deleteIndexWithVerification : emits.

Lemma Emits_deleteIndices_loop log stsIndices :
  Emits esEvent (Restore.deleteIndices_loop env log stsIndices).
Proof.
  induction stsIndices as [|index rest IH]; cbn [Restore.deleteIndices_loop]; footprint.
Qed.

#[local] Hint Resolve Emits_deleteIndices_loop : emits.

Lemma Emits_deleteIndices_rollover stsIndices cfg log :
  Emits esEvent (Restore.deleteIndices_rollover env stsIndices cfg log).
Proof.
  unfold Restore.deleteIndices_rollover. footprint.
Qed.

#[local] Hint Resolve Emits_deleteIndices_rollover : emits.

Lemma Emits_confirmDeletion : Emits restoreEvent (Restore.confirmDeletion env).
Proof.
  unfold Restore.confirmDeletion. footprint.
Qed.

#[local] Hint Resolve Emits_confirmDeletion : emits.

Lemma Emits_deleteIndices stsIndices cfg log skipConfirm :
  Emits restoreEvent (Restore.deleteIndices env stsIndices cfg log skipConfirm).
Proof.
  unfold Restore.deleteIndices. footprint.
Qed.

#[local] Hint Resolve Emits_deleteIndices : emits.

Lemma Emits_runRestore_forwarded cliCtx flags cfg log :
  Emits restoreEvent (Restore.runRestore_forwarded env cliCtx flags cfg log).
Proof.
  unfold Restore.runRestore_forwarded. footprint.
Qed.

#[local] Hint Resolve Emits_runRestore_forwarded : emits.

Lemma Emits_runRestore_scaled cliCtx flags cfg log :
  Emits restoreEvent (Restore.runRestore_scaled env cliCtx flags cfg log).
Proof. unfold Restore.runRestore_scaled. footprint. Qed.

Lemma Emits_ScaleDownDeployments_loop namespace items :
  forall scaled, Emits pauseEvent (K8s.ScaleDownDeployments_loop env namespace items scaled).
Proof.
  induction items as [|d rest IH]; intros scaled; cbn [K8s.ScaleDownDeployments_loop].
  - apply Emits_ret.
  - footprint.
Qed.

#[local] Hint Resolve Emits_ScaleDownDeployments_loop : emits.

Lemma Emits_ScaleDownDeployments namespace labelSelector :
  Emits pauseEvent (K8s.ScaleDownDeployments env namespace labelSelector).
Proof.
  unfold K8s.ScaleDownDeployments, K8s.ScaleDownDeployments_body. footprint.
Qed.

#[local] Hint Resolve Emits_ScaleDownDeployments : emits.

Lemma Emits_scaleDownDeployments namespace labelSelector log :
  Emits pauseEvent (Restore.scaleDownDeployments env namespace labelSelector log).
Proof.
  unfold Restore.scaleDownDeployments. footprint.
Qed.

Lemma Emits_ScaleUpDeployments_loop namespace scales :
  Emits resumeEvent (K8s.ScaleUpDeployments_loop env namespace scales).
Proof.
  induction scales as [|s rest IH]; cbn [K8s.ScaleUpDeployments_loop]; footprint.
Qed.

#[local] Hint Resolve Emits_ScaleUpDeployments_loop : emits.

Lemma Emits_ScaleUpDeployments namespace scales :
  Emits resumeEvent (K8s.ScaleUpDeployments env namespace scales).
Proof. unfold K8s.ScaleUpDeployments. footprint. Qed.

#[local] Hint Resolve Emits_ScaleUpDeployments : emits.

Lemma Emits_deferredScaleUp cliCtx log scaled :
  Emits resumeEvent (Restore.deferredScaleUp env cliCtx log scaled).
Proof.
  unfold Restore.deferredScaleUp. footprint.
Qed.

End Footprints.

#[export] Hint Resolve Emits_ListIndices Emits_GetSnapshot Emits_DeleteIndex
  Emits_IndexExists Emits_RolloverDatastream Emits_RestoreSnapshot
  Emits_verifyDeletion Emits_deleteIndexWithVerification Emits_deleteIndices_loop
  Emits_deleteIndices_rollover Emits_confirmDeletion Emits_deleteIndices
  Emits_runRestore_forwarded Emits_runRestore_scaled Emits_ScaleDownDeployments_loop
  Emits_ScaleDownDeployments Emits_scaleDownDeployments
  Emits_ScaleUpDeployments_loop Emits_ScaleUpDeployments Emits_deferredScaleUp
  : emits.

(* ================================================================= *)
(** ** The shape of a run *)

Section RunShape.
Variable env : Env.

Lemma Emits_ScaleDownDeployments_body namespace labelSelector :
  Emits deploymentsCall (K8s.ScaleDownDeployments_body env namespace labelSelector).
Proof.
  assert (Hloop : forall items scaled,
             Emits deploymentsCall
               (K8s.ScaleDownDeployments_loop env namespace items scaled)).
  { induction items as [|d rest IH]; intros scaled;
      cbn [K8s.ScaleDownDeployments_loop]; footprint. }
  unfold K8s.ScaleDownDeployments_body. footprint.
Qed.

Lemma Emits_ScaleUpDeployments_calls namespace scales :
  Emits fetchOrUpdate (K8s.ScaleUpDeployments_loop env namespace scales).
Proof.
  induction scales as [|s rest IH]; cbn [K8s.ScaleUpDeployments_loop]; footprint.
Qed.

(** [ScaleDownDeployments] ends with the one mark of its return. *)
Lemma events_ScaleDownDeployments namespace labelSelector h :
  let k := K8s.ScaleDownDeployments env namespace labelSelector in
  exists calls,
    forallb deploymentsCall calls = true
    /\ events k h
       = (calls ++ [EvScaleDownReturn namespace labelSelector
                      (fst (value k h)) (snd (value k h))])%list.
Proof.
  intros k.
  exists (events (K8s.ScaleDownDeployments_body env namespace labelSelector) h).
  split; [apply Emits_ScaleDownDeployments_body | reflexivity].
Qed.

(** [ScaleUpDeployments] starts with the mark of its call and ends with the
    mark of its return. *)
Lemma events_ScaleUpDeployments namespace scales h :
  let k := K8s.ScaleUpDeployments env namespace scales in
  exists calls,
    forallb fetchOrUpdate calls = true
    /\ events k h
       = (EvScaleUpCall namespace scales
            :: calls ++ [EvScaleUpReturn namespace (value k h)])%list.
Proof.
  intros k.
  exists (events (K8s.ScaleUpDeployments_loop env namespace scales)
            (h ++ [EvScaleUpCall namespace scales])%list).
  split; [apply Emits_ScaleUpDeployments_calls | reflexivity].
Qed.

(** The wrapper of the command: it logs around the call, and drops the
    slice when the call has failed. *)
Lemma scaleDownDeployments_shape namespace labelSelector log h :
  let pause := Restore.scaleDownDeployments env namespace labelSelector log in
  let k := K8s.ScaleDownDeployments env namespace labelSelector in
  exists announce report,
    forallb isStderr announce = true
    /\ forallb isStderr report = true
    /\ events pause h = (announce ++ events k (h ++ announce) ++ report)%list
    /\ value pause h
       = match snd (value k (h ++ announce)%list) with
         | Some e => ([], Some ("failed to scale down deployments: " ++ e))
         | None => (fst (value k (h ++ announce)%list), None)
         end.
Proof.
  intros pause k.
  set (announce := events (Logger.Infof log ("Scaling down deployments (selector: "
                                             ++ labelSelector ++ ")...")) h).
  assert (Ha : forallb isStderr announce = true)
    by (apply Emits_Infof; reflexivity).
  exists announce.
  unfold pause, Restore.scaleDownDeployments.
  rewrite !events_bind, !value_bind. fold announce. fold k.
  destruct (snd (value k (h ++ announce)%list)) as [e|].
  - exists []. rewrite events_ret, value_ret. repeat split; assumption.
  - rewrite !events_bind, !value_bind, events_ret, value_ret, app_nil_r.
    eexists. split; [exact Ha|]. split; [|split; reflexivity].
    match goal with |- forallb _ (events ?m ?h') = true =>
      assert (Hm : Emits isStderr m) by footprint; apply Hm end.
Qed.

End RunShape.

Section RunCases.
Variable env : Env.
Variable cliCtx : CLIConfig.
Variable flags : Flags.

Let log : Logger.Logger := Logger.New (Quiet cliCtx) (Debug cliCtx).

Let setup : list Event :=
  [EvK8sNewClient (Kubeconfig cliCtx) (Debug cliCtx);
   EvLoadConfig (Namespace cliCtx) (ConfigMapName cliCtx) (SecretName cliCtx)].

Lemma len_pos {A} (l : list A) : l <> [] -> (Restore.len l >? 0)%Z = true.
Proof.
  intros H. destruct l as [|x l]; [contradiction|].
  unfold Restore.len. cbn [List.length]. apply Z.gtb_lt. lia.
Qed.

(** The deferred function, when something was scaled down: it logs, calls
    [ScaleUpDeployments] once, and reports; a failure is reported by one
    warning line, which a quiet logger does not print. *)
Lemma deferredScaleUp_shape scaled h :
  scaled <> [] ->
  let resume := Restore.deferredScaleUp env cliCtx log scaled in
  let k := K8s.ScaleUpDeployments env (Namespace cliCtx) scaled in
  exists announce report,
    forallb isStderr announce = true
    /\ forallb isStderr report = true
    /\ events resume h = (announce ++ events k (h ++ announce) ++ report)%list
    /\ (forall e, value k (h ++ announce)%list = Some e ->
          report = if Quiet cliCtx then []
                   else [EvStderr ("Warning: Failed to scale up deployments: "
                                   ++ e ++ nl)]).
Proof.
  intros Hne resume k.
  set (m := (Logger.Println log ;;
             Logger.Infof log "Scaling up deployments back to original replica counts...")).
  assert (Hm : Emits isStderr m) by (unfold m; footprint).
  exists (events m h).
  unfold resume, Restore.deferredScaleUp. rewrite (len_pos scaled Hne).
  assert (Hev : forall (A : Type) (f : option error -> M A),
             events (Logger.Println log ;;
                     Logger.Infof log "Scaling up deployments back to original replica counts..." ;;
                     err <- K8s.ScaleUpDeployments env (Namespace cliCtx) scaled ;;
                     f err) h
             = (events m h ++ events k (h ++ events m h)
                  ++ events (f (value k (h ++ events m h)%list))
                       ((h ++ events m h) ++ events k (h ++ events m h)))%list).
  { intros A f. unfold m. rewrite !events_bind. fold k.
    rewrite <- !app_assoc. reflexivity. }
  rewrite Hev. eexists. split; [apply Hm|]. split; [|split; [reflexivity|]].
  - destruct (value k _) as [e|].
    + apply Emits_Warningf. reflexivity.
    + match goal with |- forallb _ (events ?r ?h') = true =>
        assert (Hr : Emits isStderr r) by footprint; apply Hr end.
  - intros e He. rewrite He. unfold Logger.Warningf, log, Logger.New. cbn [Logger.quiet].
    destruct (Quiet cliCtx); reflexivity.
Qed.

(** The ways [runRestore] can go: it fails before the scale down; or the
    scale down fails, and it returns at once; or the scale down succeeds,
    and it runs its body and then the deferred scale up, whose outcome does
    not reach the result. *)
Lemma runRestore_cases h :
  let run := Restore.runRestore env cliCtx flags in
  (exists e, value run h = Some e /\ forallb setupEvent (events run h) = true)
  \/ exists cfg,
       let hp := (h ++ setup)%list in
       let pause := Restore.scaleDownDeployments env (Namespace cliCtx)
                      (ScaleDownLabelSelector (Restore cfg)) log in
       let hb := (hp ++ events pause hp)%list in
       let body := Restore.runRestore_scaled env cliCtx flags cfg log in
       let resume := Restore.deferredScaleUp env cliCtx log (fst (value pause hp)) in
       (exists e, snd (value pause hp) = Some e
                  /\ value run h = Some e
                  /\ events run h = (setup ++ events pause hp)%list)
       \/ (snd (value pause hp) = None
           /\ value run h = value body hb
           /\ events run h
              = (setup ++ events pause hp ++ events body hb
                   ++ events resume (hb ++ events body hb))%list).
Proof.
  intros run. unfold run, Restore.runRestore. fold log.
  rewrite !value_bind, !events_bind, !value_call, !events_call.
  destruct (k8sNewClient env h (Kubeconfig cliCtx) (Debug cliCtx)) as [e|].
  { left. exists ("failed to create Kubernetes client: " ++ e). split; reflexivity. }
  rewrite !value_bind, !events_bind, !value_call, !events_call.
  destruct (loadConfig env _ (Namespace cliCtx) (ConfigMapName cliCtx) (SecretName cliCtx))
    as [cfg|e].
  2:{ left. exists ("failed to load configuration: " ++ e). split; reflexivity. }
  right. exists cfg. cbv zeta.
  rewrite !value_bind, !events_bind.
  rewrite <- !app_assoc. cbn [app]. fold setup.
  set (pause := Restore.scaleDownDeployments env (Namespace cliCtx)
                  (ScaleDownLabelSelector (Restore cfg)) log).
  destruct (snd (value pause (h ++ setup)%list)) as [e|] eqn:Ep.
  - left. exists e. rewrite value_ret, events_ret, app_nil_r. repeat split.
  - right. rewrite value_withDefer, events_withDefer.
    rewrite <- !app_assoc. repeat split.
Qed.

End RunCases.

(* ================================================================= *)
(** ** Pause and resume over a whole run *)

Section PauseResume.
Variable env : Env.
Variable cliCtx : CLIConfig.
Variable flags : Flags.

Lemma In_forallb (q : Event -> bool) l e : forallb q l = true -> In e l -> q e = true.
Proof. intros H Hin. rewrite forallb_forall in H. now apply H. Qed.

(** The mark of the return of [ScaleDownDeployments] tells what the wrapper
    of the command returns. *)
Lemma ScaleDownReturn_in_pause namespace labelSelector log h ns sel scaled err :
  let pause := Restore.scaleDownDeployments env namespace labelSelector log in
  In (EvScaleDownReturn ns sel scaled err) (events pause h) ->
  value pause h
  = match err with
    | Some e => ([], Some ("failed to scale down deployments: " ++ e))
    | None => (scaled, None)
    end.
Proof.
  intros pause Hin.
  destruct (scaleDownDeployments_shape env namespace labelSelector log h)
    as [announce [report [Ha [Hr [He Hv]]]]].
  fold pause in He, Hv. rewrite He in Hin.
  destruct (events_ScaleDownDeployments env namespace labelSelector (h ++ announce)%list)
    as [calls [Hc Hk]].
  cbv zeta in Hk. rewrite Hk in Hin.
  rewrite !in_app_iff in Hin. cbn [In] in Hin.
  destruct Hin as [Hin | [[Hin | [Hin | []]] | Hin]].
  - apply (In_forallb _ _ _ Ha) in Hin. discriminate Hin.
  - apply (In_forallb _ _ _ Hc) in Hin. discriminate Hin.
  - injection Hin as _ _ E1 E2. rewrite Hv, E2.
    destruct err; [reflexivity | now rewrite E1].
  - apply (In_forallb _ _ _ Hr) in Hin. discriminate Hin.
Qed.

(** A scale down that returned a non-empty slice and no error is followed by
    exactly one call of [ScaleUpDeployments], with that slice; it comes
    after everything else, whatever the result of the run is. *)
Lemma runRestore_resumes_once h ns sel scaled :
  let run := Restore.runRestore env cliCtx flags in
  In (EvScaleDownReturn ns sel scaled None) (events run h) ->
  scaled <> [] ->
  count isScaleUpCall (events run h) = 1%nat
  /\ exists before after,
       events run h = (before ++ EvScaleUpCall (Namespace cliCtx) scaled :: after)%list
       /\ count isScaleUpCall before = 0%nat
       /\ forallb resumeEvent after = true.
Proof.
  intros run Hin Hne.
  destruct (runRestore_cases env cliCtx flags h)
    as [[e [_ He]] | [cfg [[e [Hp [_ He]]] | [Hp [_ He]]]]];
    fold run in He.
  - apply (In_forallb _ _ _ He) in Hin. discriminate Hin.
  - rewrite He in Hin. apply in_app_iff in Hin. destruct Hin as [Hin | Hin].
    + cbn [In] in Hin. destruct Hin as [Hin | [Hin | []]]; discriminate Hin.
    + apply ScaleDownReturn_in_pause in Hin. rewrite Hin in Hp. discriminate Hp.
  - set (log := Logger.New (Quiet cliCtx) (Debug cliCtx)) in *.
    set (setup := [EvK8sNewClient (Kubeconfig cliCtx) (Debug cliCtx);
                   EvLoadConfig (Namespace cliCtx) (ConfigMapName cliCtx)
                     (SecretName cliCtx)]) in *.
    set (hp := (h ++ setup)%list) in *.
    set (pause := Restore.scaleDownDeployments env (Namespace cliCtx)
                    (ScaleDownLabelSelector (Restore cfg)) log) in *.
    set (hb := (hp ++ events pause hp)%list) in *.
    set (body := Restore.runRestore_scaled env cliCtx flags cfg log) in *.
    assert (Hpause : forallb pauseEvent (events pause hp) = true)
      by apply Emits_scaleDownDeployments.
    assert (Hbody : forallb restoreEvent (events body hb) = true)
      by apply Emits_runRestore_scaled.
    assert (Hresume : forall s h', forallb resumeEvent
                        (events (Restore.deferredScaleUp env cliCtx log s) h') = true)
      by (intros; apply Emits_deferredScaleUp).
    assert (Hscaled : fst (value pause hp) = scaled).
    { rewrite He in Hin. rewrite !in_app_iff in Hin.
      destruct Hin as [Hin | [Hin | [Hin | Hin]]].
      - cbn [In] in Hin. destruct Hin as [Hin | [Hin | []]]; discriminate Hin.
      - apply ScaleDownReturn_in_pause in Hin. fold pause in Hin. now rewrite Hin.
      - apply (In_forallb _ _ _ Hbody) in Hin. discriminate Hin.
      - apply (In_forallb _ _ _ (Hresume _ _)) in Hin. discriminate Hin. }
    rewrite Hscaled in He.
    destruct (deferredScaleUp_shape env cliCtx scaled (hb ++ events body hb)%list Hne)
      as [announce [report [Ha [Hr [Hd _]]]]].
    fold log in Hd.
    destruct (events_ScaleUpDeployments env (Namespace cliCtx) scaled
                ((hb ++ events body hb) ++ announce)%list) as [calls [Hc Hk]].
    cbv zeta in Hk. rewrite Hk in Hd. rewrite Hd in He.
    set (ret := EvScaleUpReturn _ _) in *.
    assert (Hbefore : count isScaleUpCall
                        (setup ++ events pause hp ++ events body hb ++ announce) = 0%nat).
    { rewrite !count_app.
      rewrite (count_outside pauseEvent isScaleUpCall _ Hpause) by by_event.
      rewrite (count_outside restoreEvent isScaleUpCall _ Hbody) by by_event.
      rewrite (count_outside isStderr isScaleUpCall _ Ha) by by_event.
      reflexivity. }
    assert (Hafter : forallb resumeEvent ((calls ++ [ret]) ++ report) = true).
    { rewrite !forallb_app. apply andb_true_iff; split; [apply andb_true_iff; split|].
      - apply (forallb_weaken fetchOrUpdate); [exact Hc | by_event].
      - reflexivity.
      - apply (forallb_weaken isStderr); [exact Hr | by_event]. }
    assert (Hshape : events run h
                     = ((setup ++ events pause hp ++ events body hb ++ announce)
                          ++ EvScaleUpCall (Namespace cliCtx) scaled
                          :: (calls ++ [ret]) ++ report)%list).
    { rewrite He, <- !app_assoc. cbn [app]. rewrite <- !app_assoc. reflexivity. }
    split.
    + rewrite Hshape, count_app, count_cons, Hbefore. cbn [isScaleUpCall].
      rewrite !count_app.
      rewrite (count_outside fetchOrUpdate isScaleUpCall _ Hc) by by_event.
      rewrite (count_outside isStderr isScaleUpCall _ Hr) by by_event.
      reflexivity.
    + eexists. eexists. split; [exact Hshape|]. split; assumption.
Qed.

(** A scale down that returned an error is followed by no call of
    [ScaleUpDeployments], whatever it had captured, and the run fails. *)
Lemma runRestore_no_resume_after_failed_pause h ns sel scaled e :
  let run := Restore.runRestore env cliCtx flags in
  In (EvScaleDownReturn ns sel scaled (Some e)) (events run h) ->
  count isScaleUpCall (events run h) = 0%nat
  /\ value run h = Some ("failed to scale down deployments: " ++ e).
Proof.
  intros run Hin.
  destruct (runRestore_cases env cliCtx flags h)
    as [[e' [_ He]] | [cfg [[e' [Hp [Hv He]]] | [Hp [_ He]]]]];
    fold run in He.
  - apply (In_forallb _ _ _ He) in Hin. discriminate Hin.
  - fold run in Hv.
    assert (Hpause : forall l s g h', forallb pauseEvent
              (events (Restore.scaleDownDeployments env l s g) h') = true)
      by (intros; apply Emits_scaleDownDeployments).
    rewrite He in Hin |- *. apply in_app_iff in Hin. destruct Hin as [Hin | Hin].
    + cbn [In] in Hin. destruct Hin as [Hin | [Hin | []]]; discriminate Hin.
    + apply ScaleDownReturn_in_pause in Hin. rewrite Hin in Hp. cbn [snd] in Hp.
      injection Hp as <-. split; [|exact Hv].
      rewrite count_app.
      rewrite (count_outside pauseEvent isScaleUpCall _ (Hpause _ _ _ _)) by by_event.
      reflexivity.
  - exfalso. rewrite He in Hin. rewrite !in_app_iff in Hin.
    destruct Hin as [Hin | [Hin | [Hin | Hin]]].
    + cbn [In] in Hin. destruct Hin as [Hin | [Hin | []]]; discriminate Hin.
    + apply ScaleDownReturn_in_pause in Hin. rewrite Hin in Hp. discriminate Hp.
    + assert (Hb := Emits_runRestore_scaled env cliCtx flags cfg
                      (Logger.New (Quiet cliCtx) (Debug cliCtx))).
      apply (In_forallb _ _ _ (Hb _)) in Hin. discriminate Hin.
    + assert (Hr := Emits_deferredScaleUp env cliCtx
                      (Logger.New (Quiet cliCtx) (Debug cliCtx))).
      apply (In_forallb _ _ _ (Hr _ _)) in Hin. discriminate Hin.
Qed.

End PauseResume.

(** C1. The run in which the scale down fails after capturing a non-empty
    partial set: deployment ["A"] has been scaled to zero, the update of
    ["B"] is refused, [ScaleDownDeployments] returns the snapshots of both
    with the error.  The command's wrapper drops the slice and [runRestore]
    returns before the scale up is deferred: [ScaleUpDeployments] is never
    called, no deployment is fetched, ["A"] stays at zero, and the process
    exits with code 1.  (For a scale down that succeeds, the scale up is
    called exactly once: [runRestore_resumes_once].) *)
Theorem runRestore_abandons_partial_pause :
  let run := Restore.restoreCmd_Run (Fake.world Fake.updateOfBFails)
               (Fake.cli false) (Fake.flags false true) in
  In (EvDeploymentsUpdate "ns" (K8s.withReplicas Fake.A3 0)) (events run [])
  /\ In (EvScaleDownReturn "ns" "scalable=true"
           [{| Name := "A"; Replicas := 3 |}; {| Name := "B"; Replicas := 5 |}]
           (Some "failed to scale down deployment B: conflict"))
        (events run [])
  /\ count isScaleUpCall (events run []) = 0%nat
  /\ count isDeploymentsGet (events run []) = 0%nat
  /\ value run [] = 1%Z.
Proof.
  cbv zeta. vm_compute. repeat split; auto 10.
Qed.

(* ================================================================= *)
(** ** A resume that fails *)

(** A run that returns nil although the scale up in its deferred function
    has returned an error: the process exits with code 0, [os.Exit] is not
    called, and the warning for the failure is the last line, unless the
    logger is quiet. *)
Lemma failed_resume_of_a_nil_run :
  forall (env : Env) (cliCtx : CLIConfig) (flags : Flags) (h : History)
         (ns : string) (e : error),
    let run := Restore.restoreCmd_Run env cliCtx flags in
    value (Restore.runRestore env cliCtx flags) h = None ->
    In (EvScaleUpReturn ns (Some e)) (events run h) ->
    value run h = 0%Z
    /\ count isExit (events run h) = 0%nat
    /\ exists before,
         events run h
         = (before ++ EvScaleUpReturn (Namespace cliCtx) (Some e)
              :: (if Quiet cliCtx then []
                  else [EvStderr ("Warning: Failed to scale up deployments: "
                                  ++ e ++ nl)]))%list.
Proof.
  intros env cliCtx flags h ns e run Hnil Hin.
  assert (Hv : value run h = 0%Z).
  { unfold run, Restore.restoreCmd_Run. rewrite value_bind, Hnil. reflexivity. }
  assert (He : events run h = events (Restore.runRestore env cliCtx flags) h).
  { unfold run, Restore.restoreCmd_Run. rewrite events_bind, Hnil.
    rewrite events_ret. apply app_nil_r. }
  rewrite He in *. clear He. split; [exact Hv|].
  destruct (runRestore_cases env cliCtx flags h)
    as [[e' [Hv' _]] | [cfg [[e' [_ [Hv' _]]] | [Hp [_ He]]]]];
    try (rewrite Hnil in Hv'; discriminate Hv').
  set (log := Logger.New (Quiet cliCtx) (Debug cliCtx)) in *.
  set (setup := [EvK8sNewClient (Kubeconfig cliCtx) (Debug cliCtx);
                 EvLoadConfig (Namespace cliCtx) (ConfigMapName cliCtx)
                   (SecretName cliCtx)]) in *.
  set (hp := (h ++ setup)%list) in *.
  set (pause := Restore.scaleDownDeployments env (Namespace cliCtx)
                  (ScaleDownLabelSelector (Restore cfg)) log) in *.
  set (hb := (hp ++ events pause hp)%list) in *.
  set (body := Restore.runRestore_scaled env cliCtx flags cfg log) in *.
  assert (Hpause : forallb pauseEvent (events pause hp) = true)
    by apply Emits_scaleDownDeployments.
  assert (Hbody : forallb restoreEvent (events body hb) = true)
    by apply Emits_runRestore_scaled.
  rewrite He in Hin. rewrite !in_app_iff in Hin.
  destruct Hin as [Hin | [Hin | [Hin | Hin]]].
  - cbn [In] in Hin. destruct Hin as [Hin | [Hin | []]]; discriminate Hin.
  - apply (In_forallb _ _ _ Hpause) in Hin. discriminate Hin.
  - apply (In_forallb _ _ _ Hbody) in Hin. discriminate Hin.
  - destruct (fst (value pause hp)) as [|s scaled] eqn:Es; [contradiction Hin|].
    assert (Hne : s :: scaled <> []) by discriminate.
    destruct (deferredScaleUp_shape env cliCtx (s :: scaled)
                (hb ++ events body hb)%list Hne)
      as [announce [report [Ha [Hr [Hd Hw]]]]].
    fold log in Hd.
    destruct (events_ScaleUpDeployments env (Namespace cliCtx) (s :: scaled)
                ((hb ++ events body hb) ++ announce)%list) as [calls [Hc Hk]].
    cbv zeta in Hk, Hw. rewrite Hk in Hd.
    set (v := value (K8s.ScaleUpDeployments env (Namespace cliCtx) (s :: scaled))
                ((hb ++ events body hb) ++ announce)%list) in *.
    assert (Hve : v = Some e).
    { rewrite Hd in Hin. rewrite !in_app_iff in Hin. cbn [In] in Hin.
      rewrite in_app_iff in Hin. cbn [In] in Hin.
      destruct Hin as [Hin | [[Hin | [Hin | [Hin | []]]] | Hin]].
      - apply (In_forallb _ _ _ Ha) in Hin. discriminate Hin.
      - discriminate Hin.
      - apply (In_forallb _ _ _ Hc) in Hin. discriminate Hin.
      - now injection Hin.
      - apply (In_forallb _ _ _ Hr) in Hin. discriminate Hin. }
    rewrite (Hw e Hve) in Hd. rewrite Hve in Hd.
    rewrite He, Hd. split.
    + rewrite !count_app, count_cons, !count_app, !count_cons.
      rewrite (count_outside pauseEvent isExit _ Hpause) by by_event.
      rewrite (count_outside restoreEvent isExit _ Hbody) by by_event.
      rewrite (count_outside isStderr isExit _ Ha) by by_event.
      rewrite (count_outside fetchOrUpdate isExit _ Hc) by by_event.
      cbn. destruct (Quiet cliCtx); reflexivity.
    + exists (setup ++ events pause hp ++ events body hb ++ announce
                ++ EvScaleUpCall (Namespace cliCtx) (s :: scaled) :: calls)%list.
      rewrite <- !app_assoc. cbn [app]. rewrite <- !app_assoc. reflexivity.
Qed.

(** C4, as the design document has it, fails for a quiet logger: every phase
    succeeds, the scale up fails, the exit code is 0, and nothing at all is
    written to stderr. *)
Lemma quiet_resume_failure_prints_nothing :
  let run := Restore.restoreCmd_Run (Fake.world (Fake.getsFail 200))
               (Fake.cli true) (Fake.flags false true) in
  value run [] = 0%Z
  /\ In (EvEsSnapshotRestore "sts-backup" "backup-1" "sts*" true) (events run [])
  /\ In (EvScaleUpReturn "ns" (Some "failed to get deployment A: not found"))
        (events run [])
  /\ count isStderr (events run []) = 0%nat.
Proof.
  cbv zeta. vm_compute. repeat split; auto 50.
Qed.

(* ================================================================= *)
(** ** The confirmation *)

Section Refusing.
Variable failure : error.

Lemma Refused_silent (m : M (option error)) :
  Silent isStdinRead m -> Refused failure m.
Proof. intros Hs h Hc. now rewrite Hs in Hc. Qed.

Lemma Refused_after {A} (m : M A) (f : A -> M (option error)) :
  Silent isStdinRead m -> Silent isEsDelete m ->
  (forall a, Refused failure (f a)) -> Refused failure (bind m f).
Proof.
  intros Hs Hd Hf h Hc.
  rewrite events_bind, count_app, Hs in Hc.
  destruct (Hf _ _ Hc) as [Hv He].
  rewrite value_bind, events_bind, count_app, Hd, He. now split.
Qed.

Lemma Refused_then (m : M (option error)) (f : option error -> M (option error)) :
  Refused failure m ->
  (forall a, Silent isStdinRead (f a)) ->
  (forall h, value (f (Some failure)) h = Some failure) ->
  Silent isEsDelete (f (Some failure)) ->
  Refused failure (bind m f).
Proof.
  intros Hm Hs Hv Hd h Hc.
  rewrite events_bind, count_app, Hs, Nat.add_0_r in Hc.
  destruct (Hm _ Hc) as [Hmv Hme].
  rewrite value_bind, events_bind, count_app, Hmv, Hv, Hme, Hd. now split.
Qed.

Variable env : Env.

(** From here on the confirmation fails, with [failure]. *)
Hypothesis confirmation_fails :
  forall h, value (Restore.confirmDeletion env) h = Some failure.

Lemma events_confirmDeletion h :
  events (Restore.confirmDeletion env) h
  = [EvStdout (nl ++ "Are you sure you want to delete these indices? (yes/no): ");
     EvStdinReadString].
Proof.
  unfold Restore.confirmDeletion.
  rewrite !events_bind, events_emit, !events_call, !value_call.
  destruct (snd (stdinReadString env _)); [reflexivity|].
  cbv zeta. destruct (_ && _); reflexivity.
Qed.

Lemma Refused_confirmDeletion : Refused failure (Restore.confirmDeletion env).
Proof.
  intros h _. rewrite events_confirmDeletion, confirmation_fails. split; reflexivity.
Qed.

Lemma Refused_deleteIndices stsIndices cfg log skipConfirm :
  Refused failure (Restore.deleteIndices env stsIndices cfg log skipConfirm).
Proof.
  unfold Restore.deleteIndices.
  destruct (_ =? _)%Z; [apply Refused_silent; silence|].
  apply Refused_after; [silence | silence | intros _].
  apply Refused_after; [silence | silence | intros _].
  apply Refused_then.
  - destruct (negb skipConfirm);
      [apply Refused_confirmDeletion | apply Refused_silent; silence].
  - intros a. silence.
  - reflexivity.
  - silence.
Qed.

Lemma Refused_runRestore_forwarded cliCtx flags cfg log :
  Refused failure (Restore.runRestore_forwarded env cliCtx flags cfg log).
Proof.
  unfold Restore.runRestore_forwarded. cbv zeta.
  apply Refused_after; [silence | silence | intros _].
  apply Refused_after; [silence | silence | intros err].
  destruct err; [apply Refused_silent; silence|].
  apply Refused_after; [silence | silence | intros _].
  apply Refused_after; [silence | silence | intros allIndices].
  destruct allIndices as [allIndices|e]; [|apply Refused_silent; silence].
  apply Refused_then.
  - destruct (dropAllIndices flags); [|apply Refused_silent; silence].
    apply Refused_after; [silence | silence | intros _].
    apply Refused_deleteIndices.
  - intros a. silence.
  - reflexivity.
  - silence.
Qed.

Lemma Refused_runRestore_scaled cliCtx flags cfg log :
  Refused failure (Restore.runRestore_scaled env cliCtx flags cfg log).
Proof.
  unfold Restore.runRestore_scaled. cbv zeta.
  apply Refused_after; [silence | silence | intros _].
  apply Refused_after; [silence | silence | intros err].
  destruct err; [apply Refused_silent; silence|].
  unfold withDefer. apply Refused_then.
  - apply Refused_after; [silence | silence | intros _].
    apply Refused_runRestore_forwarded.
  - intros a. silence.
  - reflexivity.
  - silence.
Qed.

Lemma Refused_runRestore cliCtx flags :
  Refused failure (Restore.runRestore env cliCtx flags).
Proof.
  unfold Restore.runRestore. cbv zeta.
  apply Refused_after; [silence | silence | intros err].
  destruct err; [apply Refused_silent; silence|].
  apply Refused_after; [silence | silence | intros cfg].
  destruct cfg as [cfg|e]; [|apply Refused_silent; silence].
  apply Refused_after; [silence | silence | intros r].
  destruct (snd r); [apply Refused_silent; silence|].
  unfold withDefer. apply Refused_then.
  - apply Refused_runRestore_scaled.
  - intros a. silence.
  - reflexivity.
  - silence.
Qed.

(** The command: the error of [runRestore] becomes exit code 1, and what is
    written on the way out is no delete call. *)
Lemma Refused_restoreCmd_Run cliCtx flags h :
  let run := Restore.restoreCmd_Run env cliCtx flags in
  count isStdinRead (events run h) <> 0%nat ->
  value (Restore.runRestore env cliCtx flags) h = Some failure
  /\ value run h = 1%Z
  /\ count isEsDelete (events run h) = 0%nat.
Proof.
  intros run Hasked.
  set (inner := Restore.runRestore env cliCtx flags) in *.
  set (out := fun err : option error =>
                match err with
                | Some e => emit (EvStderr ("error: " ++ e ++ nl)) ;;
                            emit (EvExit 1) ;; ret 1%Z
                | None => ret 0%Z
                end).
  assert (Hrun : events run h
                 = (events inner h ++ events (out (value inner h)) (h ++ events inner h))%list)
    by reflexivity.
  assert (Hout : forall p, (forall s, p (EvStderr s) = false) -> p (EvExit 1) = false ->
                           forall v, Silent p (out v)).
  { intros p H1 H2 [e0|]; unfold out; [|apply Silent_ret].
    apply Silent_bind; [apply Silent_emit, H1 | intros _].
    apply Silent_bind; [apply Silent_emit, H2 | intros _; apply Silent_ret]. }
  rewrite Hrun, count_app in Hasked.
  rewrite (Hout isStdinRead) in Hasked by reflexivity.
  rewrite Nat.add_0_r in Hasked.
  destruct (Refused_runRestore cliCtx flags h Hasked) as [Hv He].
  fold inner in Hv, He.
  split; [exact Hv|]. split.
  - unfold run, Restore.restoreCmd_Run. fold inner. rewrite value_bind, Hv. reflexivity.
  - rewrite Hrun, count_app, He, (Hout isEsDelete) by reflexivity. reflexivity.
Qed.

End Refusing.

Section Answering.
Variable env : Env.
Variable line : string.
Hypothesis stdin_line : forall h, stdinReadString env h = (line, None).

(** What [confirmDeletion] makes of the line. *)
Lemma confirmDeletion_reads h :
  (affirmative env line -> value (Restore.confirmDeletion env) h = None)
  /\ (~ affirmative env line ->
      value (Restore.confirmDeletion env) h = Some cancelled).
Proof.
  unfold Restore.confirmDeletion, affirmative.
  rewrite !value_bind, !value_call.
  rewrite stdin_line. cbn [fst snd]. cbv zeta.
  set (response := stringsTrimSpace env (stringsToLower env line)).
  destruct (String.eqb_spec response "yes") as [Ey|Ey];
    destruct (String.eqb_spec response "y") as [E|E]; cbn [negb andb];
    split; intros H; try reflexivity;
    first [ exfalso; apply H; auto | destruct H; contradiction ].
Qed.

End Answering.

(** A line that cannot be read is no confirmation either: the run fails with
    the read error, and without a delete call. *)
Lemma unreadable_confirmation_fails_the_run env cliCtx flags h data e :
  (forall h', stdinReadString env h' = (data, Some e)) ->
  let run := Restore.restoreCmd_Run env cliCtx flags in
  count isStdinRead (events run h) <> 0%nat ->
  value (Restore.runRestore env cliCtx flags) h
  = Some ("failed to read confirmation: " ++ e)
  /\ value run h = 1%Z
  /\ count isEsDelete (events run h) = 0%nat.
Proof.
  intros Hread. apply Refused_restoreCmd_Run.
  intros h'. unfold Restore.confirmDeletion.
  rewrite !value_bind, !value_call, Hread. reflexivity.
Qed.

(** C9. Let [line] be the line read from stdin.  [confirmDeletion] accepts
    it exactly when it is ["yes"] or ["y"] once lowercased and trimmed of
    surrounding white space.  For any other line it returns the
    cancellation error, and every run that asks for the confirmation then
    fails with that error, exits with code 1, and issues no delete call. *)
Theorem confirmation_accepts_yes_or_y :
  forall (env : Env) (cliCtx : CLIConfig) (flags : Flags) (h : History)
         (line : string),
    (forall h', stdinReadString env h' = (line, None)) ->
    let response := stringsTrimSpace env (stringsToLower env line) in
    let run := Restore.restoreCmd_Run env cliCtx flags in
    (value (Restore.confirmDeletion env) h = None
     <-> response = "yes" \/ response = "y")
    /\ (~ (response = "yes" \/ response = "y") ->
        value (Restore.confirmDeletion env) h = Some "restore cancelled by user"
        /\ (count isStdinRead (events run h) <> 0%nat ->
            value (Restore.runRestore env cliCtx flags) h
            = Some "restore cancelled by user"
            /\ value run h = 1%Z
            /\ count isEsDelete (events run h) = 0%nat)).
Proof.
  intros env cliCtx flags h line Hline response run.
  pose proof (confirmDeletion_reads env line Hline) as Hreads.
  unfold affirmative in Hreads. cbv zeta in Hreads. fold response in Hreads.
  destruct (Hreads h) as [Hyes Hno].
  split.
  - split; [|exact Hyes]. intros Hnil.
    destruct (String.eqb_spec response "yes") as [Ey|Ey]; [now left|].
    destruct (String.eqb_spec response "y") as [E|E]; [now right|].
    rewrite Hno in Hnil; [discriminate Hnil|]. intros [H|H]; contradiction.
  - intros Hdecl. split; [now apply Hno|].
    apply (Refused_restoreCmd_Run cancelled env).
    intros h'. now apply Hreads.
Qed.

Lemma confirmation_accepts_yes_or_y_witness :
  let declined := Restore.restoreCmd_Run (Fake.world (Fake.answers "no"))
                    (Fake.cli false) (Fake.flags true false) in
  value (Restore.confirmDeletion (Fake.world (Fake.answers " YES "))) [] = None
  /\ value (Restore.confirmDeletion (Fake.world (Fake.answers "no"))) []
     = Some "restore cancelled by user"
  /\ value declined [] = 1%Z
  /\ count isEsDelete (events declined []) = 0%nat.
Proof.
  destruct (confirmation_accepts_yes_or_y (Fake.world (Fake.answers " YES "))
              (Fake.cli false) (Fake.flags true false) [] (" YES " ++ nl)
              (fun _ => eq_refl)) as [[_ Hyes] _].
  destruct (confirmation_accepts_yes_or_y (Fake.world (Fake.answers "no"))
              (Fake.cli false) (Fake.flags true false) [] ("no" ++ nl)
              (fun _ => eq_refl)) as [_ Hno].
  split; [apply Hyes; left; reflexivity|].
  destruct Hno as [Hc Hrun].
  - intros [H|H]; discriminate H.
  - split; [exact Hc|]. destruct Hrun as [_ [Hv He]].
    + vm_compute. discriminate.
    + split; [exact Hv | exact He].
Defined.

Lemma deleteIndexWithVerification_times_out_witness :
  let run := Restore.deleteIndexWithVerification (Fake.world Fake.stuck)
               "sts_topology" (Logger.New false false) in
  value run [] = Some "timeout waiting for index sts_topology to be deleted"
  /\ count isEsExists (events run []) = 30%nat
  /\ count isSleep (events run []) = 29%nat.
Proof.
  destruct (deleteIndexWithVerification_times_out (Fake.world Fake.stuck)
              (Logger.New false false) "sts_topology" [])
    as [Hv [_ [_ [Hc [Hs _]]]]].
  - reflexivity.
  - intros j _. reflexivity.
  - split; [exact Hv|]. split; [exact Hc | exact Hs].
Defined.

Lemma deleteIndexWithVerification_stops_when_absent_witness :
  let run := Restore.deleteIndexWithVerification (Fake.world Fake.goneAtFifth)
               "sts_topology" (Logger.New false false) in
  value run [] = None
  /\ count isEsExists (events run []) = 5%nat
  /\ count isSleep (events run []) = 4%nat.
Proof.
  destruct (deleteIndexWithVerification_stops_when_absent
              (Fake.world Fake.goneAtFifth) (Logger.New false false)
              "sts_topology" [])
    as [Hv [Hc [Hs _]]].
  - reflexivity.
  - intros j Hj. destruct j as [|[|[|[|j]]]]; try reflexivity. lia.
  - reflexivity.
  - split; [exact Hv|]. split; [exact Hc | exact Hs].
Defined.

(* ================================================================= *)
(** ** The scenarios of the design document, run *)

(** The managed set of the end-to-end scenario, and its datastream. *)
Example scenario_managed_set :
  let all := ["sts_topology"; "sts_metrics"; "sts_k8s_logs-000001"; "other_index"] in
  IndexSet.filterSTSIndices all "sts_" "sts_k8s_logs"
  = ["sts_topology"; "sts_metrics"; "sts_k8s_logs-000001"]
  /\ IndexSet.hasDatastreamIndices
       (IndexSet.filterSTSIndices all "sts_" "sts_k8s_logs") "sts_k8s_logs" = true.
Proof. split; reflexivity. Qed.

(** Two deployments are paused and the restore call then fails: the scale up
    is called with both snapshots, both are set back, and the process exits
    with code 1. *)
Example scenario_restore_fails :
  let run := Restore.restoreCmd_Run (Fake.world Fake.restoreFails)
               (Fake.cli false) (Fake.flags false true) in
  value run [] = 1%Z
  /\ filter isScaleUpCall (events run [])
     = [EvScaleUpCall "ns" [{| Name := "A"; Replicas := 3 |};
                             {| Name := "B"; Replicas := 5 |}]]
  /\ updateReplicas (events run []) = [Some 0%Z; Some 0%Z; Some 3%Z; Some 5%Z].
Proof. cbv zeta. vm_compute. repeat split. Qed.

(** The rollover comes before any deletion. *)
Example scenario_rollover_first :
  let script := {| Fake.items := [Fake.A3];
                   Fake.updateFails := fun _ => false;
                   Fake.getFails := fun _ => false;
                   Fake.indices := ["sts_topology"; "sts_k8s_logs-000001"; "other_index"];
                   Fake.existsStatus := fun _ => 404%Z;
                   Fake.restoreStatus := 200%Z;
                   Fake.stdinLine := ("y" ++ nl, None) |} in
  let run := Restore.restoreCmd_Run (Fake.world script)
               (Fake.cli true) (Fake.flags true false) in
  value run [] = 0%Z
  /\ filter restoreEvent (events run [])
     = [EvPortForwardService "ns" "es-master" 9200 9200; EvRecvReady;
        EvEsNewClient "http://localhost:9200"; EvEsCatIndices "*";
        EvStdout (nl ++ "Are you sure you want to delete these indices? (yes/no): ");
        EvStdinReadString;
        EvEsIndicesRollover "sts_k8s_logs";
        EvEsIndicesDelete "sts_topology"; EvEsIndicesExists "sts_topology";
        EvEsIndicesDelete "sts_k8s_logs-000001"; EvEsIndicesExists "sts_k8s_logs-000001";
        EvEsSnapshotGet "sts-backup" "backup-1";
        EvEsSnapshotRestore "sts-backup" "backup-1" "sts*" true;
        EvCloseStopChan].
Proof. cbv zeta. vm_compute. split; reflexivity. Qed.

(* ================================================================= *)
(** * Further properties *)

Import Watch.

(** ** The scale down records what it pauses *)

Section ScaleDownInvariant.
Variable env : Env.
Variable namespace : string.

(** Whatever the answers are, the loop has sent updates for a prefix of the
    deployments, and that prefix is what it returns. *)
Lemma ScaleDownDeployments_loop_prefix items :
  forall acc h,
    exists paused rest,
      items = (paused ++ rest)%list
      /\ value (K8s.ScaleDownDeployments_loop env namespace items acc) h
         = ((acc ++ map snapshotOf paused)%list,
            snd (value (K8s.ScaleDownDeployments_loop env namespace items acc) h))
      /\ events (K8s.ScaleDownDeployments_loop env namespace items acc) h
         = pauseUpdates namespace paused
      /\ (snd (value (K8s.ScaleDownDeployments_loop env namespace items acc) h) = None
          -> rest = []).
Proof.
  induction items as [|d items IH]; intros acc h.
  - exists [], []. cbn. rewrite app_nil_r. repeat split; reflexivity.
  - cbn [K8s.ScaleDownDeployments_loop].
    assert (Hx : match depSpecReplicas d with Some r => r | None => 0%Z end
                 = replicasOf d) by reflexivity.
    rewrite Hx. fold (running d).
    set (acc' := (acc ++ [{| Name := depName d; Replicas := replicasOf d |}])%list).
    destruct (running d) eqn:Rd.
    + rewrite !value_bind, !events_bind, !value_call, !events_call.
      destruct (deploymentsUpdate env h namespace (K8s.withReplicas d 0)) as [e|].
      * exists [d], items. rewrite value_ret, events_ret.
        rewrite pauseUpdates_cons, Rd. cbn [map snd].
        split; [reflexivity|]. split; [reflexivity|]. split; [reflexivity|].
        intros H; discriminate H.
      * destruct (IH acc' (h ++ [EvDeploymentsUpdate namespace (K8s.withReplicas d 0)])%list)
          as [paused [rest [Hi [Hv [He Hr]]]]].
        exists (d :: paused), rest. rewrite Hi.
        split; [reflexivity|]. rewrite <- Hi.
        split; [|split].
        -- rewrite Hv at 1. unfold acc'. rewrite <- app_assoc. reflexivity.
        -- rewrite He, pauseUpdates_cons, Rd. reflexivity.
        -- exact Hr.
    + destruct (IH acc' h) as [paused [rest [Hi [Hv [He Hr]]]]].
      exists (d :: paused), rest. rewrite Hi.
      split; [reflexivity|]. rewrite <- Hi.
      split; [|split].
      * rewrite Hv at 1. unfold acc'. rewrite <- app_assoc. reflexivity.
      * rewrite He, pauseUpdates_cons, Rd. reflexivity.
      * exact Hr.
Qed.

(** When no update fails, the loop goes through all deployments. *)
Lemma ScaleDownDeployments_loop_all items :
  (forall h d, deploymentsUpdate env h namespace d = None) ->
  forall acc h,
    K8s.ScaleDownDeployments_loop env namespace items acc h
    = (((acc ++ map snapshotOf items)%list, None), pauseUpdates namespace items).
Proof.
  intros Hup. induction items as [|d items IH]; intros acc h.
  - cbn. now rewrite app_nil_r.
  - cbn [K8s.ScaleDownDeployments_loop].
    assert (Hx : match depSpecReplicas d with Some r => r | None => 0%Z end
                 = replicasOf d) by reflexivity.
    rewrite Hx. fold (running d). rewrite pauseUpdates_cons.
    destruct (running d).
    + unfold bind, call. cbn [fst snd]. rewrite Hup, IH. cbn [fst snd map app].
      rewrite <- app_assoc. reflexivity.
    + rewrite IH. cbn [map]. rewrite <- app_assoc. reflexivity.
Qed.

End ScaleDownInvariant.

(** X1. Whatever the Kubernetes API answers, the slice that
    [ScaleDownDeployments] returns holds, in order, a snapshot of every
    deployment it has sent an update for: the deployments [paused] it went
    through are a prefix of the ones listed, updates (to zero) were sent for
    the running ones among them and for no other, and when no error is
    returned the prefix is the whole list.  When the list call fails nothing
    is updated and the slice is empty. *)
Theorem ScaleDownDeployments_records_what_it_pauses :
  forall (env : Env) (namespace labelSelector : string) (h : History),
    let r := K8s.ScaleDownDeployments env namespace labelSelector in
    exists paused,
      fst (value r h) = map snapshotOf paused
      /\ events r h
         = (EvDeploymentsList namespace labelSelector
              :: pauseUpdates namespace paused
              ++ [EvScaleDownReturn namespace labelSelector
                    (fst (value r h)) (snd (value r h))])%list
      /\ match deploymentsList env h namespace labelSelector with
         | Ok items =>
             exists rest, items = (paused ++ rest)%list
                          /\ (snd (value r h) = None -> rest = [])
         | Err _ => paused = [] /\ snd (value r h) <> None
         end.
Proof.
  intros env ns sel h r.
  set (body := K8s.ScaleDownDeployments_body env ns sel).
  assert (Hv : value r h = value body h) by reflexivity.
  assert (He : events r h
               = (events body h
                    ++ [EvScaleDownReturn ns sel (fst (value body h))
                          (snd (value body h))])%list) by reflexivity.
  rewrite Hv, He. clear Hv He. unfold body, K8s.ScaleDownDeployments_body.
  rewrite !value_bind, !events_bind, !value_call, !events_call.
  destruct (deploymentsList env h ns sel) as [items|e].
  - destruct items as [|d items].
    + exists []. cbn. repeat split. exists []. split; reflexivity.
    + cbn [List.length Nat.eqb].
      destruct (ScaleDownDeployments_loop_prefix env ns (d :: items) []
                  (h ++ [EvDeploymentsList ns sel])%list)
        as [paused [rest [Hi [Hv [He Hr]]]]].
      exists paused. rewrite Hv, He. cbn [fst snd app].
      split; [reflexivity|]. split; [reflexivity|].
      exists rest. split; assumption.
  - exists []. cbn. repeat split. intros H; discriminate H.
Qed.

(** X2. When the list call succeeds and no update fails,
    [ScaleDownDeployments] returns one snapshot for every deployment listed,
    in the order of the list, with the replica count it had (0 when the
    count is not set), and sends an update only for the deployments with
    more than zero replicas: one at zero, or with no count, is recorded and
    left alone. *)
Theorem ScaleDownDeployments_records_all :
  forall (env : Env) (namespace labelSelector : string) (h : History)
         (items : list Deployment),
    deploymentsList env h namespace labelSelector = Ok items ->
    (forall h' d, deploymentsUpdate env h' namespace d = None) ->
    let r := K8s.ScaleDownDeployments env namespace labelSelector in
    value r h = (map snapshotOf items, None)
    /\ events r h
       = (EvDeploymentsList namespace labelSelector
            :: pauseUpdates namespace items
            ++ [EvScaleDownReturn namespace labelSelector
                  (map snapshotOf items) None])%list.
Proof.
  intros env ns sel h items Hlist Hup r.
  assert (Hbody : K8s.ScaleDownDeployments_body env ns sel h
                  = ((map snapshotOf items, None),
                     EvDeploymentsList ns sel :: pauseUpdates ns items)).
  { unfold K8s.ScaleDownDeployments_body, bind at 1, call. cbn [fst snd].
    rewrite Hlist. destruct items as [|d items]; [reflexivity|].
    cbn [List.length Nat.eqb].
    rewrite (ScaleDownDeployments_loop_all env ns (d :: items) Hup).
    reflexivity. }
  unfold r, K8s.ScaleDownDeployments, value, events, bind, emit, ret.
  rewrite Hbody. cbn [fst snd]. split; reflexivity.
Qed.

Lemma ScaleDownDeployments_records_all_witness :
  let r := K8s.ScaleDownDeployments Scripts.mixed "ns" "scalable=true" in
  value r []
  = ([{| Name := "A"; Replicas := 3 |}; {| Name := "Z"; Replicas := 0 |};
      {| Name := "N"; Replicas := 0 |}; {| Name := "B"; Replicas := 5 |}], None)
  /\ events r []
     = [EvDeploymentsList "ns" "scalable=true";
        EvDeploymentsUpdate "ns" (K8s.withReplicas Fake.A3 0);
        EvDeploymentsUpdate "ns" (K8s.withReplicas Fake.B5 0);
        EvScaleDownReturn "ns" "scalable=true"
          [{| Name := "A"; Replicas := 3 |}; {| Name := "Z"; Replicas := 0 |};
           {| Name := "N"; Replicas := 0 |}; {| Name := "B"; Replicas := 5 |}] None].
Proof.
  apply (ScaleDownDeployments_records_all Scripts.mixed "ns" "scalable=true" []
           [Fake.A3; Scripts.Z0; Scripts.N; Fake.B5]).
  - reflexivity.
  - intros h' d. reflexivity.
Defined.

(** ** Scale down, then scale up *)

Section RoundTrip.
Variable env : Env.
Variable namespace : string.
Hypothesis updates_succeed : forall h d, deploymentsUpdate env h namespace d = None.
Hypothesis gets_succeed :
  forall h name, exists d, deploymentsGet env h namespace name = Ok d.

(** Every entry can be restored: the deployments fetched are the ones the
    API answers with, each at the history of its fetch. *)
Lemma Restores_all scales :
  forall h, exists done, map fst done = scales /\ Restores env namespace h done.
Proof.
  induction scales as [|s rest IH]; intros h.
  - exists []. split; [reflexivity | exact I].
  - destruct (gets_succeed h (Name s)) as [d Hd].
    destruct (IH (h ++ resumeCall namespace (s, d))%list) as [done [Hm Hr]].
    exists ((s, d) :: done). split; [cbn [map fst]; now rewrite Hm|].
    cbn [Restores fst snd]. split; [exact Hd|]. split; [apply updates_succeed | exact Hr].
Qed.

Lemma ScaleDownDeployments_value_all labelSelector h items :
  deploymentsList env h namespace labelSelector = Ok items ->
  value (K8s.ScaleDownDeployments env namespace labelSelector) h
  = (map snapshotOf items, None).
Proof.
  intros Hlist.
  change (value (K8s.ScaleDownDeployments env namespace labelSelector) h)
    with (value (K8s.ScaleDownDeployments_body env namespace labelSelector) h).
  unfold K8s.ScaleDownDeployments_body. rewrite value_bind, value_call, Hlist.
  destruct items as [|d items]; [reflexivity|]. cbn [List.length Nat.eqb].
  unfold value. now rewrite (ScaleDownDeployments_loop_all env namespace _ updates_succeed).
Qed.

End RoundTrip.

(** X3. Scale down and scale up undo each other in what they write: when
    the list call, the fetches and the updates all succeed, the slice
    returned by [ScaleDownDeployments], given to [ScaleUpDeployments],
    makes it return nil after these calls and no others: for every listed
    deployment, in the order of the list, the fetch of the deployment of
    that name, and then the update of the deployment that this fetch was
    answered with, with the replica count that the listed deployment had
    (0 for one whose count was not set). *)
Theorem ScaleUp_after_ScaleDown_restores :
  forall (env : Env) (namespace labelSelector : string) (h h' : History)
         (items : list Deployment),
    deploymentsList env h namespace labelSelector = Ok items ->
    (forall h1 d, deploymentsUpdate env h1 namespace d = None) ->
    (forall h1 name, exists d, deploymentsGet env h1 namespace name = Ok d) ->
    let scaled := fst (value (K8s.ScaleDownDeployments env namespace labelSelector) h) in
    let up := K8s.ScaleUpDeployments env namespace scaled in
    exists fetched,
      let done := combine (map snapshotOf items) fetched in
      List.length fetched = List.length items
      /\ Restores env namespace (h' ++ [EvScaleUpCall namespace scaled])%list done
      /\ value up h' = None
      /\ events up h'
         = (EvScaleUpCall namespace scaled
              :: resumeCalls namespace done
              ++ [EvScaleUpReturn namespace None])%list.
Proof.
  intros env ns sel h h' items Hlist Hup Hget scaled up.
  assert (Hs : scaled = map snapshotOf items).
  { unfold scaled. now rewrite (ScaleDownDeployments_value_all env ns Hup sel h items Hlist). }
  destruct (Restores_all env ns Hup Hget scaled (h' ++ [EvScaleUpCall ns scaled])%list)
    as [done [Hm Hr]].
  assert (Hc : combine (map snapshotOf items) (map snd done) = done).
  { rewrite <- Hs, <- Hm. clear. induction done as [|[s d] done IH]; [reflexivity|].
    cbn [map combine fst snd]. now rewrite IH. }
  exists (map snd done). cbv zeta. rewrite Hc.
  split.
  { rewrite length_map, <- (length_map fst done), Hm, Hs. apply length_map. }
  split; [exact Hr|].
  destruct (ScaleUpDeployments_unfold env ns scaled h') as [Hv He].
  destruct (ScaleUpDeployments_loop_restores env ns done []
              (h' ++ [EvScaleUpCall ns scaled])%list Hr) as [Lv Le].
  cbv zeta in Hv, He, Lv, Le. rewrite app_nil_r, Hm in Lv, Le.
  fold up in Hv, He. rewrite Lv, Le in He. rewrite Lv in Hv.
  cbn [K8s.ScaleUpDeployments_loop] in Hv, He.
  rewrite value_ret in Hv, He. rewrite events_ret, app_nil_r in He.
  split; [exact Hv | exact He].
Qed.

Lemma ScaleUp_after_ScaleDown_restores_witness :
  let scaled := fst (value (K8s.ScaleDownDeployments Scripts.mixed "ns" "scalable=true") []) in
  let up := K8s.ScaleUpDeployments Scripts.mixed "ns" scaled in
  exists fetched,
    let done := combine (map snapshotOf [Fake.A3; Scripts.Z0; Scripts.N; Fake.B5]) fetched in
    List.length fetched = 4%nat
    /\ Restores Scripts.mixed "ns" [EvScaleUpCall "ns" scaled] done
    /\ value up [] = None
    /\ events up []
       = (EvScaleUpCall "ns" scaled
            :: resumeCalls "ns" done ++ [EvScaleUpReturn "ns" None])%list.
Proof.
  apply (ScaleUp_after_ScaleDown_restores Scripts.mixed "ns" "scalable=true" [] []
           [Fake.A3; Scripts.Z0; Scripts.N; Fake.B5]).
  - reflexivity.
  - intros h1 d. reflexivity.
  - intros h1 name. eexists. reflexivity.
Defined.

(** ** The verification loop, whatever the answers are *)

Section VerifyInvariant.
Variable env : Env.
Variable log : Logger.Logger.
Variable index : string.

Let check : Event := EvEsIndicesExists index.
Let pause : Event := EvSleep Restore.defaultIndexDeleteRetryInterval.
Let timeout : error := "timeout waiting for index " ++ index ++ " to be deleted".

(** One turn of the loop. *)
Lemma verifyDeletion_step fuel attempt h :
  (attempt < Restore.defaultMaxIndexDeleteAttempts)%Z ->
  Restore.verifyDeletion env log index (S fuel) attempt h
  = match value (ES.IndexExists env index) h with
    | (_, Some e) => (Some ("failed to check index existence: " ++ e), [check])
    | (false, None) =>
        (None,
         check :: events (Logger.Debugf log ("Index successfully deleted: " ++ index))
                    (h ++ [check])%list)
    | (true, None) =>
        if (attempt >=? Restore.defaultMaxIndexDeleteAttempts - 1)%Z
        then (Some timeout, [check])
        else (value (Restore.verifyDeletion env log index fuel (attempt + 1))
                (h ++ [check; pause])%list,
              check :: pause
                :: events (Restore.verifyDeletion env log index fuel (attempt + 1))
                     (h ++ [check; pause])%list)
    end.
Proof.
  intros Ha. cbn [Restore.verifyDeletion].
  replace (attempt <? Restore.defaultMaxIndexDeleteAttempts)%Z with true
    by (symmetry; apply Z.ltb_lt; exact Ha).
  unfold bind at 1.
  assert (Hev : snd (ES.IndexExists env index h) = [check]) by reflexivity.
  rewrite Hev. unfold value.
  destruct (fst (ES.IndexExists env index h)) as [present [e|]];
    destruct present; cbn [fst snd negb]; try reflexivity.
  - destruct (attempt >=? _)%Z; [reflexivity|].
    unfold bind, emit, events. cbn [fst snd].
    rewrite <- !app_assoc. reflexivity.
  - unfold bind, ret, events. cbn [fst snd]. now rewrite app_nil_r.
Qed.

Lemma found_is_quiet h' :
  let d := events (Logger.Debugf log ("Index successfully deleted: " ++ index)) h' in
  count isEsExists d = 0%nat /\ count isSleep d = 0%nat
  /\ count isEsDelete d = 0%nat /\ slept d = 0%Z /\ forallb isStderr d = true.
Proof.
  cbv zeta. unfold Logger.Debugf. destruct (Logger.debug log); repeat split.
Qed.

(** Started with as much fuel as attempts are left, the loop makes at least
    one check and at most as many as are left, and sleeps only between
    checks. *)
Lemma verifyDeletion_bounds fuel :
  forall attempt h,
    (0 <= attempt)%Z ->
    (attempt + Z.of_nat (S fuel) = Restore.defaultMaxIndexDeleteAttempts)%Z ->
    (1 <= count isEsExists
            (events (Restore.verifyDeletion env log index (S fuel) attempt) h)
       <= S fuel)%nat
    /\ (count isSleep (events (Restore.verifyDeletion env log index (S fuel) attempt) h)
          + 1
        <= count isEsExists
             (events (Restore.verifyDeletion env log index (S fuel) attempt) h))%nat
    /\ count isEsDelete
         (events (Restore.verifyDeletion env log index (S fuel) attempt) h) = 0%nat
    /\ slept (events (Restore.verifyDeletion env log index (S fuel) attempt) h)
       = (Z.of_nat
            (count isSleep
               (events (Restore.verifyDeletion env log index (S fuel) attempt) h))
          * Restore.Second)%Z.
Proof.
  induction fuel as [|fuel IH]; intros attempt h H0 Hsum;
    unfold Restore.defaultMaxIndexDeleteAttempts in Hsum;
    unfold events; rewrite verifyDeletion_step
      by (unfold Restore.defaultMaxIndexDeleteAttempts; lia);
    unfold Restore.defaultMaxIndexDeleteAttempts;
    destruct (value (ES.IndexExists env index) h) as [present [e|]];
    destruct present; cbn [snd];
    try (cbn; repeat split; lia);
    try (destruct (found_is_quiet (h ++ [check])%list) as [F1 [F2 [F3 [F4 _]]]];
         rewrite !count_cons; cbn [isEsExists isSleep isEsDelete check];
         cbn [slept fold_right];
         fold (slept (events (Logger.Debugf log ("Index successfully deleted: " ++ index))
                        (h ++ [check])%list));
         rewrite F1, F2, F3, F4; repeat split; lia).
  - replace (attempt >=? 30 - 1)%Z with true
      by (symmetry; rewrite Z.geb_leb; apply Z.leb_le; lia).
    cbn. repeat split; lia.
  - replace (attempt >=? 30 - 1)%Z with false
      by (symmetry; rewrite Z.geb_leb; apply Z.leb_gt; lia).
    cbn [snd].
    destruct (IH (attempt + 1)%Z (h ++ [check; pause])%list) as [[H1 H2] [H3 [H4 H5]]];
      [lia | unfold Restore.defaultMaxIndexDeleteAttempts; lia |].
    set (rest := events (Restore.verifyDeletion env log index (S fuel) (attempt + 1))
                   (h ++ [check; pause])%list) in *.
    rewrite !count_cons. unfold check, pause. cbn [isEsExists isSleep isEsDelete].
    cbn [slept fold_right]. fold (slept rest). rewrite H5.
    unfold Restore.defaultIndexDeleteRetryInterval, Restore.Second.
    repeat split; lia.
Qed.

End VerifyInvariant.

Section VerifyOutcomes.
Variable env : Env.
Variable log : Logger.Logger.
Variable index : string.

Let check : Event := EvEsIndicesExists index.
Let pause : Event := EvSleep Restore.defaultIndexDeleteRetryInterval.

(** The loop returns nil only from a check that found the index gone. *)
Lemma verifyDeletion_success fuel :
  forall attempt h,
    (0 <= attempt)%Z ->
    (attempt + Z.of_nat (S fuel) = Restore.defaultMaxIndexDeleteAttempts)%Z ->
    value (Restore.verifyDeletion env log index (S fuel) attempt) h = None ->
    exists pre post,
      events (Restore.verifyDeletion env log index (S fuel) attempt) h
      = (pre ++ check :: post)%list
      /\ forallb isStderr post = true
      /\ value (ES.IndexExists env index) (h ++ pre)%list = (false, None).
Proof.
  induction fuel as [|fuel IH]; intros attempt h H0 Hsum;
    unfold Restore.defaultMaxIndexDeleteAttempts in Hsum;
    unfold value at 1, events; rewrite verifyDeletion_step
      by (unfold Restore.defaultMaxIndexDeleteAttempts; lia);
    unfold Restore.defaultMaxIndexDeleteAttempts;
    destruct (value (ES.IndexExists env index) h) as [present [e|]] eqn:Ev;
    destruct present; cbn [fst snd]; intros Hnil; try discriminate Hnil;
    try (exists [], (events (Logger.Debugf log ("Index successfully deleted: " ++ index))
                       (h ++ [check])%list);
         split; [reflexivity|]; split; [apply found_is_quiet|];
         rewrite app_nil_r; exact Ev).
  - replace (attempt >=? 30 - 1)%Z with true in Hnil
      by (symmetry; rewrite Z.geb_leb; apply Z.leb_le; lia).
    discriminate Hnil.
  - replace (attempt >=? 30 - 1)%Z with false in Hnil |- *
      by (symmetry; rewrite Z.geb_leb; apply Z.leb_gt; lia).
    cbn [fst snd] in Hnil |- *.
    destruct (IH (attempt + 1)%Z (h ++ [check; pause])%list) as [pre [post [He [Hq Hv]]]];
      [lia | unfold Restore.defaultMaxIndexDeleteAttempts; lia | exact Hnil |].
    exists (check :: pause :: pre), post. unfold check, pause in *. rewrite He.
    split; [reflexivity|]. split; [exact Hq|].
    rewrite <- app_assoc in Hv. exact Hv.
Qed.

(** The loop reports a timeout only after all the checks that were left. *)
Lemma verifyDeletion_timeout_all fuel :
  forall attempt h,
    (0 <= attempt)%Z ->
    (attempt + Z.of_nat (S fuel) = Restore.defaultMaxIndexDeleteAttempts)%Z ->
    value (Restore.verifyDeletion env log index (S fuel) attempt) h
    = Some ("timeout waiting for index " ++ index ++ " to be deleted") ->
    count isEsExists (events (Restore.verifyDeletion env log index (S fuel) attempt) h)
    = S fuel
    /\ count isSleep (events (Restore.verifyDeletion env log index (S fuel) attempt) h)
       = fuel.
Proof.
  induction fuel as [|fuel IH]; intros attempt h H0 Hsum;
    unfold Restore.defaultMaxIndexDeleteAttempts in Hsum;
    unfold value at 1, events; rewrite verifyDeletion_step
      by (unfold Restore.defaultMaxIndexDeleteAttempts; lia);
    unfold Restore.defaultMaxIndexDeleteAttempts;
    destruct (value (ES.IndexExists env index) h) as [present [e|]] eqn:Ev;
    destruct present; cbn [fst snd]; intros Ht;
    try (injection Ht as Ht; cbn in Ht; discriminate Ht);
    try discriminate Ht.
  - replace (attempt >=? 30 - 1)%Z with true
      by (symmetry; rewrite Z.geb_leb; apply Z.leb_le; lia).
    split; reflexivity.
  - replace (attempt >=? 30 - 1)%Z with false in Ht |- *
      by (symmetry; rewrite Z.geb_leb; apply Z.leb_gt; lia).
    cbn [fst snd] in Ht |- *.
    destruct (IH (attempt + 1)%Z (h ++ [check; pause])%list) as [H1 H2];
      [lia | unfold Restore.defaultMaxIndexDeleteAttempts; lia | exact Ht |].
    unfold check, pause in *. rewrite !count_cons, H1, H2. split; reflexivity.
Qed.

Let deleting : list Event -> list Event :=
  events (Logger.Infof log ("  Deleting index: " ++ index)).

(** [deleteIndexWithVerification] is the delete call, then its loop. *)
Lemma deleteIndexWithVerification_shape h :
  let run := Restore.deleteIndexWithVerification env index log in
  let h1 := (h ++ deleting h)%list in
  let h2 := (h1 ++ [EvEsIndicesDelete index])%list in
  let loop := Restore.verifyDeletion env log index 30 0 in
  forallb isStderr (deleting h) = true
  /\ match value (ES.DeleteIndex env index) h1 with
     | Some e =>
         value run h = Some ("failed to delete index " ++ index ++ ": " ++ e)
         /\ events run h = (deleting h ++ [EvEsIndicesDelete index])%list
     | None =>
         value run h = value loop h2
         /\ events run h = (deleting h ++ EvEsIndicesDelete index :: events loop h2)%list
     end.
Proof.
  intros run h1 h2 loop.
  split; [apply Emits_Infof; reflexivity|].
  unfold run, Restore.deleteIndexWithVerification.
  change (Z.to_nat Restore.defaultMaxIndexDeleteAttempts) with 30%nat.
  rewrite !value_bind, !events_bind.
  fold (deleting h). fold h1. rewrite events_DeleteIndex. fold h2.
  destruct (value (ES.DeleteIndex env index) h1) as [e|]; split; reflexivity.
Qed.

End VerifyOutcomes.

Lemma deleted_app l1 l2 : deleted (l1 ++ l2) = (deleted l1 ++ deleted l2)%list.
Proof. apply flat_map_app. Qed.

Lemma slept_app l1 l2 : slept (l1 ++ l2) = (slept l1 + slept l2)%Z.
Proof.
  induction l1 as [|e l1 IH]; [reflexivity|].
  cbn [app slept fold_right]. fold (slept (l1 ++ l2)). fold (slept l1).
  rewrite IH. destruct e; lia.
Qed.

Lemma deleted_outside q l :
  forallb q l = true -> (forall e, q e = true -> isEsDelete e = false) -> deleted l = [].
Proof.
  intros Hq Hp. induction l as [|e l IH]; [reflexivity|].
  cbn [forallb] in Hq. apply andb_true_iff in Hq. destruct Hq as [He Hl].
  cbn [deleted flat_map]. fold (deleted l). rewrite (IH Hl).
  specialize (Hp e He). destruct e; try reflexivity. discriminate Hp.
Qed.

Lemma slept_outside q l :
  forallb q l = true -> (forall e, q e = true -> isSleep e = false) -> slept l = 0%Z.
Proof.
  intros Hq Hp. induction l as [|e l IH]; [reflexivity|].
  cbn [forallb] in Hq. apply andb_true_iff in Hq. destruct Hq as [He Hl].
  cbn [slept fold_right]. fold (slept l). rewrite (IH Hl).
  specialize (Hp e He). destruct e; try reflexivity. discriminate Hp.
Qed.

Lemma deleted_count l : List.length (deleted l) = count isEsDelete l.
Proof.
  induction l as [|e l IH]; [reflexivity|].
  rewrite count_cons. cbn [deleted flat_map]. fold (deleted l).
  rewrite length_app, IH. destruct e; reflexivity.
Qed.

(** X4. Whatever Elasticsearch answers, [deleteIndexWithVerification]
    issues exactly one delete call, for its index, at most 30 existence
    checks and at most 29 sleeps, never more sleeps than checks, and sleeps
    no more than 29 seconds in all. *)
Theorem deleteIndexWithVerification_is_bounded :
  forall (env : Env) (log : Logger.Logger) (index : string) (h : History),
    let evs := events (Restore.deleteIndexWithVerification env index log) h in
    deleted evs = [index]
    /\ (count isEsExists evs <= 30)%nat
    /\ (count isSleep evs <= 29)%nat
    /\ (count isSleep evs <= count isEsExists evs)%nat
    /\ (0 <= slept evs <= 29 * Restore.Second)%Z.
Proof.
  intros env log index h evs.
  destruct (deleteIndexWithVerification_shape env log index h) as [Hq Hcase].
  cbv zeta in Hcase.
  set (deleting := events (Logger.Infof log ("  Deleting index: " ++ index)) h) in *.
  assert (Hd : deleted deleting = []) by (apply (deleted_outside isStderr); [exact Hq | by_event]).
  assert (Hs : slept deleting = 0%Z) by (apply (slept_outside isStderr); [exact Hq | by_event]).
  assert (Hc : forall p, (forall e, isStderr e = true -> p e = false) ->
                         count p deleting = 0%nat)
    by (intros p Hp; now apply (count_outside isStderr)).
  destruct (value (ES.DeleteIndex env index) (h ++ deleting)%list) as [e|];
    destruct Hcase as [_ He]; unfold evs; rewrite He.
  - rewrite deleted_app, slept_app, !count_app, Hd, Hs, !Hc by by_event.
    cbn. unfold Restore.Second. repeat split; lia.
  - change (deleting ++ EvEsIndicesDelete index
              :: events (Restore.verifyDeletion env log index 30 0)
                   ((h ++ deleting) ++ [EvEsIndicesDelete index]))%list
      with (deleting ++ [EvEsIndicesDelete index]
              ++ events (Restore.verifyDeletion env log index 30 0)
                   ((h ++ deleting) ++ [EvEsIndicesDelete index]))%list.
    destruct (verifyDeletion_bounds env log index 29 0
                ((h ++ deleting) ++ [EvEsIndicesDelete index])%list)
      as [[B1 B2] [B3 [B4 B5]]]; [lia | reflexivity |].
    set (loop := events (Restore.verifyDeletion env log index 30 0)
                   ((h ++ deleting) ++ [EvEsIndicesDelete index])%list) in *.
    assert (Hl : deleted loop = []).
    { pose proof (deleted_count loop) as Hlen. rewrite B4 in Hlen.
      now apply length_zero_iff_nil. }
    rewrite !deleted_app, !slept_app, !count_app, Hd, Hs, Hl, B5, !Hc by by_event.
    clearbody loop deleting.
    cbn. unfold Restore.Second. repeat split; lia.
Qed.

(** X5. [deleteIndexWithVerification] returns nil only when its last
    existence check has reported the index absent: after that check nothing
    but a debug line is written. *)
Theorem deleteIndexWithVerification_success_means_absent :
  forall (env : Env) (log : Logger.Logger) (index : string) (h : History),
    let run := Restore.deleteIndexWithVerification env index log in
    value run h = None ->
    exists pre post,
      events run h = (pre ++ EvEsIndicesExists index :: post)%list
      /\ forallb isStderr post = true
      /\ value (ES.IndexExists env index) (h ++ pre)%list = (false, None).
Proof.
  intros env log index h run Hnil.
  destruct (deleteIndexWithVerification_shape env log index h) as [_ Hcase].
  cbv zeta in Hcase. fold run in Hcase.
  set (deleting := events (Logger.Infof log ("  Deleting index: " ++ index)) h) in *.
  destruct (value (ES.DeleteIndex env index) (h ++ deleting)%list) as [e|];
    destruct Hcase as [Hv He]; [rewrite Hv in Hnil; discriminate Hnil|].
  rewrite Hv in Hnil.
  destruct (verifyDeletion_success env log index 29 0
              ((h ++ deleting) ++ [EvEsIndicesDelete index])%list)
    as [pre [post [Hl [Hq Hab]]]]; [lia | reflexivity | exact Hnil |].
  exists (deleting ++ EvEsIndicesDelete index :: pre)%list, post.
  rewrite He, Hl. split; [|split; [exact Hq|]].
  - rewrite <- !app_assoc. reflexivity.
  - rewrite <- Hab. f_equal. rewrite <- !app_assoc. reflexivity.
Qed.

Lemma deleteIndexWithVerification_success_means_absent_witness :
  let run := Restore.deleteIndexWithVerification (Fake.world Fake.goneAtFifth)
               "sts_topology" (Logger.New true false) in
  exists pre post,
    events run [] = (pre ++ EvEsIndicesExists "sts_topology" :: post)%list
    /\ forallb isStderr post = true
    /\ value (ES.IndexExists (Fake.world Fake.goneAtFifth) "sts_topology") pre
       = (false, None).
Proof.
  apply (deleteIndexWithVerification_success_means_absent
           (Fake.world Fake.goneAtFifth) (Logger.New true false) "sts_topology" []).
  reflexivity.
Defined.

(** X6. [deleteIndexWithVerification] returns the timeout error only after
    exactly 30 existence checks and 29 sleeps. *)
Theorem deleteIndexWithVerification_timeout_after_all_checks :
  forall (env : Env) (log : Logger.Logger) (index : string) (h : History),
    let run := Restore.deleteIndexWithVerification env index log in
    value run h = Some ("timeout waiting for index " ++ index ++ " to be deleted") ->
    count isEsExists (events run h) = 30%nat
    /\ count isSleep (events run h) = 29%nat.
Proof.
  intros env log index h run Ht.
  destruct (deleteIndexWithVerification_shape env log index h) as [Hq Hcase].
  cbv zeta in Hcase. fold run in Hcase.
  set (deleting := events (Logger.Infof log ("  Deleting index: " ++ index)) h) in *.
  assert (Hc : forall p, (forall e, isStderr e = true -> p e = false) ->
                         count p deleting = 0%nat)
    by (intros p Hp; now apply (count_outside isStderr)).
  destruct (value (ES.DeleteIndex env index) (h ++ deleting)%list) as [e|];
    destruct Hcase as [Hv He]; rewrite Hv in Ht.
  - injection Ht as Ht. cbn in Ht. discriminate Ht.
  - destruct (verifyDeletion_timeout_all env log index 29 0
                ((h ++ deleting) ++ [EvEsIndicesDelete index])%list)
      as [H1 H2]; [lia | reflexivity | exact Ht |].
    rewrite He, !count_app, !count_cons, H1, H2, !Hc by by_event.
    split; reflexivity.
Qed.

Lemma deleteIndexWithVerification_timeout_after_all_checks_witness :
  let run := Restore.deleteIndexWithVerification (Fake.world Fake.stuck)
               "sts_topology" (Logger.New false true) in
  count isEsExists (events run []) = 30%nat
  /\ count isSleep (events run []) = 29%nat.
Proof.
  apply (deleteIndexWithVerification_timeout_after_all_checks
           (Fake.world Fake.stuck) (Logger.New false true) "sts_topology" []).
  vm_compute. reflexivity.
Defined.

(** X7. A delete call that is answered with a status above 299 makes
    [deleteIndexWithVerification] fail at once, with no existence check:
    also a 404, which says that the index is gone already. *)
Theorem deleteIndexWithVerification_delete_refused :
  forall (env : Env) (log : Logger.Logger) (index : string) (h : History)
         (res : Response),
    let run := Restore.deleteIndexWithVerification env index log in
    let deleting := events (Logger.Infof log ("  Deleting index: " ++ index)) h in
    esIndicesDelete env (h ++ deleting)%list index = Ok res ->
    (299 < StatusCode res)%Z ->
    value run h
    = Some ("failed to delete index " ++ index
            ++ ": elasticsearch returned error: " ++ Text res)
    /\ events run h = (deleting ++ [EvEsIndicesDelete index])%list
    /\ count isEsExists (events run h) = 0%nat.
Proof.
  intros env log index h res run deleting Hres Hst.
  destruct (deleteIndexWithVerification_shape env log index h) as [Hq Hcase].
  cbv zeta in Hcase. fold run in Hcase. fold deleting in Hcase, Hq.
  assert (Hdel : value (ES.DeleteIndex env index) (h ++ deleting)%list
                 = Some ("elasticsearch returned error: " ++ Text res)).
  { unfold ES.DeleteIndex. rewrite value_bind, value_call, Hres.
    unfold IsError.
    replace (StatusCode res >? 299)%Z with true
      by (symmetry; apply Z.gtb_lt; exact Hst).
    reflexivity. }
  rewrite Hdel in Hcase. destruct Hcase as [Hv He].
  rewrite Hv, He. repeat split.
  rewrite count_app, (count_outside isStderr isEsExists _ Hq) by by_event.
  reflexivity.
Qed.

Lemma deleteIndexWithVerification_delete_refused_witness :
  let run := Restore.deleteIndexWithVerification Scripts.alreadyGone
               "sts_topology" (Logger.New true false) in
  value run []
  = Some "failed to delete index sts_topology: elasticsearch returned error: [404]"
  /\ events run [] = [EvEsIndicesDelete "sts_topology"]
  /\ count isEsExists (events run []) = 0%nat.
Proof.
  apply (deleteIndexWithVerification_delete_refused Scripts.alreadyGone
           (Logger.New true false) "sts_topology" [] (Fake.status 404)).
  - reflexivity.
  - vm_compute. reflexivity.
Defined.

(** ** Filtering and the datastream test *)

Lemma append_assoc (a b c : string) : ((a ++ b) ++ c = a ++ (b ++ c))%string.
Proof. induction a as [|x a IH]; cbn; [reflexivity | now rewrite IH]. Qed.

(** X8. Filtering does not hide a datastream: [hasDatastreamIndices] gives
    the same answer on the list [filterSTSIndices] returns as on the whole
    list, for the datastream prefix the filter was given; and filtering what
    was filtered changes nothing. *)
Theorem filterSTSIndices_keeps_datastream_members :
  forall (allIndices : list string) (indexPrefix datastreamPrefix : string),
    let stsIndices := IndexSet.filterSTSIndices allIndices indexPrefix datastreamPrefix in
    IndexSet.hasDatastreamIndices stsIndices datastreamPrefix
    = IndexSet.hasDatastreamIndices allIndices datastreamPrefix
    /\ IndexSet.filterSTSIndices stsIndices indexPrefix datastreamPrefix = stsIndices.
Proof.
  intros all ip dp sts. unfold sts.
  rewrite !filterSTSIndices_filter, !hasDatastreamIndices_existsb. split.
  - induction all as [|i all IH]; [reflexivity|]. cbn [filter existsb].
    destruct (Strings.HasPrefix i (dp ++ "-")) eqn:E.
    + assert (Hs : IndexSet.isSTS ip dp i = true).
      { apply isSTS_spec. right. apply HasPrefix_spec in E.
        destruct E as [rest ->]. exists ("-" ++ rest). apply append_assoc. }
      rewrite Hs. cbn [existsb]. now rewrite E.
    + destruct (IndexSet.isSTS ip dp i); [cbn [existsb]; rewrite E|]; exact IH.
  - induction all as [|i all IH]; [reflexivity|]. cbn [filter].
    destruct (IndexSet.isSTS ip dp i) eqn:E; [cbn [filter]; rewrite E, IH|];
      [reflexivity | exact IH].
Qed.

(** ** The parts of [deleteIndices] *)

Section DeleteFootprints.
Variable env : Env.

Lemma Verify_DeleteIndex index : Emits verifyEvent (ES.DeleteIndex env index).
Proof. unfold ES.DeleteIndex. footprint. Qed.

Lemma Verify_IndexExists index : Emits verifyEvent (ES.IndexExists env index).
Proof. unfold ES.IndexExists. footprint. Qed.

#[local] Hint Resolve Verify_DeleteIndex Verify_IndexExists : emits.

Lemma Verify_verifyDeletion log index fuel :
  forall attempt, Emits verifyEvent (Restore.verifyDeletion env log index fuel attempt).
Proof.
  induction fuel as [|fuel IH]; intros attempt; cbn [Restore.verifyDeletion]; footprint.
Qed.

#[local] Hint Resolve Verify_verifyDeletion : emits.

Lemma Verify_deleteIndexWithVerification index log :
  Emits verifyEvent (Restore.deleteIndexWithVerification env index log).
Proof. unfold Restore.deleteIndexWithVerification. footprint. Qed.

#[local] Hint Resolve Verify_deleteIndexWithVerification : emits.

Lemma Verify_deleteIndices_loop log stsIndices :
  Emits verifyEvent (Restore.deleteIndices_loop env log stsIndices).
Proof.
  induction stsIndices as [|index rest IH]; cbn [Restore.deleteIndices_loop]; footprint.
Qed.

Lemma Rollover_RolloverDatastream name :
  Emits rolloverEvent (ES.RolloverDatastream env name).
Proof. unfold ES.RolloverDatastream. footprint. Qed.

Lemma Prompt_confirmDeletion : Emits promptEvent (Restore.confirmDeletion env).
Proof. unfold Restore.confirmDeletion. footprint. Qed.

Lemma Calm_ListIndices pattern : Emits calm (ES.ListIndices env pattern).
Proof. unfold ES.ListIndices. footprint. Qed.

Lemma Calm_GetSnapshot repository name : Emits calm (ES.GetSnapshot env repository name).
Proof. unfold ES.GetSnapshot. footprint. Qed.

Lemma Calm_RestoreSnapshot repository name pattern wait :
  Emits calm (ES.RestoreSnapshot env repository name pattern wait).
Proof. unfold ES.RestoreSnapshot. footprint. Qed.

(** One index, one delete call. *)
Lemma deleted_deleteIndexWithVerification index log h :
  deleted (events (Restore.deleteIndexWithVerification env index log) h) = [index].
Proof.
  destruct (deleteIndexWithVerification_shape env log index h) as [Hq Hcase].
  cbv zeta in Hcase.
  set (deleting := events (Logger.Infof log ("  Deleting index: " ++ index)) h) in *.
  assert (Hd : deleted deleting = [])
    by (apply (deleted_outside isStderr); [exact Hq | by_event]).
  destruct (value (ES.DeleteIndex env index) (h ++ deleting)%list) as [e|];
    destruct Hcase as [_ He]; rewrite He.
  - rewrite deleted_app, Hd. reflexivity.
  - change (deleting ++ EvEsIndicesDelete index
              :: events (Restore.verifyDeletion env log index 30 0)
                   ((h ++ deleting) ++ [EvEsIndicesDelete index]))%list
      with (deleting ++ [EvEsIndicesDelete index]
              ++ events (Restore.verifyDeletion env log index 30 0)
                   ((h ++ deleting) ++ [EvEsIndicesDelete index]))%list.
    destruct (verifyDeletion_bounds env log index 29 0
                ((h ++ deleting) ++ [EvEsIndicesDelete index])%list)
      as [_ [_ [B4 _]]]; [lia | reflexivity |].
    pose proof (deleted_count (events (Restore.verifyDeletion env log index 30 0)
                  ((h ++ deleting) ++ [EvEsIndicesDelete index])%list)) as Hlen.
    rewrite B4 in Hlen. apply length_zero_iff_nil in Hlen.
    rewrite !deleted_app, Hd, Hlen. reflexivity.
Qed.

(** The loop deletes a prefix of its list, and all of it when it returns nil. *)
Lemma deleteIndices_loop_deletes log stsIndices :
  forall h,
    exists k,
      deleted (events (Restore.deleteIndices_loop env log stsIndices) h)
      = firstn k stsIndices
      /\ (value (Restore.deleteIndices_loop env log stsIndices) h = None ->
          deleted (events (Restore.deleteIndices_loop env log stsIndices) h)
          = stsIndices).
Proof.
  induction stsIndices as [|index rest IH]; intros h.
  - exists 0%nat. split; reflexivity.
  - cbn [Restore.deleteIndices_loop].
    rewrite value_bind, events_bind, deleted_app, deleted_deleteIndexWithVerification.
    destruct (value (Restore.deleteIndexWithVerification env index log) h) as [e|].
    + exists 1%nat. rewrite value_ret, events_ret. split; [reflexivity|].
      intros H; discriminate H.
    + destruct (IH (h ++ events (Restore.deleteIndexWithVerification env index log) h)%list)
        as [k [Hk Hall]].
      exists (S k). rewrite Hk. split; [reflexivity|].
      intros Hnil. cbn [app]. f_equal. rewrite <- Hk. exact (Hall Hnil).
Qed.

End DeleteFootprints.

#[export] Hint Resolve Verify_DeleteIndex Verify_IndexExists Verify_verifyDeletion
  Verify_deleteIndexWithVerification Verify_deleteIndices_loop
  Rollover_RolloverDatastream Prompt_confirmDeletion
  Calm_ListIndices Calm_GetSnapshot Calm_RestoreSnapshot : emits.

Lemma calls_app l1 l2 : calls (l1 ++ l2) = (calls l1 ++ calls l2)%list.
Proof. apply filter_app. Qed.

Lemma calls_log l : forallb isStderr l = true -> calls l = [].
Proof.
  intros H. induction l as [|e l IH]; [reflexivity|].
  cbn [forallb] in H. apply andb_true_iff in H. destruct H as [He Hl].
  unfold calls. cbn [filter]. rewrite He. exact (IH Hl).
Qed.

Lemma deleted_log l : forallb isStderr l = true -> deleted l = [].
Proof. intros H. apply (deleted_outside isStderr); [exact H | by_event]. Qed.

Lemma log_Infof log msg h : forallb isStderr (events (Logger.Infof log msg) h) = true.
Proof. apply Emits_Infof. reflexivity. Qed.

Lemma log_Successf log msg h : forallb isStderr (events (Logger.Successf log msg) h) = true.
Proof. apply Emits_Successf. reflexivity. Qed.

Lemma log_Println log h : forallb isStderr (events (Logger.Println log) h) = true.
Proof. apply Emits_Println. reflexivity. Qed.

Lemma events_RolloverDatastream env name h :
  events (ES.RolloverDatastream env name) h = [EvEsIndicesRollover name].
Proof.
  unfold ES.RolloverDatastream. rewrite events_bind, events_call, value_call.
  destruct (esIndicesRollover env h name) as [res|e]; [destruct (IsError res)|];
    reflexivity.
Qed.

Section DeleteShape.
Variable env : Env.
Variable stsIndices : list string.
Variable cfg : Config.
Variable log : Logger.Logger.

Let name : string := DatastreamName (Restore cfg).
Let hasDS : bool :=
  IndexSet.hasDatastreamIndices stsIndices (DatastreamIndexPrefix (Restore cfg)).

(** [deleteIndices] after the confirmation: the rollover, when there are
    datastream indices, and then the deletions. *)
Lemma deleteIndices_rollover_shape h :
  let m := Restore.deleteIndices_rollover env stsIndices cfg log in
  exists roll dels,
    events m h = (roll ++ dels)%list
    /\ forallb rolloverEvent roll = true
    /\ calls roll = (if hasDS then [EvEsIndicesRollover name] else [])
    /\ forallb verifyEvent dels = true
    /\ (exists k, deleted dels = firstn k stsIndices)
    /\ (value m h = None -> deleted dels = stsIndices).
Proof.
  intros m. unfold m, Restore.deleteIndices_rollover. fold hasDS. fold name.
  set (R := if hasDS
            then Logger.Infof log ("Rolling over datastream '" ++ name ++ "'...") ;;
                 err <- ES.RolloverDatastream env name ;;
                 match err with
                 | Some e => ret (Some ("failed to rollover datastream: " ++ e))
                 | None => Logger.Successf log "Datastream rolled over successfully" ;;
                           ret None
                 end
            else ret None).
  rewrite events_bind, value_bind.
  exists (events R h). eexists. split; [reflexivity|].
  assert (HR : Emits rolloverEvent R).
  { unfold R. destruct hasDS; footprint. }
  split; [apply HR|]. split.
  - unfold R. destruct hasDS; [|reflexivity].
    rewrite !events_bind, events_RolloverDatastream, !calls_app.
    rewrite (calls_log _ (log_Infof _ _ _)).
    destruct (value (ES.RolloverDatastream env name) _) as [e|].
    + reflexivity.
    + rewrite !events_bind, events_ret, app_nil_r.
      rewrite (calls_log _ (log_Successf _ _ _)). reflexivity.
  - destruct (value R h) as [e|].
    + rewrite events_ret, value_ret. split; [reflexivity|]. split.
      * exists 0%nat. reflexivity.
      * intros H; discriminate H.
    + rewrite !events_bind, !value_bind.
      set (h1 := ((h ++ events R h)
                    ++ events (Logger.Infof log ("Deleting "
                         ++ itoa (Restore.len stsIndices) ++ " index(es)...")) (h ++ events R h))%list).
      destruct (deleteIndices_loop_deletes env log stsIndices h1) as [k [Hk Hall]].
      split; [|split].
      * rewrite !forallb_app. apply andb_true_iff. split.
        -- apply (forallb_weaken isStderr); [apply log_Infof | by_event].
        -- apply andb_true_iff. split; [apply Verify_deleteIndices_loop|].
           destruct (value (Restore.deleteIndices_loop env log stsIndices) h1).
           ++ reflexivity.
           ++ rewrite events_bind, events_ret, app_nil_r.
              apply (forallb_weaken isStderr); [apply log_Successf | by_event].
      * exists k. rewrite !deleted_app, (deleted_log _ (log_Infof _ _ _)), Hk.
        destruct (value (Restore.deleteIndices_loop env log stsIndices) h1).
        -- rewrite events_ret. cbn [app deleted flat_map]. now rewrite app_nil_r.
        -- rewrite events_bind, events_ret, app_nil_r.
           rewrite (deleted_log _ (log_Successf _ _ _)). cbn [app]. now rewrite app_nil_r.
      * intros Hnil. rewrite !deleted_app, (deleted_log _ (log_Infof _ _ _)).
        destruct (value (Restore.deleteIndices_loop env log stsIndices) h1) eqn:El.
        -- rewrite value_ret in Hnil. discriminate Hnil.
        -- rewrite events_bind, events_ret, app_nil_r.
           rewrite (deleted_log _ (log_Successf _ _ _)), (Hall eq_refl).
           cbn [app]. now rewrite app_nil_r.
Qed.

End DeleteShape.

Section DeleteIndicesShape.
Variable env : Env.
Variable stsIndices : list string.
Variable cfg : Config.
Variable log : Logger.Logger.
Variable skipConfirm : bool.

Lemma len_zero {A} (l : list A) : (Restore.len l =? 0)%Z = true -> l = [].
Proof.
  unfold Restore.len. intros H. apply Z.eqb_eq in H.
  destruct l; [reflexivity | cbn in H; lia].
Qed.

(** [deleteIndices] is three parts in a row: asking, rolling over, deleting. *)
Lemma deleteIndices_shape h :
  let m := Restore.deleteIndices env stsIndices cfg log skipConfirm in
  exists ask roll dels,
    events m h = (ask ++ roll ++ dels)%list
    /\ forallb promptEvent ask = true
    /\ calls ask
       = (if negb (Restore.len stsIndices =? 0)%Z && negb skipConfirm
          then [prompt; EvStdinReadString] else [])
    /\ forallb rolloverEvent roll = true
    /\ (calls roll = []
        \/ (calls roll = [EvEsIndicesRollover (DatastreamName (Restore cfg))]
            /\ IndexSet.hasDatastreamIndices stsIndices
                 (DatastreamIndexPrefix (Restore cfg)) = true))
    /\ forallb verifyEvent dels = true
    /\ (exists k, deleted dels = firstn k stsIndices)
    /\ (value m h = None -> deleted dels = stsIndices).
Proof.
  intros m. unfold m, Restore.deleteIndices.
  destruct (Restore.len stsIndices =? 0)%Z eqn:El.
  - rewrite (len_zero _ El).
    exists (events (Logger.Infof log "No STS indices found to delete") h), [], [].
    rewrite events_bind, events_ret, !app_nil_r.
    split; [reflexivity|]. split.
    { apply (forallb_weaken isStderr); [apply log_Infof | by_event]. }
    split; [apply calls_log, log_Infof|].
    split; [reflexivity|]. split; [now left|]. split; [reflexivity|].
    split; [exists 0%nat; reflexivity | reflexivity].
  - cbn [negb andb].
    set (found := Logger.Infof log ("Found " ++ itoa (Restore.len stsIndices)
                                    ++ " STS index(es) to delete")).
    set (listing := forEach stsIndices (fun index => Logger.Debugf log ("  - " ++ index))).
    set (C := if negb skipConfirm then Restore.confirmDeletion env else ret None).
    assert (Hlisting : Emits isStderr listing) by (unfold listing; footprint).
    assert (Hfound : Emits isStderr found) by (unfold found; footprint).
    rewrite !events_bind, !value_bind.
    set (h1 := (h ++ events found h)%list).
    set (h2 := (h1 ++ events listing h1)%list).
    assert (HC : forallb promptEvent (events C h2) = true
                 /\ calls (events C h2)
                    = if negb skipConfirm then [prompt; EvStdinReadString] else []).
    { unfold C. destruct (negb skipConfirm); [|split; reflexivity].
      split; [apply Prompt_confirmDeletion|]. now rewrite events_confirmDeletion. }
    destruct HC as [HC1 HC2].
    assert (Hask : forallb promptEvent (events found h ++ events listing h1 ++ events C h2)
                   = true).
    { rewrite !forallb_app, HC1.
      rewrite (forallb_weaken isStderr promptEvent _ (Hfound _)) by by_event.
      rewrite (forallb_weaken isStderr promptEvent _ (Hlisting _)) by by_event.
      reflexivity. }
    assert (Hcalls : calls (events found h ++ events listing h1 ++ events C h2)
                     = if negb skipConfirm then [prompt; EvStdinReadString] else []).
    { rewrite !calls_app, HC2, (calls_log _ (Hfound _)), (calls_log _ (Hlisting _)).
      reflexivity. }
    destruct (value C h2) as [e|].
    + exists (events found h ++ events listing h1 ++ events C h2)%list, [], [].
      split; [rewrite events_ret, ?app_nil_r, <- ?app_assoc; reflexivity|].
      rewrite value_ret.
      split; [exact Hask|]. split; [exact Hcalls|].
      split; [reflexivity|]. split; [now left|]. split; [reflexivity|].
      split; [exists 0%nat; reflexivity | intros H; discriminate H].
    + destruct (deleteIndices_rollover_shape env stsIndices cfg log (h2 ++ events C h2)%list)
        as [roll [dels [He [Hr [Hc [Hd [Hk Hall]]]]]]].
      cbv zeta in He, Hall.
      exists (events found h ++ events listing h1 ++ events C h2)%list, roll, dels.
      split; [rewrite He, <- ?app_assoc; reflexivity|].
      split; [exact Hask|]. split; [exact Hcalls|].
      split; [exact Hr|]. split.
      { destruct (IndexSet.hasDatastreamIndices stsIndices
                    (DatastreamIndexPrefix (Restore cfg))); [right | left]; auto. }
      split; [exact Hd|]. split; [exact Hk | exact Hall].
Qed.

End DeleteIndicesShape.

(** ** The phases of a run *)

Import Phases.

Section Splitting.
Context {q1 q2 : Event -> bool} {P : list Event -> Prop}.

Lemma Split_none {A} (m : M A) : P [] -> Emits q1 m -> Split q1 P q2 m.
Proof.
  intros HP Hm h. exists (events m h), [], [].
  rewrite !app_nil_r. split; [reflexivity|]. split; [apply Hm|]. split; [exact HP|reflexivity].
Qed.

Lemma Split_core {A} (m : M A) : (forall h, P (events m h)) -> Split q1 P q2 m.
Proof.
  intros HP h. exists [], (events m h), [].
  rewrite app_nil_r. split; [reflexivity|]. split; [reflexivity|]. split; [apply HP|reflexivity].
Qed.

Lemma Split_after_value {A B} (m : M A) (f : A -> M B) :
  Emits q1 m -> (forall h, Split q1 P q2 (f (value m h))) -> Split q1 P q2 (bind m f).
Proof.
  intros Hm Hf h.
  destruct (Hf h (h ++ events m h)%list) as [before [D [after [He [Hb [HD Ha]]]]]].
  exists (events m h ++ before)%list, D, after.
  rewrite events_bind, He, <- app_assoc.
  split; [reflexivity|]. split; [|split; assumption].
  rewrite forallb_app, Hm, Hb. reflexivity.
Qed.

Lemma Split_after {A B} (m : M A) (f : A -> M B) :
  Emits q1 m -> (forall a, Split q1 P q2 (f a)) -> Split q1 P q2 (bind m f).
Proof. intros Hm Hf. apply Split_after_value; [exact Hm | intros h; apply Hf]. Qed.

Lemma Split_then {A B} (m : M A) (f : A -> M B) :
  Split q1 P q2 m -> (forall a, Emits q2 (f a)) -> Split q1 P q2 (bind m f).
Proof.
  intros Hm Hf h.
  destruct (Hm h) as [before [D [after [He [Hb [HD Ha]]]]]].
  exists before, D, (after ++ events (f (value m h)) (h ++ events m h))%list.
  rewrite events_bind, He, <- !app_assoc.
  split; [reflexivity|]. split; [exact Hb|]. split; [exact HD|].
  rewrite forallb_app, Ha, Hf. reflexivity.
Qed.

Lemma Split_withDefer {A} (d : M unit) (body : M A) :
  Split q1 P q2 body -> Emits q2 d -> Split q1 P q2 (withDefer d body).
Proof.
  intros Hb Hd. unfold withDefer. apply Split_then; [exact Hb|].
  intros a. apply Emits_bind; [exact Hd | intros _; apply Emits_ret].
Qed.

End Splitting.

(** A split of what follows the loading of the configuration is a split of
    the run. *)
Lemma runRestore_split (q1 q2 : Event -> bool) (P : Config -> list Event -> Prop)
    env cliCtx flags :
  let log := Logger.New (Quiet cliCtx) (Debug cliCtx) in
  (forall e, setupEvent e = true -> q1 e = true) ->
  (forall e, pauseEvent e = true -> q1 e = true) ->
  (forall e, resumeEvent e = true -> q2 e = true) ->
  (forall cfg, P cfg []) ->
  (forall cfg, Split q1 (P cfg) q2 (Restore.runRestore_scaled env cliCtx flags cfg log)) ->
  forall h,
    let run := Restore.runRestore env cliCtx flags in
    forallb q1 (events run h) = true
    \/ exists cfg,
         loadConfig env (h ++ [EvK8sNewClient (Kubeconfig cliCtx) (Debug cliCtx)])%list
           (Namespace cliCtx) (ConfigMapName cliCtx) (SecretName cliCtx) = Ok cfg
         /\ exists before D after,
              events run h = (before ++ D ++ after)%list
              /\ forallb q1 before = true
              /\ P cfg D
              /\ forallb q2 after = true.
Proof.
  intros log Hsetup Hpause Hresume Hnil Hbody h run.
  unfold run, Restore.runRestore. fold log.
  rewrite !events_bind, !value_call, !events_call.
  destruct (k8sNewClient env h (Kubeconfig cliCtx) (Debug cliCtx)) as [e|].
  { left. rewrite events_ret. cbn [app forallb]. rewrite Hsetup; reflexivity. }
  rewrite !events_bind, !value_call, !events_call.
  destruct (loadConfig env _ (Namespace cliCtx) (ConfigMapName cliCtx) (SecretName cliCtx))
    as [cfg|e] eqn:Ecfg.
  2:{ left. rewrite events_ret. cbn [app forallb]. rewrite !Hsetup; reflexivity. }
  right. exists cfg. split; [reflexivity|]. cbv zeta.
  set (rest := r <- Restore.scaleDownDeployments env (Namespace cliCtx)
                      (ScaleDownLabelSelector (Restore cfg)) log ;;
               match snd r with
               | Some e => ret (Some e)
               | None =>
                   withDefer (Restore.deferredScaleUp env cliCtx log (fst r))
                     (Restore.runRestore_scaled env cliCtx flags cfg log)
               end).
  assert (Hrest : Split q1 (P cfg) q2 rest).
  { unfold rest. apply Split_after.
    - apply (Emits_weaken pauseEvent); [apply Emits_scaleDownDeployments | exact Hpause].
    - intros r. destruct (snd r); [apply Split_none; [apply Hnil | apply Emits_ret]|].
      apply Split_withDefer; [apply Hbody|].
      apply (Emits_weaken resumeEvent); [apply Emits_deferredScaleUp | exact Hresume]. }
  set (hr := ((h ++ [EvK8sNewClient (Kubeconfig cliCtx) (Debug cliCtx)])
                ++ [EvLoadConfig (Namespace cliCtx) (ConfigMapName cliCtx)
                      (SecretName cliCtx)])%list).
  destruct (Hrest hr) as [before [D [after [He [Hb [HD Ha]]]]]].
  exists ([EvK8sNewClient (Kubeconfig cliCtx) (Debug cliCtx);
           EvLoadConfig (Namespace cliCtx) (ConfigMapName cliCtx) (SecretName cliCtx)]
            ++ before)%list, D, after.
  fold rest. fold hr. rewrite He. cbn [app forallb].
  rewrite !Hsetup by reflexivity. repeat split; assumption.
Qed.

Lemma events_RestoreSnapshot env repository name pattern wait h :
  events (ES.RestoreSnapshot env repository name pattern wait) h
  = [EvEsSnapshotRestore repository name pattern wait].
Proof.
  unfold ES.RestoreSnapshot. rewrite events_bind, events_call, value_call.
  destruct (esSnapshotRestore env h repository name pattern wait) as [res|e];
    [destruct (IsError res)|]; reflexivity.
Qed.

Lemma events_GetSnapshot env repository name h :
  events (ES.GetSnapshot env repository name) h = [EvEsSnapshotGet repository name].
Proof.
  unfold ES.GetSnapshot. rewrite events_bind, events_call, value_call.
  destruct (esSnapshotGet env h repository name) as [res|e]; [|reflexivity].
  destruct (IsError res); [reflexivity|].
  destruct (decodeSnapshots env (Body res)) as [[|s l]|e]; reflexivity.
Qed.

Lemma events_ListIndices env pattern h :
  events (ES.ListIndices env pattern) h = [EvEsCatIndices pattern].
Proof.
  unfold ES.ListIndices. rewrite events_bind, events_call, value_call.
  destruct (esCatIndices env h pattern) as [res|e]; [|reflexivity].
  destruct (IsError res); [reflexivity|].
  destruct (decodeIndices env (Body res)) as [l|e]; reflexivity.
Qed.

Section PhaseFootprints.
Variable env : Env.

Lemma Delete_confirmDeletion : Emits deleteEvent (Restore.confirmDeletion env).
Proof. apply (Emits_weaken promptEvent); [apply Prompt_confirmDeletion | by_event]. Qed.

Lemma Delete_RolloverDatastream name : Emits deleteEvent (ES.RolloverDatastream env name).
Proof. apply (Emits_weaken rolloverEvent); [apply Rollover_RolloverDatastream | by_event]. Qed.

Lemma Delete_deleteIndices_loop log stsIndices :
  Emits deleteEvent (Restore.deleteIndices_loop env log stsIndices).
Proof. apply (Emits_weaken verifyEvent); [apply Verify_deleteIndices_loop | by_event]. Qed.

#[local] Hint Resolve Delete_confirmDeletion Delete_RolloverDatastream
  Delete_deleteIndices_loop : emits.

Lemma Delete_deleteIndices_rollover stsIndices cfg log :
  Emits deleteEvent (Restore.deleteIndices_rollover env stsIndices cfg log).
Proof. unfold Restore.deleteIndices_rollover. footprint. Qed.

#[local] Hint Resolve Delete_deleteIndices_rollover : emits.

Lemma Delete_deleteIndices stsIndices cfg log skipConfirm :
  Emits deleteEvent (Restore.deleteIndices env stsIndices cfg log skipConfirm).
Proof. unfold Restore.deleteIndices. footprint. Qed.

Lemma Early_ListIndices pattern : Emits early (ES.ListIndices env pattern).
Proof. unfold ES.ListIndices. footprint. Qed.

Lemma NotRestore_ListIndices pattern : Emits notRestore (ES.ListIndices env pattern).
Proof. unfold ES.ListIndices. footprint. Qed.

Lemma NotRestore_GetSnapshot repository name :
  Emits notRestore (ES.GetSnapshot env repository name).
Proof. unfold ES.GetSnapshot. footprint. Qed.

Lemma NotRestore_deleteIndices stsIndices cfg log skipConfirm :
  Emits notRestore (Restore.deleteIndices env stsIndices cfg log skipConfirm).
Proof. apply (Emits_weaken deleteEvent); [apply Delete_deleteIndices | by_event]. Qed.

Lemma Tunnelled_runRestore_forwarded cliCtx flags cfg log :
  Emits tunnelledEvent (Restore.runRestore_forwarded env cliCtx flags cfg log).
Proof.
  assert (HL : forall p, Emits tunnelledEvent (ES.ListIndices env p))
    by (intros; apply (Emits_weaken esEvent); [apply Emits_ListIndices | by_event]).
  assert (HG : forall r n, Emits tunnelledEvent (ES.GetSnapshot env r n))
    by (intros; apply (Emits_weaken esEvent); [apply Emits_GetSnapshot | by_event]).
  assert (HR : forall r n p w, Emits tunnelledEvent (ES.RestoreSnapshot env r n p w))
    by (intros; apply (Emits_weaken esEvent); [apply Emits_RestoreSnapshot | by_event]).
  assert (HD : forall l c g s, Emits tunnelledEvent (Restore.deleteIndices env l c g s))
    by (intros; apply (Emits_weaken deleteEvent); [apply Delete_deleteIndices | by_event]).
  unfold Restore.runRestore_forwarded. cbv zeta. footprint.
Qed.

End PhaseFootprints.

#[export] Hint Resolve Early_ListIndices NotRestore_ListIndices NotRestore_GetSnapshot
  NotRestore_deleteIndices Delete_deleteIndices : emits.

Section RunPhases.
Variable env : Env.
Variable cliCtx : CLIConfig.
Variable flags : Flags.
Variable cfg : Config.
Variable log : Logger.Logger.

(** Once the tunnel is ready: the listing, then the delete phase, then the
    lookup of the snapshot and the restore. *)
Lemma Delete_runRestore_forwarded :
  Split early (DeletePhase env flags log cfg) calm
    (Restore.runRestore_forwarded env cliCtx flags cfg log).
Proof.
  unfold Restore.runRestore_forwarded. cbv zeta.
  apply Split_after; [footprint | intros _].
  apply Split_after; [footprint | intros err].
  destruct err; [apply Split_none; [now left | footprint]|].
  apply Split_after; [footprint | intros _].
  apply Split_after_value; [footprint | intros h0].
  destruct (value (ES.ListIndices env "*") h0) as [allIndices|e] eqn:Elist;
    [|apply Split_none; [now left | footprint]].
  apply Split_then.
  - destruct (dropAllIndices flags) eqn:Hdrop; [|apply Split_none; [now left | footprint]].
    apply Split_after; [footprint | intros _].
    apply Split_core. intros h. right. split; [exact Hdrop|].
    exists allIndices, h0, h. split; [exact Elist | reflexivity].
  - intros a. footprint.
Qed.

Lemma Delete_runRestore_scaled :
  Split early (DeletePhase env flags log cfg) calm
    (Restore.runRestore_scaled env cliCtx flags cfg log).
Proof.
  unfold Restore.runRestore_scaled. cbv zeta.
  apply Split_after; [footprint | intros _].
  apply Split_after; [footprint | intros err].
  destruct err; [apply Split_none; [now left | footprint]|].
  apply Split_withDefer; [|footprint].
  apply Split_after; [footprint | intros _].
  apply Delete_runRestore_forwarded.
Qed.

(** The restore call is the last call to Elasticsearch. *)
Lemma Restore_runRestore_forwarded :
  Split notRestore (RestoreCall flags cfg) notRestore
    (Restore.runRestore_forwarded env cliCtx flags cfg log).
Proof.
  unfold Restore.runRestore_forwarded. cbv zeta.
  apply Split_after; [footprint | intros _].
  apply Split_after; [footprint | intros err].
  destruct err; [apply Split_none; [now left | footprint]|].
  apply Split_after; [footprint | intros _].
  apply Split_after; [footprint | intros allIndices].
  destruct allIndices as [allIndices|e]; [|apply Split_none; [now left | footprint]].
  apply Split_after; [footprint | intros err].
  destruct err; [apply Split_none; [now left | footprint]|].
  apply Split_after; [footprint | intros _].
  apply Split_after; [footprint | intros _].
  apply Split_after; [footprint | intros snapshot].
  destruct snapshot as [snapshot|e]; [|apply Split_none; [now left | footprint]].
  apply Split_after; [footprint | intros _].
  apply Split_after; [footprint | intros _].
  apply Split_after; [footprint | intros _].
  apply Split_then; [|intros a; footprint].
  apply Split_core. intros h. right. apply events_RestoreSnapshot.
Qed.

Lemma Restore_runRestore_scaled :
  Split notRestore (RestoreCall flags cfg) notRestore
    (Restore.runRestore_scaled env cliCtx flags cfg log).
Proof.
  unfold Restore.runRestore_scaled. cbv zeta.
  apply Split_after; [footprint | intros _].
  apply Split_after; [footprint | intros err].
  destruct err; [apply Split_none; [now left | footprint]|].
  apply Split_withDefer; [|footprint].
  apply Split_after; [footprint | intros _].
  apply Restore_runRestore_forwarded.
Qed.

(** The tunnel is closed when the body returns, whatever it returns. *)
Lemma Tunnel_runRestore_scaled :
  Split beforeTunnel Tunnel resumeEvent
    (Restore.runRestore_scaled env cliCtx flags cfg log).
Proof.
  unfold Restore.runRestore_scaled. cbv zeta.
  apply Split_after; [footprint | intros _].
  apply Split_after; [footprint | intros err].
  destruct err; [apply Split_none; [now left | footprint]|].
  apply Split_core. intros h. right.
  exists (events (Restore.runRestore_forwarded env cliCtx flags cfg log)
            (h ++ [EvRecvReady])%list).
  split; [|apply Tunnelled_runRestore_forwarded].
  rewrite events_withDefer, events_bind, !events_emit. reflexivity.
Qed.

End RunPhases.

(** ** What a run deletes, and when it asks *)

Lemma early_calm e : early e = true -> calm e = true.
Proof. destruct e; simpl; solve [reflexivity | discriminate]. Qed.

Lemma filter_outside (q p : Event -> bool) l :
  forallb q l = true -> (forall e, q e = true -> p e = false) -> filter p l = [].
Proof.
  intros Hq Hp. induction l as [|e l IH]; [reflexivity|].
  cbn [forallb] in Hq. apply andb_true_iff in Hq. destruct Hq as [He Hl].
  cbn [filter]. rewrite (Hp e He). exact (IH Hl).
Qed.

Lemma asking_prompt l : forallb promptEvent l = true -> filter asking l = calls l.
Proof.
  intros H. induction l as [|e l IH]; [reflexivity|].
  cbn [forallb] in H. apply andb_true_iff in H. destruct H as [He Hl].
  unfold calls in *. cbn [filter]. rewrite (IH Hl).
  destruct e; try discriminate He; reflexivity.
Qed.

Lemma firstn_incl {A} k (l : list A) x : In x (firstn k l) -> In x l.
Proof.
  revert l. induction k as [|k IH]; intros [|y l] H; cbn [firstn] in H; try contradiction.
  destruct H as [H|H]; [now left | right; now apply IH].
Qed.

(** A run is early throughout, or it has loaded a configuration and holds
    one delete phase for it, with early events before and calm ones after. *)
Lemma runRestore_delete_phase env cliCtx flags h :
  let run := Restore.runRestore env cliCtx flags in
  let log := Logger.New (Quiet cliCtx) (Debug cliCtx) in
  forallb early (events run h) = true
  \/ exists cfg,
       loadConfig env (h ++ [EvK8sNewClient (Kubeconfig cliCtx) (Debug cliCtx)])%list
         (Namespace cliCtx) (ConfigMapName cliCtx) (SecretName cliCtx) = Ok cfg
       /\ exists before D after,
            events run h = (before ++ D ++ after)%list
            /\ forallb early before = true
            /\ DeletePhase env flags log cfg D
            /\ forallb calm after = true.
Proof.
  intros run log.
  apply (runRestore_split early calm (DeletePhase env flags log)).
  - by_event.
  - by_event.
  - by_event.
  - intros cfg. now left.
  - intros cfg. apply Delete_runRestore_scaled.
Qed.

(** X9. [deleteIndices] works in three steps, in this order, whatever
    Elasticsearch and the user answer.  It asks: the prompt is printed and
    one line is read exactly when the list is not empty and the confirmation
    is not skipped, and nothing else is called in that step.  It rolls over:
    at most one rollover call, for the configured datastream, and only when
    [hasDatastreamIndices] holds of the list.  It deletes: the delete calls
    are for a prefix of the list, in the order of the list, and for the whole
    list when the function returns nil. *)
Theorem deleteIndices_asks_rolls_over_deletes :
  forall (env : Env) (stsIndices : list string) (cfg : Config)
         (log : Logger.Logger) (skipConfirm : bool) (h : History),
    let m := Restore.deleteIndices env stsIndices cfg log skipConfirm in
    exists ask roll dels,
      events m h = (ask ++ roll ++ dels)%list
      /\ forallb promptEvent ask = true
      /\ calls ask
         = (if negb (Restore.len stsIndices =? 0)%Z && negb skipConfirm
            then [prompt; EvStdinReadString] else [])
      /\ forallb rolloverEvent roll = true
      /\ (calls roll = []
          \/ (calls roll = [EvEsIndicesRollover (DatastreamName (Restore cfg))]
              /\ IndexSet.hasDatastreamIndices stsIndices
                   (DatastreamIndexPrefix (Restore cfg)) = true))
      /\ forallb verifyEvent dels = true
      /\ (exists k, deleted dels = firstn k stsIndices)
      /\ (value m h = None -> deleted dels = stsIndices).
Proof.
  intros env stsIndices cfg log skipConfirm h.
  exact (deleteIndices_shape env stsIndices cfg log skipConfirm h).
Qed.

Lemma hasDatastreamIndices_nonempty indices dp :
  IndexSet.hasDatastreamIndices indices dp = true -> (Restore.len indices =? 0)%Z = false.
Proof.
  destruct indices as [|i l]; [discriminate|]. intros _.
  unfold Restore.len. cbn [List.length]. apply Z.eqb_neq. lia.
Qed.

(** X10. A rollover that fails ends [deleteIndices] before the first delete:
    when the list holds a member of the datastream and
    [RolloverDatastream] returns an error, [deleteIndices] returns an error,
    and no delete call and no existence check is made. *)
Theorem deleteIndices_rollover_failure_deletes_nothing :
  forall (env : Env) (stsIndices : list string) (cfg : Config)
         (log : Logger.Logger) (skipConfirm : bool) (h : History),
    let m := Restore.deleteIndices env stsIndices cfg log skipConfirm in
    IndexSet.hasDatastreamIndices stsIndices (DatastreamIndexPrefix (Restore cfg)) = true ->
    (forall h', value (ES.RolloverDatastream env (DatastreamName (Restore cfg))) h' <> None) ->
    (exists e, value m h = Some e)
    /\ deleted (events m h) = []
    /\ count isEsExists (events m h) = 0%nat.
Proof.
  intros env stsIndices cfg log skipConfirm h m Hds Hroll.
  unfold m, Restore.deleteIndices.
  rewrite (hasDatastreamIndices_nonempty _ _ Hds).
  set (A := Logger.Infof log _).
  set (B := forEach stsIndices _).
  set (C := if negb skipConfirm then Restore.confirmDeletion env else ret None).
  assert (HA : Emits promptEvent A) by (unfold A; footprint).
  assert (HB : Emits promptEvent B) by (unfold B; footprint).
  assert (HC : Emits promptEvent C).
  { unfold C. destruct (negb skipConfirm); [apply Prompt_confirmDeletion | apply Emits_ret]. }
  assert (Hout : forall l, forallb promptEvent l = true ->
                           deleted l = [] /\ count isEsExists l = 0%nat).
  { intros l Hl. split.
    - apply (deleted_outside promptEvent); [exact Hl | by_event].
    - apply (count_outside promptEvent); [exact Hl | by_event]. }
  rewrite !value_bind, !events_bind.
  set (h1 := (h ++ events A h)%list).
  set (h2 := (h1 ++ events B h1)%list).
  destruct (Hout _ (HA h)) as [HdA HcA].
  destruct (Hout _ (HB h1)) as [HdB HcB].
  destruct (Hout _ (HC h2)) as [HdC HcC].
  rewrite !deleted_app, !count_app, HdA, HdB, HdC, HcA, HcB, HcC.
  cbn [app Nat.add].
  destruct (value C h2) as [e|].
  { split; [exists e; reflexivity|]. rewrite events_ret. split; reflexivity. }
  unfold Restore.deleteIndices_rollover. rewrite Hds.
  repeat rewrite ?value_bind, ?events_bind.
  set (I := Logger.Infof log _).
  set (h3 := (h2 ++ events C h2)%list).
  set (h4 := (h3 ++ events I h3)%list).
  assert (HI : Emits isStderr I) by (unfold I; footprint).
  specialize (Hroll h4).
  rewrite !events_RolloverDatastream.
  destruct (value (ES.RolloverDatastream env (DatastreamName (Restore cfg))) h4) as [e|];
    [|contradiction].
  rewrite !events_ret, !value_ret, !app_nil_r.
  split; [eexists; reflexivity|].
  rewrite deleted_app, count_app.
  rewrite (deleted_log _ (HI h3)).
  rewrite (count_outside isStderr isEsExists _ (HI h3)) by by_event.
  split; reflexivity.
Qed.

Lemma deleteIndices_rollover_failure_deletes_nothing_witness :
  let env := Scripts.rolloverRefused in
  let m := Restore.deleteIndices env ["sts_topology"; "sts_k8s_logs-000001"]
             Fake.config (Logger.New false false) true in
  (exists e, value m [] = Some e)
  /\ deleted (events m []) = []
  /\ count isEsExists (events m []) = 0%nat.
Proof.
  apply (deleteIndices_rollover_failure_deletes_nothing Scripts.rolloverRefused
           ["sts_topology"; "sts_k8s_logs-000001"] Fake.config
           (Logger.New false false) true []).
  - reflexivity.
  - intros h'. vm_compute. discriminate.
Defined.

Lemma deleted_calm l : forallb calm l = true -> deleted l = [].
Proof. intros H. apply (deleted_outside calm); [exact H | by_event]. Qed.

Lemma deleted_early l : forallb early l = true -> deleted l = [].
Proof. intros H. apply (deleted_outside early); [exact H | by_event]. Qed.

Lemma deleted_deleteIndices env stsIndices cfg log skipConfirm h :
  exists k,
    deleted (events (Restore.deleteIndices env stsIndices cfg log skipConfirm) h)
    = firstn k stsIndices.
Proof.
  destruct (deleteIndices_shape env stsIndices cfg log skipConfirm h)
    as [ask [roll [dels [He [Ha [_ [Hr [_ [_ [[k Hk] _]]]]]]]]]].
  exists k. cbv zeta in He. rewrite He, !deleted_app.
  rewrite (deleted_outside promptEvent ask Ha) by by_event.
  rewrite (deleted_outside rolloverEvent roll Hr) by by_event.
  exact Hk.
Qed.

(** X12. Without the flag [dropAllIndices] a run never touches the indices
    that exist: no prompt, no reading of the standard input, no rollover, no
    delete call, no existence check and no sleep, whatever the outside
    answers. *)
Theorem runRestore_without_drop_keeps_indices :
  forall (env : Env) (cliCtx : CLIConfig) (flags : Flags) (h : History),
    dropAllIndices flags = false ->
    forallb calm (events (Restore.runRestore env cliCtx flags) h) = true.
Proof.
  intros env cliCtx flags h Hdrop.
  destruct (runRestore_delete_phase env cliCtx flags h)
    as [Hq | [cfg [Hcfg [before [D [after [He [Hb [HD Ha]]]]]]]]].
  { apply (forallb_weaken early); [exact Hq | exact early_calm]. }
  cbv zeta in He. rewrite He.
  destruct HD as [-> | [Hd _]]; [|rewrite Hdrop in Hd; discriminate Hd].
  cbn [app]. rewrite forallb_app, Ha.
  rewrite (forallb_weaken early calm before Hb early_calm). reflexivity.
Qed.

Lemma runRestore_without_drop_keeps_indices_witness :
  forallb calm
    (events (Restore.runRestore (Fake.world Fake.stuck) (Fake.cli false)
               (Fake.flags false false)) []) = true.
Proof.
  apply (runRestore_without_drop_keeps_indices (Fake.world Fake.stuck) (Fake.cli false)
           (Fake.flags false false) []).
  reflexivity.
Defined.

(** What a run writes to its standard output and reads from its standard
    input, in a trace: nothing, or the prompt and then one line. *)
Lemma runRestore_asking :
  forall (env : Env) (cliCtx : CLIConfig) (flags : Flags) (h : History),
    let evs := events (Restore.runRestore env cliCtx flags) h in
    filter asking evs = []
    \/ (dropAllIndices flags = true
        /\ skipConfirmation flags = false
        /\ filter asking evs = [prompt; EvStdinReadString]).
Proof.
  intros env cliCtx flags h evs. unfold evs.
  destruct (runRestore_delete_phase env cliCtx flags h)
    as [Hq | [cfg [Hcfg [before [D [after [He [Hb [HD Ha]]]]]]]]].
  { left. apply (filter_outside early); [exact Hq | by_event]. }
  cbv zeta in He. rewrite He, !filter_app.
  rewrite (filter_outside early asking before Hb) by by_event.
  rewrite (filter_outside calm asking after Ha) by by_event.
  rewrite app_nil_r. cbn [app].
  destruct HD as [-> | [Hdrop [allIndices [h0 [h' [_ ->]]]]]]; [now left|].
  destruct (deleteIndices_shape env
              (IndexSet.filterSTSIndices allIndices (IndexPrefix (Restore cfg))
                 (DatastreamIndexPrefix (Restore cfg)))
              cfg (Logger.New (Quiet cliCtx) (Debug cliCtx))
              (skipConfirmation flags) h')
    as [ask [roll [dels [Hev [Hask [Hcalls [Hr [_ [Hd _]]]]]]]]].
  cbv zeta in Hev. rewrite Hev, !filter_app.
  rewrite (filter_outside rolloverEvent asking roll Hr) by by_event.
  rewrite (filter_outside verifyEvent asking dels Hd) by by_event.
  rewrite !app_nil_r, (asking_prompt _ Hask), Hcalls.
  destruct (negb (Restore.len _ =? 0)%Z); [|now left].
  destruct (skipConfirmation flags); [now left|].
  right. repeat split; assumption.
Qed.

(** ** A failed resume after a restore that went well *)

Lemma split_after_prefix (q : Event -> bool) l1 l2 pre e post :
  (l1 ++ l2)%list = (pre ++ e :: post)%list ->
  forallb q l1 = true -> q e = false ->
  exists mid, pre = (l1 ++ mid)%list /\ l2 = (mid ++ e :: post)%list.
Proof.
  revert pre. induction l1 as [|x l1 IH]; intros pre H Hq He.
  - exists pre. split; [reflexivity | exact H].
  - cbn [forallb] in Hq. apply andb_true_iff in Hq. destruct Hq as [Hx Hl].
    destruct pre as [|y pre]; cbn [app] in H.
    + injection H as -> _. rewrite He in Hx. discriminate Hx.
    + injection H as <- H. destruct (IH pre H Hl He) as [mid [-> ->]].
      exists mid. split; reflexivity.
Qed.

Lemma split_before_suffix (q : Event -> bool) l1 l2 pre e post :
  (l1 ++ l2)%list = (pre ++ e :: post)%list ->
  forallb q l2 = true -> q e = false ->
  exists mid, l1 = (pre ++ e :: mid)%list /\ post = (mid ++ l2)%list.
Proof.
  revert l1. induction pre as [|y pre IH]; intros l1 H Hq He.
  - destruct l1 as [|x l1]; cbn [app] in H.
    + subst l2. cbn [forallb] in Hq. rewrite He in Hq. discriminate Hq.
    + injection H as -> H. exists l1. split; [reflexivity | now symmetry].
  - destruct l1 as [|x l1]; cbn [app] in H.
    + subst l2. cbn [forallb] in Hq. apply andb_true_iff in Hq. destruct Hq as [_ Hq].
      rewrite forallb_app in Hq. apply andb_true_iff in Hq. destruct Hq as [_ Hq].
      cbn [forallb] in Hq. rewrite He in Hq. discriminate Hq.
    + injection H as -> H. destruct (IH l1 H Hq He) as [mid [-> ->]].
      exists mid. split; reflexivity.
Qed.

Section NilWhenRestoredFacts.
Variable env : Env.

Lemma NilWhenRestored_none (m : M (option error)) :
  Emits notRestore m -> NilWhenRestored env m.
Proof.
  intros Hm h pre post r s p w res He _ _. exfalso.
  assert (Hin : In (EvEsSnapshotRestore r s p w) (events m h))
    by (rewrite He; apply in_elt).
  apply (In_forallb _ _ _ (Hm h)) in Hin. discriminate Hin.
Qed.

Lemma NilWhenRestored_after {A} (m : M A) (f : A -> M (option error)) :
  Emits notRestore m -> (forall a, NilWhenRestored env (f a)) ->
  NilWhenRestored env (bind m f).
Proof.
  intros Hm Hf h pre post r s p w res He Hres Herr.
  rewrite events_bind in He.
  destruct (split_after_prefix notRestore _ _ _ _ _ He (Hm h) eq_refl) as [mid [-> He']].
  rewrite value_bind.
  apply (Hf _ _ mid post r s p w res He'); [|exact Herr].
  rewrite <- app_assoc. exact Hres.
Qed.

Lemma NilWhenRestored_withDefer (d : M unit) (body : M (option error)) :
  NilWhenRestored env body -> Emits notRestore d ->
  NilWhenRestored env (withDefer d body).
Proof.
  intros Hb Hd h pre post r s p w res He Hres Herr.
  rewrite events_withDefer in He.
  destruct (split_before_suffix notRestore _ _ _ _ _ He (Hd _) eq_refl) as [mid [He' _]].
  rewrite value_withDefer.
  exact (Hb _ _ mid r s p w res He' Hres Herr).
Qed.

(** The restore call itself: answered without an error, it returns nil,
    and so does what follows when it only logs. *)
Lemma NilWhenRestored_RestoreSnapshot repository snapshot pattern wait
    (f : option error -> M (option error)) :
  (forall a, Emits notRestore (f a)) ->
  (forall h, value (f None) h = None) ->
  NilWhenRestored env (bind (ES.RestoreSnapshot env repository snapshot pattern wait) f).
Proof.
  intros Hf Hnil h pre post r s p w res He Hres Herr.
  rewrite events_bind, events_RestoreSnapshot in He.
  destruct pre as [|x pre]; cbn [app] in He.
  - injection He as <- <- <- <- _. rewrite app_nil_r in Hres.
    rewrite value_bind.
    assert (Hv : value (ES.RestoreSnapshot env repository snapshot pattern wait) h = None).
    { unfold ES.RestoreSnapshot. rewrite value_bind, value_call, Hres, Herr. reflexivity. }
    rewrite Hv. apply Hnil.
  - exfalso. injection He as _ He.
    assert (Hin : In (EvEsSnapshotRestore r s p w)
                    (events (f (value (ES.RestoreSnapshot env repository snapshot
                                         pattern wait) h))
                       (h ++ [EvEsSnapshotRestore repository snapshot pattern wait])%list))
      by (rewrite He; apply in_elt).
    apply (In_forallb _ _ _ (Hf _ _)) in Hin. discriminate Hin.
Qed.

Lemma NilWhenRestored_runRestore_forwarded cliCtx flags cfg log :
  NilWhenRestored env (Restore.runRestore_forwarded env cliCtx flags cfg log).
Proof.
  unfold Restore.runRestore_forwarded. cbv zeta.
  apply NilWhenRestored_after; [footprint | intros _].
  apply NilWhenRestored_after; [footprint | intros err].
  destruct err; [apply NilWhenRestored_none; footprint|].
  apply NilWhenRestored_after; [footprint | intros _].
  apply NilWhenRestored_after; [footprint | intros allIndices].
  destruct allIndices as [allIndices|e]; [|apply NilWhenRestored_none; footprint].
  apply NilWhenRestored_after; [footprint | intros err].
  destruct err; [apply NilWhenRestored_none; footprint|].
  apply NilWhenRestored_after; [footprint | intros _].
  apply NilWhenRestored_after; [footprint | intros _].
  apply NilWhenRestored_after; [footprint | intros snapshot].
  destruct snapshot as [snapshot|e]; [|apply NilWhenRestored_none; footprint].
  apply NilWhenRestored_after; [footprint | intros _].
  apply NilWhenRestored_after; [footprint | intros _].
  apply NilWhenRestored_after; [footprint | intros _].
  apply NilWhenRestored_RestoreSnapshot; [intros a; footprint | intros h; reflexivity].
Qed.

Lemma NilWhenRestored_runRestore_scaled cliCtx flags cfg log :
  NilWhenRestored env (Restore.runRestore_scaled env cliCtx flags cfg log).
Proof.
  unfold Restore.runRestore_scaled. cbv zeta.
  apply NilWhenRestored_after; [footprint | intros _].
  apply NilWhenRestored_after; [footprint | intros err].
  destruct err; [apply NilWhenRestored_none; footprint|].
  apply NilWhenRestored_withDefer; [|footprint].
  apply NilWhenRestored_after; [footprint | intros _].
  apply NilWhenRestored_runRestore_forwarded.
Qed.

(** Every failure before the restore call returns before that call, and
    what the deferred scale up does cannot change the result. *)
Lemma NilWhenRestored_runRestore cliCtx flags :
  NilWhenRestored env (Restore.runRestore env cliCtx flags).
Proof.
  unfold Restore.runRestore. cbv zeta.
  apply NilWhenRestored_after; [footprint | intros err].
  destruct err; [apply NilWhenRestored_none; footprint|].
  apply NilWhenRestored_after; [footprint | intros cfg].
  destruct cfg as [cfg|e]; [|apply NilWhenRestored_none; footprint].
  apply NilWhenRestored_after.
  { apply (Emits_weaken pauseEvent); [apply Emits_scaleDownDeployments | by_event]. }
  intros r. destruct (snd r); [apply NilWhenRestored_none; footprint|].
  apply NilWhenRestored_withDefer; [apply NilWhenRestored_runRestore_scaled|].
  apply (Emits_weaken resumeEvent); [apply Emits_deferredScaleUp | by_event].
Qed.

End NilWhenRestoredFacts.

(** C4, as the code has it.  When every phase through the snapshot restore
    has succeeded, the restore call has been made and Elasticsearch has
    answered it, at the history of the call, with a response that is not an
    error; the theorem asks no more than this of the phases.  When the scale
    up that the deferred function then runs returns an error, the run is
    still a success: [runRestore] returns nil, the process exits with code 0
    and [os.Exit] is not called.  The failure of the scale up is passed to
    the logger's [Warningf], which prints one warning line as the last thing
    of the run unless the logger is quiet: then nothing is printed for it. *)
Theorem resume_failure_is_only_a_warning :
  forall (env : Env) (cliCtx : CLIConfig) (flags : Flags) (h : History)
         (pre post : list Event) (repository snapshot pattern : string)
         (wait : bool) (res : Response) (ns : string) (e : error),
    let run := Restore.restoreCmd_Run env cliCtx flags in
    events (Restore.runRestore env cliCtx flags) h
    = (pre ++ EvEsSnapshotRestore repository snapshot pattern wait :: post)%list ->
    esSnapshotRestore env (h ++ pre)%list repository snapshot pattern wait = Ok res ->
    IsError res = false ->
    In (EvScaleUpReturn ns (Some e)) post ->
    value (Restore.runRestore env cliCtx flags) h = None
    /\ value run h = 0%Z
    /\ count isExit (events run h) = 0%nat
    /\ exists before,
         events run h
         = (before ++ EvScaleUpReturn (Namespace cliCtx) (Some e)
              :: (if Quiet cliCtx then []
                  else [EvStderr ("Warning: Failed to scale up deployments: "
                                  ++ e ++ nl)]))%list.
Proof.
  intros env cliCtx flags h pre post r s p w res ns e run He Hres Herr Hin.
  assert (Hnil : value (Restore.runRestore env cliCtx flags) h = None)
    by exact (NilWhenRestored_runRestore env cliCtx flags h pre post r s p w res
                He Hres Herr).
  split; [exact Hnil|].
  apply (failed_resume_of_a_nil_run env cliCtx flags h ns e Hnil).
  unfold Restore.restoreCmd_Run. rewrite events_bind, Hnil, events_ret, app_nil_r, He.
  apply in_or_app. right. right. exact Hin.
Qed.

Lemma resume_failure_is_only_a_warning_witness :
  let env := Fake.world (Fake.getsFail 200) in
  let run := Restore.restoreCmd_Run env (Fake.cli false) (Fake.flags false true) in
  value (Restore.runRestore env (Fake.cli false) (Fake.flags false true)) [] = None
  /\ value run [] = 0%Z
  /\ count isExit (events run []) = 0%nat
  /\ exists before,
       events run []
       = (before
            ++ [EvScaleUpReturn "ns" (Some "failed to get deployment A: not found");
                EvStderr ("Warning: Failed to scale up deployments: "
                          ++ "failed to get deployment A: not found" ++ nl)])%list.
Proof.
  apply (resume_failure_is_only_a_warning (Fake.world (Fake.getsFail 200))
           (Fake.cli false) (Fake.flags false true) []
           (firstn 22 (events (Restore.runRestore (Fake.world (Fake.getsFail 200))
                                 (Fake.cli false) (Fake.flags false true)) []))
           (skipn 23 (events (Restore.runRestore (Fake.world (Fake.getsFail 200))
                                (Fake.cli false) (Fake.flags false true)) []))
           "sts-backup" "backup-1" "sts*" true (Fake.status 200) "ns"
           "failed to get deployment A: not found").
  - vm_compute. reflexivity.
  - reflexivity.
  - reflexivity.
  - vm_compute. auto 20.
Defined.

(** ** What a run that returns nil has done *)

Section SplittingOk.
Context {q1 q2 : Event -> bool} {P : History -> list Event -> Prop}.

Lemma SplitOk_fail {A} (ok : A -> Prop) (m : M A) :
  (forall h, ~ ok (value m h)) -> SplitOk ok q1 P q2 m.
Proof. intros Hm h Hok. destruct (Hm h Hok). Qed.

Lemma SplitOk_none {A} (ok : A -> Prop) (m : M A) :
  (forall h, P h []) -> Emits q1 m -> SplitOk ok q1 P q2 m.
Proof.
  intros HP Hm h _. exists (events m h), [], [].
  rewrite !app_nil_r. split; [reflexivity|]. split; [apply Hm|]. split; [apply HP|reflexivity].
Qed.

Lemma SplitOk_core {A} (ok : A -> Prop) (m : M A) :
  (forall h, ok (value m h) -> P h (events m h)) -> SplitOk ok q1 P q2 m.
Proof.
  intros HP h Hok. exists [], (events m h), [].
  rewrite !app_nil_r. split; [reflexivity|]. split; [reflexivity|].
  split; [apply HP; exact Hok | reflexivity].
Qed.

Lemma SplitOk_after_value {A B} (ok : B -> Prop) (m : M A) (f : A -> M B) :
  Emits q1 m -> (forall h, SplitOk ok q1 P q2 (f (value m h))) ->
  SplitOk ok q1 P q2 (bind m f).
Proof.
  intros Hm Hf h Hok. rewrite value_bind in Hok.
  destruct (Hf h (h ++ events m h)%list Hok) as [before [D [after [He [Hb [HD Ha]]]]]].
  exists (events m h ++ before)%list, D, after.
  rewrite events_bind, He, <- app_assoc.
  split; [reflexivity|]. split; [|split; [|exact Ha]].
  - rewrite forallb_app, Hm, Hb. reflexivity.
  - rewrite app_assoc. exact HD.
Qed.

Lemma SplitOk_after {A B} (ok : B -> Prop) (m : M A) (f : A -> M B) :
  Emits q1 m -> (forall a, SplitOk ok q1 P q2 (f a)) -> SplitOk ok q1 P q2 (bind m f).
Proof. intros Hm Hf. apply SplitOk_after_value; [exact Hm | intros h; apply Hf]. Qed.

Lemma SplitOk_then {A B} (okm : A -> Prop) (ok : B -> Prop) (m : M A) (f : A -> M B) :
  SplitOk okm q1 P q2 m -> (forall a, Emits q2 (f a)) ->
  (forall a h, ok (value (f a) h) -> okm a) ->
  SplitOk ok q1 P q2 (bind m f).
Proof.
  intros Hm Hf Hok h Hv. rewrite value_bind in Hv.
  destruct (Hm h (Hok _ _ Hv)) as [before [D [after [He [Hb [HD Ha]]]]]].
  exists before, D, (after ++ events (f (value m h)) (h ++ events m h))%list.
  rewrite events_bind, He, <- !app_assoc.
  split; [reflexivity|]. split; [exact Hb|]. split; [exact HD|].
  rewrite forallb_app, Ha, Hf. reflexivity.
Qed.

Lemma SplitOk_withDefer {A} (ok : A -> Prop) (d : M unit) (body : M A) :
  SplitOk ok q1 P q2 body -> Emits q2 d -> SplitOk ok q1 P q2 (withDefer d body).
Proof.
  intros Hb Hd. unfold withDefer. apply (SplitOk_then ok); [exact Hb| |].
  - intros a. apply Emits_bind; [exact Hd | intros _; apply Emits_ret].
  - intros a h H. exact H.
Qed.

End SplittingOk.

Ltac failed := apply SplitOk_fail; intros ? H; discriminate H.

(** A split of the successful runs of what follows the loading of the
    configuration is a split of the successful runs. *)
Lemma runRestore_splitOk (q1 q2 : Event -> bool)
    (P : Config -> History -> list Event -> Prop) env cliCtx flags :
  let log := Logger.New (Quiet cliCtx) (Debug cliCtx) in
  (forall e, setupEvent e = true -> q1 e = true) ->
  (forall e, pauseEvent e = true -> q1 e = true) ->
  (forall e, resumeEvent e = true -> q2 e = true) ->
  (forall cfg, SplitOk isNil q1 (P cfg) q2
                 (Restore.runRestore_scaled env cliCtx flags cfg log)) ->
  forall h,
    let run := Restore.runRestore env cliCtx flags in
    value run h = None ->
    exists cfg,
      loadConfig env (h ++ [EvK8sNewClient (Kubeconfig cliCtx) (Debug cliCtx)])%list
        (Namespace cliCtx) (ConfigMapName cliCtx) (SecretName cliCtx) = Ok cfg
      /\ exists before D after,
           events run h = (before ++ D ++ after)%list
           /\ forallb q1 before = true
           /\ P cfg (h ++ before)%list D
           /\ forallb q2 after = true.
Proof.
  intros log Hsetup Hpause Hresume Hbody h run.
  unfold run, Restore.runRestore. fold log.
  rewrite !value_bind, !events_bind, !value_call, !events_call.
  destruct (k8sNewClient env h (Kubeconfig cliCtx) (Debug cliCtx)) as [e|].
  { intros H. discriminate H. }
  rewrite !value_bind, !events_bind, !value_call, !events_call.
  destruct (loadConfig env _ (Namespace cliCtx) (ConfigMapName cliCtx) (SecretName cliCtx))
    as [cfg|e] eqn:Ecfg.
  2:{ intros H. discriminate H. }
  intros Hv. exists cfg. split; [reflexivity|]. cbv zeta in *.
  set (rest := r <- Restore.scaleDownDeployments env (Namespace cliCtx)
                      (ScaleDownLabelSelector (Restore cfg)) log ;;
               match snd r with
               | Some e => ret (Some e)
               | None =>
                   withDefer (Restore.deferredScaleUp env cliCtx log (fst r))
                     (Restore.runRestore_scaled env cliCtx flags cfg log)
               end) in *.
  assert (Hrest : SplitOk isNil q1 (P cfg) q2 rest).
  { unfold rest. apply SplitOk_after.
    - apply (Emits_weaken pauseEvent); [apply Emits_scaleDownDeployments | exact Hpause].
    - intros r. destruct (snd r); [failed|].
      apply SplitOk_withDefer; [apply Hbody|].
      apply (Emits_weaken resumeEvent); [apply Emits_deferredScaleUp | exact Hresume]. }
  set (hr := ((h ++ [EvK8sNewClient (Kubeconfig cliCtx) (Debug cliCtx)])
                ++ [EvLoadConfig (Namespace cliCtx) (ConfigMapName cliCtx)
                      (SecretName cliCtx)])%list) in *.
  destruct (Hrest hr Hv) as [before [D [after [He [Hb [HD Ha]]]]]].
  exists ([EvK8sNewClient (Kubeconfig cliCtx) (Debug cliCtx);
           EvLoadConfig (Namespace cliCtx) (ConfigMapName cliCtx) (SecretName cliCtx)]
            ++ before)%list, D, after.
  rewrite He. cbn [app forallb]. rewrite !Hsetup by reflexivity.
  split; [reflexivity|]. split; [exact Hb|]. split; [|exact Ha].
  unfold hr in HD. rewrite <- !app_assoc in HD. exact HD.
Qed.

Lemma value_RestoreSnapshot_nil env repository name pattern wait h :
  value (ES.RestoreSnapshot env repository name pattern wait) h = None ->
  exists res,
    esSnapshotRestore env h repository name pattern wait = Ok res
    /\ IsError res = false.
Proof.
  unfold ES.RestoreSnapshot. rewrite value_bind, value_call.
  destruct (esSnapshotRestore env h repository name pattern wait) as [res|e];
    [|intros H; discriminate H].
  destruct (IsError res) eqn:Eres; [intros H; discriminate H|].
  intros _. exists res. split; [reflexivity | exact Eres].
Qed.

Lemma deleted_deleteIndices_nil env stsIndices cfg log skipConfirm h :
  let m := Restore.deleteIndices env stsIndices cfg log skipConfirm in
  value m h = None -> deleted (events m h) = stsIndices.
Proof.
  intros m Hv.
  destruct (deleteIndices_shape env stsIndices cfg log skipConfirm h)
    as [ask [roll [dels [He [Ha [_ [Hr [_ [_ [_ Hall]]]]]]]]]].
  fold m in He, Hall. rewrite He, !deleted_app.
  rewrite (deleted_outside promptEvent ask Ha) by by_event.
  rewrite (deleted_outside rolloverEvent roll Hr) by by_event.
  exact (Hall Hv).
Qed.

Section SuccessfulRun.
Variable env : Env.
Variable cliCtx : CLIConfig.
Variable flags : Flags.
Variable cfg : Config.
Variable log : Logger.Logger.

Lemma Restored_runRestore_forwarded :
  SplitOk isNil notRestore (Restored env flags cfg) aftermath
    (Restore.runRestore_forwarded env cliCtx flags cfg log).
Proof.
  unfold Restore.runRestore_forwarded. cbv zeta.
  apply SplitOk_after; [footprint | intros _].
  apply SplitOk_after; [footprint | intros err].
  destruct err; [failed|].
  apply SplitOk_after; [footprint | intros _].
  apply SplitOk_after; [footprint | intros allIndices].
  destruct allIndices as [allIndices|e]; [|failed].
  apply SplitOk_after; [footprint | intros err].
  destruct err; [failed|].
  apply SplitOk_after; [footprint | intros _].
  apply SplitOk_after; [footprint | intros _].
  apply SplitOk_after; [footprint | intros snapshot].
  destruct snapshot as [snapshot|e]; [|failed].
  apply SplitOk_after; [footprint | intros _].
  apply SplitOk_after; [footprint | intros _].
  apply SplitOk_after; [footprint | intros _].
  apply (SplitOk_then isNil).
  - apply SplitOk_core. intros h Hv.
    destruct (value_RestoreSnapshot_nil _ _ _ _ _ _ Hv) as [res [Hres Herr]].
    exists res. split; [apply events_RestoreSnapshot | split; assumption].
  - intros a. footprint.
  - intros [e|] h H; [discriminate H | reflexivity].
Qed.

Lemma Restored_runRestore_scaled :
  SplitOk isNil notRestore (Restored env flags cfg) aftermath
    (Restore.runRestore_scaled env cliCtx flags cfg log).
Proof.
  unfold Restore.runRestore_scaled. cbv zeta.
  apply SplitOk_after; [footprint | intros _].
  apply SplitOk_after; [footprint | intros err].
  destruct err; [failed|].
  apply SplitOk_withDefer; [|footprint].
  apply SplitOk_after; [footprint | intros _].
  apply Restored_runRestore_forwarded.
Qed.

End SuccessfulRun.

Lemma runRestore_restore_call env cliCtx flags h :
  let run := Restore.runRestore env cliCtx flags in
  forallb notRestore (events run h) = true
  \/ exists cfg,
       loadConfig env (h ++ [EvK8sNewClient (Kubeconfig cliCtx) (Debug cliCtx)])%list
         (Namespace cliCtx) (ConfigMapName cliCtx) (SecretName cliCtx) = Ok cfg
       /\ exists before D after,
            events run h = (before ++ D ++ after)%list
            /\ forallb notRestore before = true
            /\ RestoreCall flags cfg D
            /\ forallb notRestore after = true.
Proof.
  intros run.
  apply (runRestore_split notRestore notRestore (RestoreCall flags)).
  - by_event.
  - by_event.
  - by_event.
  - intros cfg. now left.
  - intros cfg. apply Restore_runRestore_scaled.
Qed.

(** X14. A run restores at most once, and only after it has finished
    deleting: the trace is cut in two so that no call for the snapshot, to
    look it up or to restore it, is before the cut, and nothing of the
    delete phase (prompt, reading, rollover, delete, existence check, sleep)
    is after it.  The restore call, if any, is the one call with the
    repository and the indices pattern of the loaded configuration, the
    snapshot name of the flag, and [waitForCompletion] set. *)
Theorem runRestore_restores_once_after_deleting :
  forall (env : Env) (cliCtx : CLIConfig) (flags : Flags) (h : History),
    let evs := events (Restore.runRestore env cliCtx flags) h in
    (exists pre post,
       evs = (pre ++ post)%list
       /\ count isEsSnapshotGet pre = 0%nat
       /\ count isEsRestore pre = 0%nat
       /\ forallb calm post = true)
    /\ (filter isEsRestore evs = []
        \/ exists cfg,
             loadConfig env (h ++ [EvK8sNewClient (Kubeconfig cliCtx) (Debug cliCtx)])%list
               (Namespace cliCtx) (ConfigMapName cliCtx) (SecretName cliCtx) = Ok cfg
             /\ filter isEsRestore evs
                = [EvEsSnapshotRestore (Repository (Restore cfg)) (snapshotName flags)
                     (IndicesPattern (Restore cfg)) true]).
Proof.
  intros env cliCtx flags h evs. unfold evs. split.
  - destruct (runRestore_delete_phase env cliCtx flags h)
      as [Hq | [cfg [Hcfg [before [D [after [He [Hb [HD Ha]]]]]]]]].
    { exists (events (Restore.runRestore env cliCtx flags) h), [].
      rewrite app_nil_r. split; [reflexivity|].
      split; [|split; [|reflexivity]];
        apply (count_outside early); try exact Hq; by_event. }
    cbv zeta in He. exists (before ++ D)%list, after.
    rewrite He, <- app_assoc. split; [reflexivity|].
    assert (HDq : forallb deleteEvent D = true).
    { destruct HD as [-> | [_ [allIndices [h0 [h' [_ ->]]]]]]; [reflexivity|].
      apply Delete_deleteIndices. }
    rewrite !count_app.
    rewrite (count_outside early isEsSnapshotGet before Hb) by by_event.
    rewrite (count_outside early isEsRestore before Hb) by by_event.
    rewrite (count_outside deleteEvent isEsSnapshotGet D HDq) by by_event.
    rewrite (count_outside deleteEvent isEsRestore D HDq) by by_event.
    repeat split; [exact Ha].
  - destruct (runRestore_restore_call env cliCtx flags h)
      as [Hq | [cfg [Hcfg [before [D [after [He [Hb [HD Ha]]]]]]]]].
    { left. apply (filter_outside notRestore); [exact Hq | by_event]. }
    cbv zeta in He. rewrite He, !filter_app.
    rewrite (filter_outside notRestore isEsRestore before Hb) by by_event.
    rewrite (filter_outside notRestore isEsRestore after Ha) by by_event.
    rewrite app_nil_r. cbn [app].
    destruct HD as [-> | ->]; [now left|].
    right. exists cfg. split; [exact Hcfg | reflexivity].
Qed.

(** X15. Elasticsearch is reached only through the tunnel, and the tunnel
    is closed on every path: the trace of a run is what precedes the tunnel
    (setting up, scaling down, asking for the port-forward), then nothing or
    one tunnel that starts when the port-forward is ready and ends with the
    closing of its stop channel, then what the deferred scale up does.  No
    call to Elasticsearch and no reading of the standard input is outside
    the tunnel, and after the stop channel is closed the scale up still
    runs. *)
Theorem runRestore_calls_Elasticsearch_inside_the_tunnel :
  forall (env : Env) (cliCtx : CLIConfig) (flags : Flags) (h : History),
    let evs := events (Restore.runRestore env cliCtx flags) h in
    exists before D after,
      evs = (before ++ D ++ after)%list
      /\ forallb beforeTunnel before = true
      /\ (D = []
          \/ exists inside,
               D = (EvRecvReady :: inside ++ [EvCloseStopChan])%list
               /\ forallb tunnelledEvent inside = true)
      /\ forallb resumeEvent after = true
      /\ count needsTunnel before = 0%nat
      /\ count needsTunnel after = 0%nat.
Proof.
  intros env cliCtx flags h evs. unfold evs.
  assert (Hout : forall before after,
             forallb beforeTunnel before = true -> forallb resumeEvent after = true ->
             count needsTunnel before = 0%nat /\ count needsTunnel after = 0%nat).
  { intros before after Hb Ha. split.
    - apply (count_outside beforeTunnel); [exact Hb | by_event].
    - apply (count_outside resumeEvent); [exact Ha | by_event]. }
  destruct (runRestore_split beforeTunnel resumeEvent (fun _ => Tunnel) env cliCtx flags)
    with (h := h) as [Hq | [cfg [_ [before [D [after [He [Hb [HD Ha]]]]]]]]].
  - by_event.
  - by_event.
  - by_event.
  - intros cfg. now left.
  - intros cfg. apply Tunnel_runRestore_scaled.
  - exists (events (Restore.runRestore env cliCtx flags) h), [], [].
    rewrite !app_nil_r. destruct (Hout _ [] Hq eq_refl) as [H1 H2].
    split; [reflexivity|]. split; [exact Hq|]. split; [now left|].
    split; [reflexivity|]. split; [exact H1 | reflexivity].
  - exists before, D, after. destruct (Hout _ _ Hb Ha) as [H1 H2].
    split; [exact He|]. split; [exact Hb|]. split; [exact HD|].
    split; [exact Ha|]. split; assumption.
Qed.

(** X16. [runRestore] returns nil only when the snapshot was restored: the
    restore call was made, with the repository and the indices pattern of
    the loaded configuration, the snapshot name of the flag and
    [waitForCompletion] set; Elasticsearch answered it with a response that
    is not an error; it is the only restore call; and after it the run only
    logs, closes the tunnel and scales up. *)
Theorem runRestore_nil_means_restored :
  forall (env : Env) (cliCtx : CLIConfig) (flags : Flags) (h : History),
    let run := Restore.runRestore env cliCtx flags in
    value run h = None ->
    exists cfg pre post res,
      let restore :=
        EvEsSnapshotRestore (Repository (Restore cfg)) (snapshotName flags)
          (IndicesPattern (Restore cfg)) true in
      loadConfig env (h ++ [EvK8sNewClient (Kubeconfig cliCtx) (Debug cliCtx)])%list
        (Namespace cliCtx) (ConfigMapName cliCtx) (SecretName cliCtx) = Ok cfg
      /\ events run h = (pre ++ restore :: post)%list
      /\ esSnapshotRestore env (h ++ pre)%list (Repository (Restore cfg))
           (snapshotName flags) (IndicesPattern (Restore cfg)) true = Ok res
      /\ IsError res = false
      /\ count isEsRestore pre = 0%nat
      /\ forallb aftermath post = true.
Proof.
  intros env cliCtx flags h run Hv.
  destruct (runRestore_splitOk notRestore aftermath (Restored env flags) env cliCtx flags)
    with (h := h) as [cfg [Hcfg [before [D [after [He [Hb [[res [-> [Hres Herr]]] Ha]]]]]]]].
  - by_event.
  - by_event.
  - by_event.
  - intros cfg. apply Restored_runRestore_scaled.
  - exact Hv.
  - exists cfg, before, after, res. cbv zeta.
    split; [exact Hcfg|]. split; [exact He|]. split; [exact Hres|].
    split; [exact Herr|]. split; [|exact Ha].
    apply (count_outside notRestore); [exact Hb | by_event].
Qed.

Lemma runRestore_nil_means_restored_witness :
  let env := Fake.world Fake.goneAtFifth in
  let run := Restore.runRestore env (Fake.cli false) (Fake.flags true true) in
  exists cfg pre post res,
    loadConfig env [EvK8sNewClient "" false] "ns" "cm" "secret" = Ok cfg
    /\ events run [] = (pre ++ EvEsSnapshotRestore (Repository (Restore cfg)) "backup-1"
                                (IndicesPattern (Restore cfg)) true :: post)%list
    /\ esSnapshotRestore env ([] ++ pre)%list (Repository (Restore cfg)) "backup-1"
         (IndicesPattern (Restore cfg)) true = Ok res
    /\ IsError res = false
    /\ count isEsRestore pre = 0%nat
    /\ forallb aftermath post = true.
Proof.
  apply (runRestore_nil_means_restored (Fake.world Fake.goneAtFifth) (Fake.cli false)
           (Fake.flags true true) []).
  vm_compute. reflexivity.
Defined.

(** ** The confirmation, the listing and the deletes of a run *)

Lemma filter_narrow (p q : Event -> bool) l :
  (forall e, p e = true -> q e = true) -> filter p l = filter p (filter q l).
Proof.
  intros Hpq. induction l as [|e l IH]; [reflexivity|].
  cbn [filter]. destruct (q e) eqn:Eq.
  - cbn [filter]. now rewrite IH.
  - destruct (p e) eqn:Ep; [|exact IH].
    rewrite (Hpq e Ep) in Eq. discriminate Eq.
Qed.

(** X13. [runRestore] asks for confirmation at most once: the prompt of
    [confirmDeletion] is printed and a line is read from the standard input
    only with [dropAllIndices] and without [skipConfirmation], once each,
    the prompt first; [runRestore] prints this prompt and reads the standard
    input nowhere else. *)
Theorem runRestore_asks_at_most_once :
  forall (env : Env) (cliCtx : CLIConfig) (flags : Flags) (h : History),
    let evs := events (Restore.runRestore env cliCtx flags) h in
    filter confirming evs = []
    \/ (dropAllIndices flags = true
        /\ skipConfirmation flags = false
        /\ filter confirming evs = [prompt; EvStdinReadString]).
Proof.
  intros env cliCtx flags h evs. unfold evs.
  rewrite (filter_narrow confirming asking) by by_event.
  destruct (runRestore_asking env cliCtx flags h) as [-> | [Hdrop [Hskip ->]]].
  - left. reflexivity.
  - right. split; [exact Hdrop|]. split; [exact Hskip | reflexivity].
Qed.

Lemma value_ListIndices_Ok env pattern h allIndices :
  value (ES.ListIndices env pattern) h = Ok allIndices ->
  exists res,
    esCatIndices env h pattern = Ok res
    /\ IsError res = false
    /\ decodeIndices env (Body res) = Ok allIndices.
Proof.
  unfold ES.ListIndices. rewrite value_bind, value_call.
  destruct (esCatIndices env h pattern) as [res|e]; [|intros H; discriminate H].
  destruct (IsError res) eqn:Eres; [intros H; discriminate H|].
  destruct (decodeIndices env (Body res)) as [l|e] eqn:Ed; [|intros H; discriminate H].
  intros H. injection H as <-. exists res. repeat split; assumption.
Qed.

Lemma Post_GetSnapshot env repository name :
  Emits postListing (ES.GetSnapshot env repository name).
Proof. unfold ES.GetSnapshot. footprint. Qed.

Lemma Post_RestoreSnapshot env repository name pattern wait :
  Emits postListing (ES.RestoreSnapshot env repository name pattern wait).
Proof. unfold ES.RestoreSnapshot. footprint. Qed.

#[export] Hint Resolve Post_GetSnapshot Post_RestoreSnapshot : emits.

Section ListingAndDeleting.
Variable env : Env.
Variable cliCtx : CLIConfig.
Variable flags : Flags.
Variable cfg : Config.
Variable log : Logger.Logger.

Let deleting := Phases.deleting env flags cfg log.

Lemma Delete_deleting allIndices : Emits deleteEvent (deleting allIndices).
Proof. unfold deleting, Phases.deleting. destruct (dropAllIndices flags); footprint. Qed.

Lemma deleted_deleting allIndices h :
  dropAllIndices flags = true ->
  exists k,
    deleted (events (deleting allIndices) h)
    = firstn k (IndexSet.filterSTSIndices allIndices (IndexPrefix (Restore cfg))
                  (DatastreamIndexPrefix (Restore cfg))).
Proof.
  intros Hdrop. unfold deleting, Phases.deleting.
  rewrite Hdrop, events_bind, deleted_app.
  rewrite (deleted_log _ (log_Println log h)). cbn [app].
  apply deleted_deleteIndices.
Qed.

Lemma deleted_deleting_nil allIndices h :
  value (deleting allIndices) h = None ->
  deleted (events (deleting allIndices) h)
  = if dropAllIndices flags
    then IndexSet.filterSTSIndices allIndices (IndexPrefix (Restore cfg))
           (DatastreamIndexPrefix (Restore cfg))
    else [].
Proof.
  unfold deleting, Phases.deleting. destruct (dropAllIndices flags); [|reflexivity].
  rewrite value_bind, events_bind, deleted_app.
  rewrite (deleted_log _ (log_Println log h)). cbn [app].
  apply deleted_deleteIndices_nil.
Qed.

(** The listing and what is done with the list, in any run. *)
Lemma DeletesListed_listing (K : option error -> M (option error)) :
  (forall a, Emits postListing (K a)) ->
  SplitOk (fun _ => True) preListing (DeletesListed env flags cfg) postListing
    (allIndices <- ES.ListIndices env "*" ;;
     match allIndices with
     | Err e => ret (Some ("failed to list indices: " ++ e))
     | Ok allIndices => err <- deleting allIndices ;; K err
     end).
Proof.
  intros HK h _. rewrite events_bind, events_ListIndices.
  destruct (value (ES.ListIndices env "*") h) as [allIndices|e] eqn:El.
  - rewrite events_bind.
    set (h1 := (h ++ [EvEsCatIndices "*"])%list).
    exists [], (EvEsCatIndices "*" :: events (deleting allIndices) h1),
      (events (K (value (deleting allIndices) h1))
         (h1 ++ events (deleting allIndices) h1)%list).
    split; [reflexivity|]. split; [reflexivity|]. split; [|apply HK].
    rewrite app_nil_r. right. exists (events (deleting allIndices) h1).
    split; [reflexivity|]. split.
    { apply (count_outside deleteEvent); [apply Delete_deleting | by_event]. }
    destruct (dropAllIndices flags) eqn:Hdrop.
    + right. split; [reflexivity|].
      destruct (deleted_deleting allIndices h1 Hdrop) as [k Hk].
      exists allIndices, k. split; [exact (value_ListIndices_Ok _ _ _ _ El) | exact Hk].
    + left. unfold deleting, Phases.deleting. rewrite Hdrop. reflexivity.
  - rewrite events_ret. exists [], [EvEsCatIndices "*"], [].
    split; [reflexivity|]. split; [reflexivity|]. split; [|reflexivity].
    right. exists []. split; [reflexivity|]. split; [reflexivity|]. now left.
Qed.

(** The listing and what is done with the list, in a run that returns nil. *)
Lemma Purged_listing (K : option error -> M (option error)) :
  (forall a, Emits postListing (K a)) ->
  (forall e h, value (K (Some e)) h <> None) ->
  SplitOk isNil preListing (Purged env flags cfg) postListing
    (allIndices <- ES.ListIndices env "*" ;;
     match allIndices with
     | Err e => ret (Some ("failed to list indices: " ++ e))
     | Ok allIndices => err <- deleting allIndices ;; K err
     end).
Proof.
  intros HK HKe h Hv. unfold isNil in Hv.
  rewrite value_bind in Hv. rewrite events_bind, events_ListIndices.
  destruct (value (ES.ListIndices env "*") h) as [allIndices|e] eqn:El;
    [|discriminate Hv].
  rewrite value_bind, events_ListIndices in Hv. rewrite events_bind.
  set (h1 := (h ++ [EvEsCatIndices "*"])%list) in *.
  destruct (value (deleting allIndices) h1) as [e|] eqn:Ed;
    [exfalso; exact (HKe _ _ Hv)|].
  exists [], (EvEsCatIndices "*" :: events (deleting allIndices) h1),
    (events (K None) (h1 ++ events (deleting allIndices) h1)%list).
  split; [reflexivity|]. split; [reflexivity|]. split; [|apply HK].
  rewrite app_nil_r. exists (events (deleting allIndices) h1), allIndices.
  split; [reflexivity|]. split.
  { apply (count_outside deleteEvent); [apply Delete_deleting | by_event]. }
  split; [exact (value_ListIndices_Ok _ _ _ _ El)|].
  exact (deleted_deleting_nil allIndices h1 Ed).
Qed.

Lemma DeletesListed_runRestore_forwarded :
  SplitOk (fun _ => True) preListing (DeletesListed env flags cfg) postListing
    (Restore.runRestore_forwarded env cliCtx flags cfg log).
Proof.
  unfold Restore.runRestore_forwarded. cbv zeta.
  apply SplitOk_after; [footprint | intros _].
  apply SplitOk_after; [footprint | intros err].
  destruct err; [apply SplitOk_none; [intros h; now left | footprint]|].
  apply SplitOk_after; [footprint | intros _].
  apply DeletesListed_listing. intros a. footprint.
Qed.

Lemma DeletesListed_runRestore_scaled :
  SplitOk (fun _ => True) preListing (DeletesListed env flags cfg) postListing
    (Restore.runRestore_scaled env cliCtx flags cfg log).
Proof.
  unfold Restore.runRestore_scaled. cbv zeta.
  apply SplitOk_after; [footprint | intros _].
  apply SplitOk_after; [footprint | intros err].
  destruct err; [apply SplitOk_none; [intros h; now left | footprint]|].
  apply SplitOk_withDefer; [|footprint].
  apply SplitOk_after; [footprint | intros _].
  apply DeletesListed_runRestore_forwarded.
Qed.

Lemma Purged_runRestore_forwarded :
  SplitOk isNil preListing (Purged env flags cfg) postListing
    (Restore.runRestore_forwarded env cliCtx flags cfg log).
Proof.
  unfold Restore.runRestore_forwarded. cbv zeta.
  apply SplitOk_after; [footprint | intros _].
  apply SplitOk_after; [footprint | intros err].
  destruct err; [failed|].
  apply SplitOk_after; [footprint | intros _].
  apply Purged_listing.
  - intros a. footprint.
  - intros e h H. discriminate H.
Qed.

Lemma Purged_runRestore_scaled :
  SplitOk isNil preListing (Purged env flags cfg) postListing
    (Restore.runRestore_scaled env cliCtx flags cfg log).
Proof.
  unfold Restore.runRestore_scaled. cbv zeta.
  apply SplitOk_after; [footprint | intros _].
  apply SplitOk_after; [footprint | intros err].
  destruct err; [failed|].
  apply SplitOk_withDefer; [|footprint].
  apply SplitOk_after; [footprint | intros _].
  apply Purged_runRestore_forwarded.
Qed.

End ListingAndDeleting.

(** A split of what follows the loading of the configuration, with the
    history of its middle part, is a split of the run. *)
Lemma runRestore_split_at (q1 q2 : Event -> bool)
    (P : Config -> History -> list Event -> Prop) env cliCtx flags :
  let log := Logger.New (Quiet cliCtx) (Debug cliCtx) in
  (forall e, setupEvent e = true -> q1 e = true) ->
  (forall e, pauseEvent e = true -> q1 e = true) ->
  (forall e, resumeEvent e = true -> q2 e = true) ->
  (forall cfg h, P cfg h []) ->
  (forall cfg, SplitOk (fun _ => True) q1 (P cfg) q2
                 (Restore.runRestore_scaled env cliCtx flags cfg log)) ->
  forall h,
    let run := Restore.runRestore env cliCtx flags in
    forallb q1 (events run h) = true
    \/ exists cfg,
         loadConfig env (h ++ [EvK8sNewClient (Kubeconfig cliCtx) (Debug cliCtx)])%list
           (Namespace cliCtx) (ConfigMapName cliCtx) (SecretName cliCtx) = Ok cfg
         /\ exists before D after,
              events run h = (before ++ D ++ after)%list
              /\ forallb q1 before = true
              /\ P cfg (h ++ before)%list D
              /\ forallb q2 after = true.
Proof.
  intros log Hsetup Hpause Hresume Hnil Hbody h run.
  unfold run, Restore.runRestore. fold log.
  rewrite !events_bind, !value_call, !events_call.
  destruct (k8sNewClient env h (Kubeconfig cliCtx) (Debug cliCtx)) as [e|].
  { left. rewrite events_ret. cbn [app forallb]. rewrite Hsetup; reflexivity. }
  rewrite !events_bind, !value_call, !events_call.
  destruct (loadConfig env _ (Namespace cliCtx) (ConfigMapName cliCtx) (SecretName cliCtx))
    as [cfg|e] eqn:Ecfg.
  2:{ left. rewrite events_ret. cbn [app forallb]. rewrite !Hsetup; reflexivity. }
  right. exists cfg. split; [reflexivity|]. cbv zeta.
  set (rest := r <- Restore.scaleDownDeployments env (Namespace cliCtx)
                      (ScaleDownLabelSelector (Restore cfg)) log ;;
               match snd r with
               | Some e => ret (Some e)
               | None =>
                   withDefer (Restore.deferredScaleUp env cliCtx log (fst r))
                     (Restore.runRestore_scaled env cliCtx flags cfg log)
               end).
  assert (Hrest : SplitOk (fun _ => True) q1 (P cfg) q2 rest).
  { unfold rest. apply SplitOk_after.
    - apply (Emits_weaken pauseEvent); [apply Emits_scaleDownDeployments | exact Hpause].
    - intros r. destruct (snd r); [apply SplitOk_none; [apply Hnil | apply Emits_ret]|].
      apply SplitOk_withDefer; [apply Hbody|].
      apply (Emits_weaken resumeEvent); [apply Emits_deferredScaleUp | exact Hresume]. }
  set (hr := ((h ++ [EvK8sNewClient (Kubeconfig cliCtx) (Debug cliCtx)])
                ++ [EvLoadConfig (Namespace cliCtx) (ConfigMapName cliCtx)
                      (SecretName cliCtx)])%list).
  destruct (Hrest hr I) as [before [D [after [He [Hb [HD Ha]]]]]].
  exists ([EvK8sNewClient (Kubeconfig cliCtx) (Debug cliCtx);
           EvLoadConfig (Namespace cliCtx) (ConfigMapName cliCtx) (SecretName cliCtx)]
            ++ before)%list, D, after.
  fold rest. fold hr. rewrite He. cbn [app forallb].
  rewrite !Hsetup by reflexivity.
  split; [reflexivity|]. split; [exact Hb|]. split; [|exact Ha].
  unfold hr in HD. rewrite <- !app_assoc in HD. exact HD.
Qed.

Lemma deleted_preListing l : forallb preListing l = true -> deleted l = [].
Proof. intros H. apply (deleted_outside preListing); [exact H | by_event]. Qed.

Lemma deleted_postListing l : forallb postListing l = true -> deleted l = [].
Proof. intros H. apply (deleted_outside postListing); [exact H | by_event]. Qed.

(** X11. A run deletes only what it has itself listed: the delete calls of
    [runRestore] are made only with the flag [dropAllIndices], after the one
    listing call of the run, and they are for a prefix, in order, of the
    filtered list of the indices that this call was answered with, at its
    place in the run; so every index deleted was in that answer and starts
    with the index prefix or the datastream prefix of the configuration that
    the run loaded. *)
Theorem runRestore_deletes_only_managed_indices :
  forall (env : Env) (cliCtx : CLIConfig) (flags : Flags) (h : History),
    let evs := events (Restore.runRestore env cliCtx flags) h in
    deleted evs = []
    \/ (dropAllIndices flags = true
        /\ exists cfg pre post res allIndices k,
             loadConfig env (h ++ [EvK8sNewClient (Kubeconfig cliCtx) (Debug cliCtx)])%list
               (Namespace cliCtx) (ConfigMapName cliCtx) (SecretName cliCtx) = Ok cfg
             /\ evs = (pre ++ EvEsCatIndices "*" :: post)%list
             /\ count isEsCatIndices pre = 0%nat
             /\ count isEsCatIndices post = 0%nat
             /\ deleted pre = []
             /\ esCatIndices env (h ++ pre)%list "*" = Ok res
             /\ IsError res = false
             /\ decodeIndices env (Body res) = Ok allIndices
             /\ deleted evs
                = firstn k (IndexSet.filterSTSIndices allIndices
                              (IndexPrefix (Restore cfg))
                              (DatastreamIndexPrefix (Restore cfg)))
             /\ forall index, In index (deleted evs) ->
                  In index allIndices
                  /\ (Strings.HasPrefix index (IndexPrefix (Restore cfg)) = true
                      \/ Strings.HasPrefix index
                           (DatastreamIndexPrefix (Restore cfg)) = true)).
Proof.
  intros env cliCtx flags h evs. unfold evs.
  destruct (runRestore_split_at preListing postListing (DeletesListed env flags)
              env cliCtx flags)
    with (h := h) as [Hq | [cfg [Hcfg [before [D [after [He [Hb [HD Ha]]]]]]]]].
  - by_event.
  - by_event.
  - by_event.
  - intros cfg h0. now left.
  - intros cfg. apply DeletesListed_runRestore_scaled.
  - left. now apply deleted_preListing.
  - cbv zeta in He. rewrite He.
    assert (Hdel : forall inner,
               deleted (before ++ (EvEsCatIndices "*" :: inner) ++ after) = deleted inner).
    { intros inner. rewrite !deleted_app, (deleted_preListing _ Hb),
        (deleted_postListing _ Ha), app_nil_r. reflexivity. }
    destruct HD as [-> | [inner [-> [Hc [Hd | [Hdrop [allIndices [k [[res [H1 [H2 H3]]] Hk]]]]]]]]].
    + left. rewrite !deleted_app, (deleted_preListing _ Hb), (deleted_postListing _ Ha).
      reflexivity.
    + left. now rewrite Hdel.
    + right. split; [exact Hdrop|].
      exists cfg, before, (inner ++ after)%list, res, allIndices, k.
      split; [exact Hcfg|].
      split; [cbn [app]; reflexivity|].
      split; [apply (count_outside preListing); [exact Hb | by_event]|].
      split.
      { rewrite count_app, Hc.
        rewrite (count_outside postListing isEsCatIndices after Ha) by by_event.
        reflexivity. }
      split; [now apply deleted_preListing|].
      split; [exact H1|]. split; [exact H2|]. split; [exact H3|].
      rewrite Hdel. split; [exact Hk|].
      intros index Hin. rewrite Hk in Hin. apply firstn_incl in Hin.
      rewrite filterSTSIndices_filter in Hin. apply filter_In in Hin.
      destruct Hin as [Hin Hsts]. split; [exact Hin|].
      unfold IndexSet.isSTS in Hsts. now apply orb_true_iff in Hsts.
Qed.

(** X17. When [runRestore] returns nil, it has listed the indices once,
    and with the flag [dropAllIndices] it has made a delete call for every
    managed index of the list that this listing call was answered with, at
    its place in the run: each once, in the order of that list, and for no
    other index.  Without the flag a run that returns nil has deleted
    nothing. *)
Theorem runRestore_nil_means_all_managed_deleted :
  forall (env : Env) (cliCtx : CLIConfig) (flags : Flags) (h : History),
    let run := Restore.runRestore env cliCtx flags in
    value run h = None ->
    exists cfg pre post res allIndices,
      loadConfig env (h ++ [EvK8sNewClient (Kubeconfig cliCtx) (Debug cliCtx)])%list
        (Namespace cliCtx) (ConfigMapName cliCtx) (SecretName cliCtx) = Ok cfg
      /\ events run h = (pre ++ EvEsCatIndices "*" :: post)%list
      /\ count isEsCatIndices pre = 0%nat
      /\ count isEsCatIndices post = 0%nat
      /\ deleted pre = []
      /\ esCatIndices env (h ++ pre)%list "*" = Ok res
      /\ IsError res = false
      /\ decodeIndices env (Body res) = Ok allIndices
      /\ deleted (events run h)
         = if dropAllIndices flags
           then IndexSet.filterSTSIndices allIndices (IndexPrefix (Restore cfg))
                  (DatastreamIndexPrefix (Restore cfg))
           else [].
Proof.
  intros env cliCtx flags h run Hv.
  destruct (runRestore_splitOk preListing postListing (Purged env flags) env cliCtx flags)
    with (h := h)
    as [cfg [Hcfg [before [D [after [He [Hb [HD Ha]]]]]]]].
  - by_event.
  - by_event.
  - by_event.
  - intros cfg. apply Purged_runRestore_scaled.
  - exact Hv.
  - fold run in He.
    destruct HD as [inner [allIndices [-> [Hc [[res [H1 [H2 H3]]] Hd]]]]].
    exists cfg, before, (inner ++ after)%list, res, allIndices.
    split; [exact Hcfg|].
    split; [rewrite He; cbn [app]; reflexivity|].
    split; [apply (count_outside preListing); [exact Hb | by_event]|].
    split.
    { rewrite count_app, Hc.
      rewrite (count_outside postListing isEsCatIndices after Ha) by by_event.
      reflexivity. }
    split; [now apply deleted_preListing|].
    split; [exact H1|]. split; [exact H2|]. split; [exact H3|].
    rewrite He, !deleted_app, (deleted_preListing _ Hb), (deleted_postListing _ Ha),
      app_nil_r.
    exact Hd.
Qed.

Lemma runRestore_nil_means_all_managed_deleted_witness :
  let env := Fake.world Fake.goneAtFifth in
  let run := Restore.runRestore env (Fake.cli true) (Fake.flags true true) in
  exists cfg pre post res allIndices,
    loadConfig env ([] ++ [EvK8sNewClient "" false])%list "ns" "cm" "secret" = Ok cfg
    /\ events run [] = (pre ++ EvEsCatIndices "*" :: post)%list
    /\ count isEsCatIndices pre = 0%nat
    /\ count isEsCatIndices post = 0%nat
    /\ deleted pre = []
    /\ esCatIndices env ([] ++ pre)%list "*" = Ok res
    /\ IsError res = false
    /\ decodeIndices env (Body res) = Ok allIndices
    /\ deleted (events run [])
       = if dropAllIndices (Fake.flags true true)
         then IndexSet.filterSTSIndices allIndices (IndexPrefix (Restore cfg))
                (DatastreamIndexPrefix (Restore cfg))
         else [].
Proof.
  apply (runRestore_nil_means_all_managed_deleted (Fake.world Fake.goneAtFifth)
           (Fake.cli true) (Fake.flags true true) []).
  vm_compute. reflexivity.
Defined.

(** ** Data is changed only while the deployments are paused *)

Lemma In_ScaleDownReturn_nil env namespace labelSelector log h :
  let pause := Restore.scaleDownDeployments env namespace labelSelector log in
  snd (value pause h) = None ->
  In (EvScaleDownReturn namespace labelSelector (fst (value pause h)) None)
     (events pause h).
Proof.
  intros pause Hp.
  destruct (scaleDownDeployments_shape env namespace labelSelector log h)
    as [announce [report [_ [_ [He Hv]]]]].
  fold pause in He, Hv.
  destruct (events_ScaleDownDeployments env namespace labelSelector (h ++ announce)%list)
    as [calls [_ Hk]].
  cbv zeta in Hk. rewrite He, Hk.
  destruct (snd (value (K8s.ScaleDownDeployments env namespace labelSelector)
                   (h ++ announce)%list)) as [e|] eqn:Ek.
  - rewrite Hv in Hp. discriminate Hp.
  - rewrite Hv. cbn [fst].
    apply in_or_app. right. apply in_or_app. left. apply in_or_app. right. now left.
Qed.

Lemma In_ScaleUpCall env cliCtx log scaled h :
  scaled <> [] ->
  In (EvScaleUpCall (Namespace cliCtx) scaled)
     (events (Restore.deferredScaleUp env cliCtx log scaled) h).
Proof.
  intros Hne. unfold Restore.deferredScaleUp. rewrite (len_pos scaled Hne).
  rewrite !events_bind.
  apply in_or_app. right. apply in_or_app. right. apply in_or_app. left.
  match goal with |- In _ (events _ ?h') =>
    destruct (events_ScaleUpDeployments env (Namespace cliCtx) scaled h') as [calls [_ Hk]]
  end.
  cbv zeta in Hk. rewrite Hk. now left.
Qed.

(** X18. [runRestore] changes what Elasticsearch holds only while the
    deployments are paused: before every rollover, delete or restore call of
    a run, [ScaleDownDeployments] has returned without an error and
    [ScaleUpDeployments] has not been called; and when the slice it returned
    is not empty, [ScaleUpDeployments] is called with that slice after the
    call. *)
Theorem runRestore_changes_data_only_while_paused :
  forall (env : Env) (cliCtx : CLIConfig) (flags : Flags) (h : History)
         (pre : list Event) (e : Event) (post : list Event),
    events (Restore.runRestore env cliCtx flags) h = (pre ++ e :: post)%list ->
    esMutation e = true ->
    count isScaleUpCall pre = 0%nat
    /\ exists labelSelector scaled,
         In (EvScaleDownReturn (Namespace cliCtx) labelSelector scaled None) pre
         /\ (scaled <> [] -> In (EvScaleUpCall (Namespace cliCtx) scaled) post).
Proof.
  intros env cliCtx flags h pre e post Hev He.
  assert (Hset : forall x, setupEvent x = true -> esMutation x = false) by by_event.
  assert (Hpau : forall x, pauseEvent x = true -> esMutation x = false) by by_event.
  assert (Hres : forall x, resumeEvent x = true -> esMutation x = false) by by_event.
  assert (Hin : In e (events (Restore.runRestore env cliCtx flags) h))
    by (rewrite Hev; apply in_elt).
  destruct (runRestore_cases env cliCtx flags h)
    as [[e' [_ Hs]] | [cfg [[e' [_ [_ Hs]]] | [Hp [_ Hs]]]]].
  - apply (In_forallb _ _ _ Hs), Hset in Hin. rewrite He in Hin. discriminate Hin.
  - exfalso. rewrite Hs in Hin. apply in_app_iff in Hin. destruct Hin as [Hin | Hin].
    + cbn [In] in Hin. destruct Hin as [<- | [<- | []]]; discriminate He.
    + apply (In_forallb _ _ _ (Emits_scaleDownDeployments _ _ _ _ _)), Hpau in Hin.
      rewrite He in Hin. discriminate Hin.
  - set (log := Logger.New (Quiet cliCtx) (Debug cliCtx)) in *.
    set (setup := [EvK8sNewClient (Kubeconfig cliCtx) (Debug cliCtx);
                   EvLoadConfig (Namespace cliCtx) (ConfigMapName cliCtx)
                     (SecretName cliCtx)]) in *.
    set (hp := (h ++ setup)%list) in *.
    set (pause := Restore.scaleDownDeployments env (Namespace cliCtx)
                    (ScaleDownLabelSelector (Restore cfg)) log) in *.
    set (hb := (hp ++ events pause hp)%list) in *.
    set (body := Restore.runRestore_scaled env cliCtx flags cfg log) in *.
    set (resume := Restore.deferredScaleUp env cliCtx log (fst (value pause hp))) in *.
    assert (Hpause : forallb pauseEvent (events pause hp) = true)
      by apply Emits_scaleDownDeployments.
    assert (Hbody : forallb restoreEvent (events body hb) = true)
      by apply Emits_runRestore_scaled.
    assert (Hresume : forallb resumeEvent (events resume (hb ++ events body hb)%list) = true)
      by apply Emits_deferredScaleUp.
    set (calmly := fun x : Event => negb (esMutation x)).
    assert (Hfront : forallb calmly (setup ++ events pause hp) = true).
    { rewrite forallb_app. apply andb_true_iff. split; [reflexivity|].
      apply (forallb_weaken pauseEvent); [exact Hpause|].
      intros x Hx. unfold calmly. now rewrite (Hpau x Hx). }
    assert (Hback : forallb calmly (events resume (hb ++ events body hb)%list) = true).
    { apply (forallb_weaken resumeEvent); [exact Hresume|].
      intros x Hx. unfold calmly. now rewrite (Hres x Hx). }
    assert (Hce : calmly e = false) by (unfold calmly; now rewrite He).
    rewrite Hev in Hs. rewrite app_assoc in Hs. symmetry in Hs.
    destruct (split_after_prefix calmly _ _ _ _ _ Hs Hfront Hce) as [mid [-> Hs']].
    destruct (split_before_suffix calmly _ _ _ _ _ Hs' Hback Hce) as [mid' [Hb ->]].
    split.
    + rewrite !count_app. cbn [count filter isScaleUpCall List.length].
      rewrite (count_outside pauseEvent isScaleUpCall _ Hpause) by by_event.
      rewrite Hb, forallb_app in Hbody. apply andb_true_iff in Hbody.
      destruct Hbody as [Hmid _].
      rewrite (count_outside restoreEvent isScaleUpCall _ Hmid) by by_event.
      reflexivity.
    + exists (ScaleDownLabelSelector (Restore cfg)), (fst (value pause hp)).
      split.
      * apply in_or_app. left. apply in_or_app. right.
        now apply In_ScaleDownReturn_nil.
      * intros Hne. apply in_or_app. right. now apply In_ScaleUpCall.
Qed.

Lemma runRestore_changes_data_only_while_paused_witness :
  let evs := events (Restore.runRestore (Fake.world Fake.goneAtFifth) (Fake.cli true)
                       (Fake.flags true true)) [] in
  count isScaleUpCall (firstn 10 evs) = 0%nat
  /\ exists labelSelector scaled,
       In (EvScaleDownReturn "ns" labelSelector scaled None) (firstn 10 evs)
       /\ (scaled <> [] -> In (EvScaleUpCall "ns" scaled) (skipn 11 evs)).
Proof.
  apply (runRestore_changes_data_only_while_paused (Fake.world Fake.goneAtFifth)
           (Fake.cli true) (Fake.flags true true) []
           (firstn 10 (events (Restore.runRestore (Fake.world Fake.goneAtFifth)
                                 (Fake.cli true) (Fake.flags true true)) []))
           (EvEsIndicesDelete "sts_topology")
           (skipn 11 (events (Restore.runRestore (Fake.world Fake.goneAtFifth)
                                (Fake.cli true) (Fake.flags true true)) []))).
  - vm_compute. reflexivity.
  - reflexivity.
Defined.
